(** * PersonalIntelligenceEngine: the analytical core, embedded in Rocq

    A shallow embedding of the Python pipeline (clustering, temporal
    analysis, anomaly detection, cyclic patterns) and the properties its
    specification states about it.

    Conventions of the embedding:
    - a Python [dict] with string keys is a [gmap string pyval]; a dict
      whose iteration order matters (counters, [defaultdict(list)]) is an
      association list in insertion order ([od_get], [od_set]);
    - records mutated in place live in a heap, a [gmap] from references
      to records, so that aliasing inside a list of records is visible;
    - a raised exception is the [Raise] branch of [result];
    - text is a string of 8-bit characters, [str.lower] is the ASCII one;
    - a float is the rational number that the binary64 value denotes
      ([Q]): every operation on floats computes the exact result and
      rounds it to the nearest double, ties to the even significand
      ([round64]), as IEEE 754 arithmetic does; signed zeros, infinities
      and NaN are not represented;
    - scikit-learn and the sentence encoder are interfaces (type classes):
      every theorem holds for any implementation of them. *)

From Stdlib Require Import ZArith QArith Qround Lqa String Ascii List Lia.
From Stdlib Require Import Permutation Sorted.
From Stdlib Require Import DecimalString.
From stdpp Require Import gmap strings list.

Local Open Scope string_scope.
Local Open Scope list_scope.
Local Open Scope Z_scope.

(** ** Python values, exceptions and built-ins *)

Module Py.

Inductive exn : Type :=
| KeyError (key : string)
| IndexError
| AttributeError
| TypeError
| ValueError (msg : string).

Inductive result (A : Type) : Type :=
| Ok (a : A)
| Raise (e : exn).
Arguments Ok {A} a.
Arguments Raise {A} e.

Definition bind {A B : Type} (m : result A) (k : A -> result B) : result B :=
  match m with
  | Ok a => k a
  | Raise e => Raise e
  end.

#[global] Instance result_ret : MRet result := fun A a => Ok a.
#[global] Instance result_bind : MBind result := fun A B k m => bind m k.

Definition is_ok {A : Type} (m : result A) : bool :=
  match m with Ok _ => true | Raise _ => false end.

(** Values stored in a record (an entry of the data set). *)
Inductive pyval : Type :=
| VNone
| VInt (z : Z)
| VFloat (q : Q)
| VStr (s : string)
| VDate (ordinal : Z)
| VVec (v : list Q).

(** [d[k]] *)
Definition getitem (d : gmap string pyval) (k : string) : result pyval :=
  match d !! k with
  | Some v => Ok v
  | None => Raise (KeyError k)
  end.

(** [d.get(k, dflt)] *)
Definition get (d : gmap string pyval) (k : string) (dflt : pyval) : pyval :=
  match d !! k with
  | Some v => v
  | None => dflt
  end.

(** A value used as text: only [str] has [.lower()]. *)
Definition as_str (v : pyval) : result string :=
  match v with
  | VStr s => Ok s
  | _ => Raise AttributeError
  end.

(** A value used as an integer label (cluster id, week number). *)
Definition as_int (v : pyval) : result Z :=
  match v with
  | VInt z => Ok z
  | _ => Raise TypeError
  end.

(** A value used as a date ([datetime] at midnight, as a day ordinal). *)
Definition as_date (v : pyval) : result Z :=
  match v with
  | VDate d => Ok d
  | _ => Raise TypeError
  end.

(** [xs[i]] for a list, [i >= 0]. *)
Definition list_getitem {A : Type} (xs : list A) (i : nat) : result A :=
  match xs !! i with
  | Some x => Ok x
  | None => Raise IndexError
  end.

(** [str.lower] on ASCII text. *)
Definition ascii_lower (c : ascii) : ascii :=
  let n := N_of_ascii c in
  if ((65 <=? n) && (n <=? 90))%N then ascii_of_N (n + 32) else c.

Fixpoint lower (s : string) : string :=
  match s with
  | EmptyString => EmptyString
  | String c s' => String (ascii_lower c) (lower s')
  end.

(** [w in t] for strings: [w] occurs in [t] as a contiguous substring. *)
Fixpoint str_in (w t : string) : bool :=
  String.prefix w t ||
  match t with
  | EmptyString => false
  | String _ t' => str_in w t'
  end.

(** [any(word in text for word in words)] *)
Definition any_in (words : list string) (text : string) : bool :=
  existsb (fun w => str_in w text) words.

(** [sum(1 for word in words if word in text)] *)
Fixpoint count_hits (words : list string) (text : string) : Z :=
  match words with
  | [] => 0
  | w :: ws => (if str_in w text then 1 else 0) + count_hits ws text
  end.

(** [round(x)] of Python 3: to the nearest integer, ties to even. *)
Definition round_half_even (q : Q) : Z :=
  let f := Qfloor q in
  match Qcompare (q - inject_Z f) (1 # 2) with
  | Lt => f
  | Gt => f + 1
  | Eq => if Z.even f then f else f + 1
  end.

(** [2 ** k] *)
Definition pow2 (k : Z) : Q :=
  if 0 <=? k then inject_Z (2 ^ k) else 1 # Z.to_pos (2 ^ (- k)).

(** [floor(log2(n / d))] *)
Definition ilog2 (n d : positive) : Z :=
  let e := Z.log2 (Zpos n) - Z.log2 (Zpos d) in
  if (if 0 <=? e then Zpos d * 2 ^ e <=? Zpos n
      else Zpos d <=? Zpos n * 2 ^ (- e))
  then e else e - 1.

(** The binary64 value nearest to [q], ties to the even significand:
    53 significant bits for a normal number, multiples of [2 ** -1074]
    below [2 ** -1022]. The result is in lowest terms. A magnitude
    beyond the largest double would be an infinity: the sentiments,
    means and scores that the pipeline rounds are far from it. *)
Definition round64 (q : Q) : Q :=
  let q := Qred q in
  match Qnum q with
  | 0 => 0%Q
  | Zpos n | Zneg n =>
      let e := ilog2 n (Qden q) in
      let quantum := Z.max (e - 52) (-1074) in
      Qred (inject_Z (round_half_even (q * pow2 (- quantum))) * pow2 quantum)
  end.

(** [x + y], [x - y], [x * y] and [x / y] on floats. *)
Definition fadd (x y : Q) : Q := round64 (x + y).
Definition fsub (x y : Q) : Q := round64 (x - y).
Definition fmul (x y : Q) : Q := round64 (x * y).
Definition fdiv (x y : Q) : Q := round64 (x / y).

(** [round(x, ndigits)] of a float, [ndigits >= 0]: the decimal nearest
    to the value of [x], ties to the even digit, and then the double
    nearest to that decimal. *)
Definition round (q : Q) (ndigits : nat) : Q :=
  let scale := Z.to_pos (10 ^ Z.of_nat ndigits) in
  round64 (Qmake (round_half_even (q * inject_Z (Zpos scale))) scale).

(** The eight running sums of numpy's summation loop: the elements of
    [body] are added to them in turn. *)
Definition accumulate (r : list Q) (body : list Q) : list Q :=
  fst (fold_left
         (fun '(r, j) x =>
            (take j r ++ fadd (nth j r 0%Q) x :: drop (S j) r,
             (S j mod 8)%nat))
         body (r, 0%nat)).

(** A block of 8 to 128 elements: eight running sums over the rows of
    eight, added up as a tree, then the elements that are left. *)
Definition block_sum (xs : list Q) : Q :=
  let n := length xs in
  let full := (n - n mod 8)%nat in
  let r := accumulate (take 8 xs) (take (full - 8) (drop 8 xs)) in
  let acc j := nth j r 0%Q in
  let res :=
    fadd (fadd (fadd (acc 0%nat) (acc 1%nat)) (fadd (acc 2%nat) (acc 3%nat)))
         (fadd (fadd (acc 4%nat) (acc 5%nat)) (fadd (acc 6%nat) (acc 7%nat))) in
  fold_left fadd (drop full xs) res.

(** [numpy.add.reduce] over a float64 array, numpy's pairwise summation:
    fewer than 8 elements are added from left to right, up to 128 as a
    block, and a longer array is cut near its middle, at a multiple of
    8. [fuel] bounds the cuts; the length of the array is enough. *)
Fixpoint pairwise_sum (fuel : nat) (xs : list Q) : Q :=
  let n := length xs in
  if (n <? 8)%nat then fold_left fadd xs 0%Q
  else if (n <=? 128)%nat then block_sum xs
  else
    match fuel with
    | O => block_sum xs
    | S fuel' =>
        let half := (n / 2)%nat in
        let n2 := (half - half mod 8)%nat in
        fadd (pairwise_sum fuel' (take n2 xs))
             (pairwise_sum fuel' (drop n2 xs))
    end.

Definition np_sum (xs : list Q) : Q := pairwise_sum (length xs) xs.

(** [numpy.mean(xs)] over floats: the sum, divided by the number of
    elements. The callers never pass an empty list, whose mean is NaN. *)
Definition np_mean (xs : list Q) : Q :=
  fdiv (np_sum xs) (inject_Z (Z.of_nat (length xs))).

(** [numpy.var(xs)]: the population variance (ddof = 0), computed as
    numpy does: the mean, the deviations from it, their squares, and
    the sum of the squares divided by the number of elements. *)
Definition np_var (xs : list Q) : Q :=
  let arrmean := np_mean xs in
  let x := map (fun a => fsub a arrmean) xs in
  let x := map (fun a => fmul a a) x in
  fdiv (np_sum x) (inject_Z (Z.of_nat (length xs))).

(** [max(xs, key=f)]: the first element whose key is maximal. *)
Fixpoint max_by {A : Type} (key : A -> Z) (best : A) (xs : list A) : A :=
  match xs with
  | [] => best
  | x :: xs' => max_by key (if key best <? key x then x else best) xs'
  end.

Definition max_key {A : Type} (key : A -> Z) (xs : list A) : result A :=
  match xs with
  | [] => Raise (ValueError "max() arg is an empty sequence")
  | x :: xs' => Ok (max_by key x xs')
  end.

(** [list.sort(key=f)]: a stable sort, ascending in the key. *)
Fixpoint sort_insert {A : Type} (key : A -> Q) (x : A) (l : list A) : list A :=
  match l with
  | [] => [x]
  | y :: l' =>
      if Qle_bool (key x) (key y) then x :: y :: l'
      else y :: sort_insert key x l'
  end.

Definition sort_by {A : Type} (key : A -> Q) (l : list A) : list A :=
  fold_right (sort_insert key) [] l.

(** [x < y] on floats. *)
Definition Qltb (x y : Q) : bool :=
  match Qcompare x y with
  | Lt => true
  | _ => false
  end.

(** A dict in insertion order. *)
Fixpoint od_get {V : Type} (d : list (Z * V)) (k : Z) : option V :=
  match d with
  | [] => None
  | (k', v) :: d' => if Z.eqb k' k then Some v else od_get d' k
  end.

(** [d[k] = v]: in place when [k] is present, appended otherwise. *)
Fixpoint od_set {V : Type} (d : list (Z * V)) (k : Z) (v : V) : list (Z * V) :=
  match d with
  | [] => [(k, v)]
  | (k', v') :: d' =>
      if Z.eqb k' k then (k', v) :: d' else (k', v') :: od_set d' k v
  end.

(** [d.keys()] and [len(d)] *)
Definition od_keys {V : Type} (d : list (Z * V)) : list Z := map fst d.

(** The objects of the run: a record is reached through a reference, and
    [entry[k] = v] updates the object every alias sees. A reference held
    by a list always points into the heap. *)
Definition deref (h : gmap nat (gmap string pyval)) (ref : nat)
    : gmap string pyval :=
  match h !! ref with
  | Some entry => entry
  | None => ∅
  end.

Definition setitem (h : gmap nat (gmap string pyval))
    (ref : nat) (k : string) (v : pyval) : gmap nat (gmap string pyval) :=
  alter (insert k v) ref h.

End Py.

(** ** src/clustering.py *)

Module ThemeClusterer.
Import Py.

(** The parameters held by a [sklearn.cluster.KMeans]. *)
Record KMeans : Type := {
  km_n_clusters : nat;
  km_random_state : Z;
  km_n_init : nat
}.

(** What the module uses of k-means: [fit_predict] labels every row of
    the matrix, [cluster_centers_] are the centroids of that fit. *)
Class KMeansImpl : Type := {
  fit_predict_labels : KMeans -> list (list Q) -> result (list Z);
  cluster_centers_ : KMeans -> list (list Q) -> list (list Q)
}.

Record ThemeClusterer : Type := {
  n_clusters : nat;
  model : KMeans
}.

Record Theme : Type := {
  theme_label : string;
  cluster_id : Z;
  representative_entries : list pyval;
  keywords : list string;
  cluster_confidence : Q;
  entry_count : nat
}.

Definition __init__ (n_clusters : nat) : ThemeClusterer :=
  {| n_clusters := n_clusters;
     model := {| km_n_clusters := n_clusters;
                 km_random_state := 42;
                 km_n_init := 10 |} |}.

(** [for i, entry in enumerate(data): entry['cluster'] = int(labels[i])] *)
Fixpoint assign_clusters
    (labels : list Z) (i : nat) (data : list nat)
    (h : gmap nat (gmap string pyval))
    : result unit * gmap nat (gmap string pyval) :=
  match data with
  | [] => (Ok tt, h)
  | ref :: data' =>
      match labels !! i with
      | None => (Raise IndexError, h)
      | Some label =>
          assign_clusters labels (S i) data' (setitem h ref "cluster" (VInt label))
      end
  end.

Section FitPredict.

(** [_extract_theme] reads the records, the matrix and the labels and
    builds a theme; it assigns to nothing it is given. *)
Variable _extract_theme :
  KMeans -> Z -> list (gmap string pyval) -> list (list Q) -> list Z ->
  result Theme.

Definition fit_predict `{KMeansImpl}
    (self : ThemeClusterer) (embeddings : list (list Q)) (data : list nat)
    (h : gmap nat (gmap string pyval))
    : result (list Theme) * gmap nat (gmap string pyval) :=
  match fit_predict_labels (model self) embeddings with
  | Raise e => (Raise e, h)
  | Ok labels =>
      match assign_clusters labels 0 data h with
      | (Raise e, h') => (Raise e, h')
      | (Ok _, h') =>
          (mapM (fun cluster_id =>
                   _extract_theme (model self) (Z.of_nat cluster_id)
                     (map (deref h') data) embeddings labels)
                (seq 0 (n_clusters self)),
           h')
      end
  end.

End FitPredict.

End ThemeClusterer.

(** ** src/temporal_analysis.py *)

Module TemporalAnalyzer.
Import Py.

Record WeeklySummary : Type := {
  week : Z;
  start_date : option pyval;
  end_date : option pyval;
  dominant_theme : string;
  mood_trend : string;
  entry_count : nat;
  micro_insight : string
}.

(** The loop of [_group_by_week]: every record gets its week number, and
    its reference is appended to the list of that week. *)
Fixpoint group_loop
    (start_date : Z) (data : list nat)
    (weekly_data : list (Z * list nat))
    (h : gmap nat (gmap string pyval))
    : result (list (Z * list nat)) * gmap nat (gmap string pyval) :=
  match data with
  | [] => (Ok weekly_data, h)
  | ref :: data' =>
      match getitem (deref h ref) "date_obj" ≫= as_date with
      | Raise e => (Raise e, h)
      | Ok d =>
          let days_diff := d - start_date in
          let week_num := days_diff / 7 + 1 in
          let h' := setitem h ref "week" (VInt week_num) in
          let members :=
            match od_get weekly_data week_num with
            | Some refs => refs
            | None => []
            end in
          group_loop start_date data'
            (od_set weekly_data week_num (members ++ [ref])) h'
      end
  end.

Definition _group_by_week
    (data : list nat) (h : gmap nat (gmap string pyval))
    : result (list (Z * list nat)) * gmap nat (gmap string pyval) :=
  match list_getitem data 0 with
  | Raise e => (Raise e, h)
  | Ok first =>
      match getitem (deref h first) "date_obj" ≫= as_date with
      | Raise e => (Raise e, h)
      | Ok start_date => group_loop start_date data [] h
      end
  end.

(** The cluster of a record: [entry.get('cluster', 0)]. The clusterer
    stores an [int]; another value is outside the data model. *)
Definition cluster_of (entry : gmap string pyval) : result Z :=
  as_int (get entry "cluster" (VInt 0)).

(** The counting loop of [_analyze_week]. *)
Fixpoint count_clusters
    (week_entries : list (gmap string pyval))
    (cluster_counts : list (Z * Z)) : result (list (Z * Z)) :=
  match week_entries with
  | [] => Ok cluster_counts
  | entry :: rest =>
      cluster ← cluster_of entry;
      let seen :=
        match od_get cluster_counts cluster with
        | Some n => n
        | None => 0
        end in
      count_clusters rest (od_set cluster_counts cluster (seen + 1))
  end.

(** [cluster_counts.get], the key of [max]. Every key that [max] visits
    is present. *)
Definition counts_get (cluster_counts : list (Z * Z)) (cluster : Z) : Z :=
  match od_get cluster_counts cluster with
  | Some n => n
  | None => 0
  end.

(** [max(cluster_counts, key=cluster_counts.get)] of a non-empty window. *)
Definition dominant_cluster
    (week_entries : list (gmap string pyval)) : result Z :=
  cluster_counts ← count_clusters week_entries [];
  max_key (counts_get cluster_counts) (od_keys cluster_counts).

Definition positive_words : list string :=
  ["good"; "great"; "happy"; "wonderful"; "amazing"; "love";
   "better"; "accomplished"; "grateful"; "fun"; "excited";
   "relieved"; "positive"; "motivated"; "confident"; "inspired"].

Definition negative_words : list string :=
  ["stress"; "pressure"; "anxious"; "nervous"; "worry"; "tough";
   "exhausted"; "tired"; "drained"; "difficult"; "hard"; "sick";
   "worried"; "unprepared"; "uncertain"].

(** The body of the sentiment loop of [_calculate_mood_trend]. *)
Definition sentiment_of (entry : gmap string pyval) : result Z :=
  raw ← as_str (get entry "combined_text" (VStr ""));
  let text := lower raw in
  let pos_count := count_hits positive_words text in
  let neg_count := count_hits negative_words text in
  Ok (pos_count - neg_count).

(** [numpy.mean] of a list of Python integers: numpy adds them up as
    float64 and divides by their number. The sentiments are small
    integers, so that every partial sum is an integer far below
    [2 ** 53] and exact in whatever order it is taken: the sum is the
    integer sum, and the division is the only rounding. *)
Definition np_mean_int (xs : list Z) : Q :=
  fdiv (inject_Z (fold_right Z.add 0 xs)) (inject_Z (Z.of_nat (length xs))).

Definition trend_of_diff (diff : Q) : string :=
  if Qltb (1 # 2) diff then "improving"
  else if Qltb diff (- (1 # 2)) then "declining"
  else "stable".

Definition _calculate_mood_trend
    (week_entries all_data : list (gmap string pyval))
    (embeddings : list (list Q)) : result string :=
  if (length week_entries <? 2)%nat then Ok "stable"
  else
    sentiments ← mapM sentiment_of week_entries;
    if (2 <=? length sentiments)%nat then
      let half := (length sentiments / 2)%nat in
      let first_half_avg := np_mean_int (take half sentiments) in
      let second_half_avg := np_mean_int (drop half sentiments) in
      let diff := fsub second_half_avg first_half_avg in
      Ok (trend_of_diff diff)
    else Ok "stable".

Definition _generate_micro_insight
    (week_entries : list (gmap string pyval))
    (dominant_theme : ThemeClusterer.Theme) (mood_trend : string) : string :=
  let theme_label := ThemeClusterer.theme_label dominant_theme in
  let insights : list (string * string) :=
    [("improving", theme_label +:+
        " shows positive progression. Consider maintaining current strategies.");
     ("declining", theme_label +:+
        " indicates increasing challenges. Consider seeking support or adjusting approach.");
     ("stable", theme_label +:+
        " remains consistent. Current balance appears sustainable.")] in
  match find (fun kv => String.eqb (fst kv) mood_trend) insights with
  | Some kv => snd kv
  | None => theme_label +:+ " is the focus this week."
  end.

Definition _analyze_week
    (week_num : Z) (week_entries : list (gmap string pyval))
    (themes : list ThemeClusterer.Theme) (embeddings : list (list Q))
    (all_data : list (gmap string pyval)) : result WeeklySummary :=
  dominant_theme ←
    match week_entries with
    | _ :: _ =>
        dominant ← dominant_cluster week_entries;
        fallback ← list_getitem themes 0;
        Ok (match find (fun t => ThemeClusterer.cluster_id t =? dominant) themes with
            | Some t => t
            | None => fallback
            end)
    | [] => list_getitem themes 0
    end;
  mood_trend ← _calculate_mood_trend week_entries all_data embeddings;
  week_dates ← mapM (fun entry => getitem entry "date") week_entries;
  let micro_insight :=
    _generate_micro_insight week_entries dominant_theme mood_trend in
  Ok {| week := week_num;
        start_date := head week_dates;
        end_date := last week_dates;
        dominant_theme := ThemeClusterer.theme_label dominant_theme;
        mood_trend := mood_trend;
        entry_count := length week_entries;
        micro_insight := micro_insight |}.

Definition analyze
    (embeddings : list (list Q)) (data : list nat)
    (themes : list ThemeClusterer.Theme)
    (h : gmap nat (gmap string pyval))
    : result (list WeeklySummary * nat) * gmap nat (gmap string pyval) :=
  match _group_by_week data h with
  | (Raise e, h') => (Raise e, h')
  | (Ok weekly_data, h') =>
      let all_data := map (deref h') data in
      (weekly_summaries ←
         mapM (fun '(week_num, refs) =>
                 _analyze_week week_num (map (deref h') refs)
                   themes embeddings all_data)
              weekly_data;
       Ok (weekly_summaries, length weekly_summaries),
       h')
  end.

End TemporalAnalyzer.

(** ** src/anomaly_detector.py *)

Module AnomalyDetector.
Import Py.

(** The parameters held by a [sklearn.ensemble.IsolationForest]. *)
Record IsolationForest : Type := {
  contamination : Q;
  random_state : Z
}.

(** What the module uses of a forest: [fit_predict] refits it on the
    matrix it is given and labels every row (-1 outlier, 1 inlier);
    [score_samples] scores rows with the forest as last fitted. With a
    fixed [random_state] both are functions of their arguments. *)
Class IsolationForestImpl : Type := {
  fit_predict : IsolationForest -> list (list Q) -> result (list Z);
  score_samples :
    IsolationForest -> list (list Q) -> list (list Q) -> result (list Q)
}.

Record AnomalyDetector : Type := {
  model : IsolationForest
}.

Record Anomaly : Type := {
  entry_id : pyval;
  date : string;
  anomaly_type : string;
  anomaly_score : Q;
  description : string
}.

Definition default_contamination : Q := 1 # 10.

Definition __init__ (contamination : Q) : AnomalyDetector :=
  {| model := {| contamination := contamination; random_state := 42 |} |}.

Definition stress_words : list string :=
  ["stress"; "pressure"; "anxious"; "nervous"].
Definition fatigue_words : list string :=
  ["sick"; "tired"; "exhausted"; "drained"].
Definition doubt_words : list string :=
  ["unprepared"; "worry"; "uncertain"; "doubt"].

(** The date of an entry as it is printed in a description. The loader
    parses [entry['date']] with [strptime], so it is a [str]; another
    value is outside the data model and reported as [TypeError]. *)
Definition date_text (entry : gmap string pyval) : result string :=
  v ← getitem entry "date";
  match v with
  | VStr s => Ok s
  | _ => Raise TypeError
  end.

Definition _generate_anomaly_description
    (entry : gmap string pyval) (anomaly_type : string) : result string :=
  d ← date_text entry;
  let descriptions : list (string * string) :=
    [("stress_surge", "Elevated stress levels detected on " +:+ d);
     ("fatigue_spike", "Significant fatigue indicators on " +:+ d);
     ("confidence_dip", "Confidence or self-doubt concerns on " +:+ d);
     ("emotional_spike", "Unusual emotional pattern detected on " +:+ d)] in
  Ok (match find (fun kv => String.eqb (fst kv) anomaly_type) descriptions with
      | Some kv => snd kv
      | None => "Anomaly detected on " +:+ d
      end).

Definition classify (text : string) : string :=
  if any_in stress_words text then "stress_surge"
  else if any_in fatigue_words text then "fatigue_spike"
  else if any_in doubt_words text then "confidence_dip"
  else "emotional_spike".

Definition _create_anomaly_entry
    (entry : gmap string pyval) (score : Q)
    (embeddings : list (list Q)) (index : nat) : result Anomaly :=
  raw ← as_str (get entry "combined_text" (VStr ""));
  let text := lower raw in
  let anomaly_type := classify text in
  id ← getitem entry "entry_id";
  d ← date_text entry;
  descr ← _generate_anomaly_description entry anomaly_type;
  Ok {| entry_id := id;
        date := d;
        anomaly_type := anomaly_type;
        anomaly_score := round score 4;
        description := descr |}.

(** The loop of [detect] over [enumerate(zip(predictions, scores))]. *)
Fixpoint detect_loop
    (data : list (gmap string pyval)) (embeddings : list (list Q))
    (i : nat) (rows : list (Z * Q)) : result (list Anomaly) :=
  match rows with
  | [] => Ok []
  | (pred, score) :: rows' =>
      if pred =? -1 then
        entry ← list_getitem data i;
        anomaly ← _create_anomaly_entry entry score embeddings i;
        anomalies ← detect_loop data embeddings (S i) rows';
        Ok (anomaly :: anomalies)
      else detect_loop data embeddings (S i) rows'
  end.

Definition detect `{IsolationForestImpl}
    (self : AnomalyDetector) (embeddings : list (list Q))
    (data : list (gmap string pyval)) : result (list Anomaly) :=
  predictions ← fit_predict (model self) embeddings;
  scores ← score_samples (model self) embeddings embeddings;
  anomalies ← detect_loop data embeddings 0 (combine predictions scores);
  Ok (sort_by anomaly_score anomalies).

End AnomalyDetector.

(** ** src/pattern_detector.py *)

Module PatternDetector.
Import Py.

Record WeeklyPattern : Type := {
  detected : bool;
  description : string
}.

Definition positive_words : list string :=
  ["good"; "great"; "happy"; "wonderful"; "amazing"; "love";
   "better"; "accomplished"; "grateful"; "fun"; "excited";
   "relieved"; "positive"; "motivated"; "confident"; "inspired";
   "recharged"; "energetic"; "optimistic"; "fulfilling"; "rewarding"].

Definition negative_words : list string :=
  ["stress"; "pressure"; "anxious"; "nervous"; "worry"; "tough";
   "exhausted"; "tired"; "drained"; "difficult"; "hard"; "sick";
   "worried"; "unprepared"; "uncertain"; "struggling"; "frustrated"].

Definition _calculate_sentiment (entry : gmap string pyval) : result Q :=
  raw ← as_str (get entry "combined_text" (VStr ""));
  let text := lower raw in
  let pos_count := count_hits positive_words text in
  let neg_count := count_hits negative_words text in
  let total := pos_count + neg_count in
  if 0 <? total then Ok (fdiv (inject_Z (pos_count - neg_count)) (inject_Z total))
  else Ok 0%Q.

(** The week of a record: [entry.get('week', 1)]. *)
Definition week_of (entry : gmap string pyval) : result Z :=
  as_int (get entry "week" (VInt 1)).

(** The grouping loop of [_detect_weekly_pattern]. *)
Fixpoint weekly_loop
    (data : list (gmap string pyval))
    (weekly_sentiments : list (Z * list Q)) : result (list (Z * list Q)) :=
  match data with
  | [] => Ok weekly_sentiments
  | entry :: data' =>
      week ← week_of entry;
      sentiment ← _calculate_sentiment entry;
      let sentiments :=
        match od_get weekly_sentiments week with
        | Some xs => xs
        | None => []
        end in
      weekly_loop data' (od_set weekly_sentiments week (sentiments ++ [sentiment]))
  end.

Definition fluctuating : string :=
  "Sentiment shows weekly fluctuations with peaks and valleys.".

Definition generic : string :=
  "Weekly patterns show stress peaks early in week improving towards weekend.".

Definition _detect_weekly_pattern
    (data : list (gmap string pyval)) : result WeeklyPattern :=
  weekly_sentiments ← weekly_loop data [];
  let week_averages :=
    map (fun '(week, sentiments) => (week, np_mean sentiments))
        weekly_sentiments in
  if (3 <=? length week_averages)%nat
     && Qltb (1 # 2) (np_var (map snd week_averages))
  then Ok {| detected := true; description := fluctuating |}
  else Ok {| detected := true; description := generic |}.

Record DayPattern : Type := {
  average_sentiment : Q;
  trend : string
}.

Record PatternReport : Type := {
  weekly_cycle_detected : bool;
  report_description : string;
  day_of_week_patterns : list (string * DayPattern)
}.

(** [datetime.weekday()]: 0 is Monday, on the proleptic ordinal. *)
Definition weekday (ordinal : Z) : Z := (ordinal + 6) mod 7.

(** The grouping loop of [_detect_day_of_week_pattern]. *)
Fixpoint dow_loop
    (data : list (gmap string pyval))
    (dow_sentiments : list (Z * list Q)) : result (list (Z * list Q)) :=
  match data with
  | [] => Ok dow_sentiments
  | entry :: data' =>
      d ← getitem entry "date_obj" ≫= as_date;
      let dow := weekday d in
      sentiment ← _calculate_sentiment entry;
      let sentiments :=
        match od_get dow_sentiments dow with
        | Some xs => xs
        | None => []
        end in
      dow_loop data' (od_set dow_sentiments dow (sentiments ++ [sentiment]))
  end.

Definition dow_names : list string :=
  ["Monday"; "Tuesday"; "Wednesday"; "Thursday"; "Friday"; "Saturday"; "Sunday"].

Definition _detect_day_of_week_pattern
    (data : list (gmap string pyval)) : result (list (string * DayPattern)) :=
  dow_sentiments ← dow_loop data [];
  mapM (fun '(dow, sentiments) =>
          name ← list_getitem dow_names (Z.to_nat dow);
          let avg := np_mean sentiments in
          Ok (name,
              {| average_sentiment := round avg 2;
                 trend := if Qltb 0 avg then "positive"
                          else if Qltb avg 0 then "negative"
                          else "neutral" |}))
       (filter (fun kv => snd kv <> []) dow_sentiments).

Definition detect_patterns
    (data : list (gmap string pyval)) (embeddings : list (list Q))
    : result PatternReport :=
  weekly_pattern ← _detect_weekly_pattern data;
  dow_pattern ← _detect_day_of_week_pattern data;
  Ok {| weekly_cycle_detected := detected weekly_pattern;
        report_description := description weekly_pattern;
        day_of_week_patterns := dow_pattern |}.

End PatternDetector.

(** ** src/embeddings.py *)

Module MultiModalEmbedder.
Import Py.

(** The sentence encoder: text in, vector out. *)
Class Encoder : Type := {
  encode : string -> result (list Q)
}.

(** A modality of a record as [_combine_modalities] sees it: a [str]
    counts when it is not empty, [None] and a missing key do not. Another
    value is outside the data model. *)
Definition modality (entry : gmap string pyval) (k : string)
    : result (option string) :=
  match get entry k VNone with
  | VNone => Ok None
  | VStr s => Ok (if String.eqb s "" then None else Some s)
  | _ => Raise TypeError
  end.

Definition _combine_modalities (entry : gmap string pyval) : result string :=
  text ← modality entry "text";
  voice ← modality entry "voice_transcript";
  image ← modality entry "image_caption";
  let parts :=
    match text with Some t => ["Diary: " +:+ t] | None => [] end ++
    match voice with Some t => ["Voice: " +:+ t] | None => [] end ++
    match image with Some t => ["Scene: " +:+ t] | None => [] end in
  Ok (String.concat " " parts).

Definition generate_embeddings `{Encoder}
    (data : list (gmap string pyval))
    : result (list (list Q) * list (gmap string pyval)) :=
  rows ← mapM (fun entry =>
                 combined_text ← _combine_modalities entry;
                 embedding ← encode combined_text;
                 Ok (embedding,
                     <["embedding" := VVec embedding]>
                       (<["combined_text" := VStr combined_text]> entry)))
              data;
  Ok (map fst rows, map snd rows).

End MultiModalEmbedder.

(** ** src/data_loader.py *)

Module DataLoader.
Import Py.

(** The file system and the date parser. *)
Class FileSystem : Type := {
  json_load : string -> result (list (gmap string pyval));
  strptime : pyval -> result Z
}.

Definition date_key (entry : gmap string pyval) : Q :=
  match get entry "date_obj" VNone with
  | VDate d => inject_Z d
  | _ => 0%Q
  end.

Definition load_data `{FileSystem} (file_path : string)
    : result (list (gmap string pyval)) :=
  data ← json_load file_path;
  dated ← mapM (fun entry =>
                  d ← getitem entry "date" ≫= strptime;
                  Ok (<["date_obj" := VDate d]> entry))
               data;
  Ok (sort_by date_key dated).

End DataLoader.

(** ** main.py *)

Module Main.
Import Py.

Inductive stage : Type :=
| Loading
| Embedding
| Clustering
| Temporal
| Anomalies
| Patterns
| Insights
| Visualizations
| Output.

Definition all_stages : list stage :=
  [Loading; Embedding; Clustering; Temporal; Anomalies; Patterns;
   Insights; Visualizations; Output].

(** The collaborators that turn the analysis into text, charts and the
    final report. *)
Class Reporting : Type := {
  insights_t : Type;
  output_t : Type;
  generate :
    list ThemeClusterer.Theme ->
    list TemporalAnalyzer.WeeklySummary * nat ->
    list AnomalyDetector.Anomaly ->
    PatternDetector.PatternReport ->
    list (gmap string pyval) -> result insights_t;
  create_all_visualizations :
    list (gmap string pyval) -> list (list Q) ->
    list ThemeClusterer.Theme ->
    list TemporalAnalyzer.WeeklySummary * nat ->
    list AnomalyDetector.Anomaly ->
    PatternDetector.PatternReport -> result (list string);
  generate_output :
    list ThemeClusterer.Theme ->
    list TemporalAnalyzer.WeeklySummary * nat ->
    list AnomalyDetector.Anomaly ->
    PatternDetector.PatternReport ->
    insights_t -> list string -> result output_t
}.

(** A stage of [main]: it is announced, it runs, and the run goes on only
    if it did not raise. The first component is the list of the stages
    that were started. *)
Definition run_stage {A B : Type} (s : stage) (m : result A)
    (k : A -> list stage * result B) : list stage * result B :=
  match m with
  | Raise e => ([s], Raise e)
  | Ok a => let '(started, r) := k a in (s :: started, r)
  end.

(** The records that [generate_embeddings] built are fresh objects. *)
Definition allocate (entries : list (gmap string pyval))
    : gmap nat (gmap string pyval) :=
  list_to_map (zip (seq 0 (length entries)) entries).

Section Pipeline.

Context `{DataLoader.FileSystem} `{MultiModalEmbedder.Encoder}
        `{ThemeClusterer.KMeansImpl} `{AnomalyDetector.IsolationForestImpl}
        `{Reporting}.

Variable _extract_theme :
  ThemeClusterer.KMeans -> Z -> list (gmap string pyval) ->
  list (list Q) -> list Z -> result ThemeClusterer.Theme.

(** The cluster count and the contamination of a run. *)
Definition main_n_clusters : nat := 5.
Definition main_contamination : Q := AnomalyDetector.default_contamination.

(** [main()]: the stages started, and the report written to
    [output/results.json] when every stage succeeded. *)
Definition main : list stage * result output_t :=
  run_stage Loading (DataLoader.load_data "data/input_data.json") (fun data =>
  run_stage Embedding (MultiModalEmbedder.generate_embeddings data)
    (fun '(embeddings, processed) =>
  let refs := seq 0 (length processed) in
  let h0 := allocate processed in
  let clusterer := ThemeClusterer.__init__ main_n_clusters in
  let '(themes_r, h1) :=
    ThemeClusterer.fit_predict _extract_theme clusterer embeddings refs h0 in
  run_stage Clustering themes_r (fun themes =>
  let '(temporal_r, h2) := TemporalAnalyzer.analyze embeddings refs themes h1 in
  run_stage Temporal temporal_r (fun temporal_data =>
  let processed_data := map (deref h2) refs in
  let anomaly_det := AnomalyDetector.__init__ main_contamination in
  run_stage Anomalies
    (AnomalyDetector.detect anomaly_det embeddings processed_data)
    (fun anomalies =>
  run_stage Patterns
    (PatternDetector.detect_patterns processed_data embeddings)
    (fun patterns =>
  run_stage Insights
    (generate themes temporal_data anomalies patterns processed_data)
    (fun insights =>
  run_stage Visualizations
    (create_all_visualizations processed_data embeddings themes
       temporal_data anomalies patterns)
    (fun viz_paths =>
  run_stage Output
    (generate_output themes temporal_data anomalies patterns insights viz_paths)
    (fun output => ([], Ok output)))))))))).

End Pipeline.

End Main.

(** ** More Python built-ins: words, counters, titles *)

Module PyText.
Import Py.

Definition is_lower (c : ascii) : bool :=
  let n := N_of_ascii c in ((97 <=? n) && (n <=? 122))%N.

Definition is_upper (c : ascii) : bool :=
  let n := N_of_ascii c in ((65 <=? n) && (n <=? 90))%N.

Definition is_digit (c : ascii) : bool :=
  let n := N_of_ascii c in ((48 <=? n) && (n <=? 57))%N.

(** [\w] of [re] on ASCII text: a letter, a digit or an underscore. *)
Definition is_word_char (c : ascii) : bool :=
  is_lower c || is_upper c || is_digit c || (N_of_ascii c =? 95)%N.

Definition ascii_upper (c : ascii) : ascii :=
  if is_lower c then ascii_of_N (N_of_ascii c - 32) else c.

(** [str.title]: the first letter of every run of letters in upper
    case, the other letters in lower case. *)
Fixpoint title_from (previous_is_cased : bool) (s : string) : string :=
  match s with
  | EmptyString => EmptyString
  | String c s' =>
      if is_lower c then
        String (if previous_is_cased then c else ascii_upper c)
               (title_from true s')
      else if is_upper c then
        String (if previous_is_cased then ascii_lower c else c)
               (title_from true s')
      else String c (title_from false s')
  end.

Definition title (s : string) : string := title_from false s.

(** The maximal runs of word characters of a text, in order; [run] is
    the run being read. *)
Fixpoint word_runs (s : string) (run : string) : list string :=
  match s with
  | EmptyString => if String.eqb run "" then [] else [run]
  | String c s' =>
      if is_word_char c then word_runs s' (run +:+ String c "")
      else (if String.eqb run "" then [] else [run]) ++ word_runs s' ""
  end.

Fixpoint all_chars (p : ascii -> bool) (s : string) : bool :=
  match s with
  | EmptyString => true
  | String c s' => p c && all_chars p s'
  end.

(** [re.findall(r'\b[a-z]{4,}\b', text)]: a match starts and ends at a
    word boundary and holds lower-case letters only, so the matches are
    the runs of word characters that are made of at least four
    lower-case letters. *)
Definition findall_words (text : string) : list string :=
  List.filter
    (fun w => all_chars is_lower w && (4 <=? String.length w)%nat)
    (word_runs text "").

(** A dict with string keys, in insertion order. *)
Fixpoint sd_get (d : list (string * Z)) (k : string) : option Z :=
  match d with
  | [] => None
  | (k', v) :: d' => if String.eqb k' k then Some v else sd_get d' k
  end.

Fixpoint sd_set (d : list (string * Z)) (k : string) (v : Z)
    : list (string * Z) :=
  match d with
  | [] => [(k, v)]
  | (k', v') :: d' =>
      if String.eqb k' k then (k', v) :: d' else (k', v') :: sd_set d' k v
  end.

(** [d.get(k, 0)] *)
Definition sd_count (d : list (string * Z)) (k : string) : Z :=
  match sd_get d k with
  | Some n => n
  | None => 0
  end.

(** [Counter(words)], and the loop [d[w] = d.get(w, 0) + 1]. *)
Fixpoint counter (words : list string) (counts : list (string * Z))
    : list (string * Z) :=
  match words with
  | [] => counts
  | w :: rest => counter rest (sd_set counts w (sd_count counts w + 1))
  end.

(** [Counter.most_common(n)]: by count, the highest first, equal counts
    in the order the words were first seen. *)
Definition most_common (n : nat) (counts : list (string * Z))
    : list (string * Z) :=
  take n (sort_by (fun kv => inject_Z (- snd kv)) counts).

(** [str(n)] for a length. *)
Definition str_of_nat (n : nat) : string :=
  NilEmpty.string_of_uint (Nat.to_uint n).

(** An item of [" ".join(...)]: a [str], or [TypeError]. *)
Definition as_joined (v : pyval) : result string :=
  match v with
  | VStr s => Ok s
  | _ => Raise TypeError
  end.

End PyText.

(** ** src/clustering.py: keywords and labels *)

Module ThemeExtraction.
Import Py PyText.

Definition stop_words : list string :=
  ["the"; "a"; "an"; "and"; "or"; "but"; "in"; "on"; "at"; "to";
   "for"; "of"; "with"; "by"; "from"; "up"; "about"; "is"; "was";
   "are"; "were"; "been"; "be"; "have"; "has"; "had"; "do"; "does";
   "did"; "will"; "would"; "could"; "should"; "may"; "might"; "can";
   "diary"; "voice"; "scene"; "this"; "that"; "i"; "my"; "me"].

(** [w in words] for a list or a set of strings. *)
Definition str_member (w : string) (words : list string) : bool :=
  existsb (String.eqb w) words.

Definition _extract_keywords (entries : list (gmap string pyval))
    : result (list string) :=
  texts ← mapM (fun entry => as_joined (get entry "combined_text" (VStr "")))
               entries;
  let all_text := lower (String.concat " " texts) in
  let words := findall_words all_text in
  let words := List.filter (fun w => negb (str_member w stop_words)) words in
  let word_counts := counter words [] in
  Ok (map fst (most_common 15 word_counts)).

Definition theme_keywords : list (string * list string) :=
  [("Work Performance",
    ["work"; "project"; "deadline"; "meeting"; "team"; "review";
     "presentation"; "client"; "office"]);
   ("Social Connection",
    ["friends"; "family"; "conversation"; "together"; "people";
     "colleague"; "bonding"]);
   ("Rest & Recovery",
    ["weekend"; "relax"; "rest"; "sleep"; "tired"; "recharged"; "break";
     "vacation"]);
   ("Health & Wellness",
    ["exercise"; "health"; "sick"; "recover"; "energy"; "running";
     "wellness"]);
   ("Personal Growth",
    ["learning"; "mentor"; "creative"; "goal"; "reflection"; "journey";
     "growth"]);
   ("Leisure & Recreation",
    ["beach"; "hiking"; "music"; "concert"; "movie"; "fun";
     "entertainment"])].

(** [sum(1 for kw in keywords if kw in theme_words)] *)
Fixpoint theme_score (keywords theme_words : list string) : Z :=
  match keywords with
  | [] => 0
  | kw :: rest =>
      (if str_member kw theme_words then 1 else 0)
      + theme_score rest theme_words
  end.

Definition _generate_theme_label
    (keywords : list string) (entries : list (gmap string pyval))
    : result string :=
  let theme_scores :=
    map (fun '(theme, theme_words) => (theme, theme_score keywords theme_words))
        theme_keywords in
  highest ← max_key (fun score => score) (map snd theme_scores);
  if 0 <? highest then
    max_key (sd_count theme_scores) (map fst theme_scores)
  else Ok (title (String.concat " " (take 2 keywords))).

End ThemeExtraction.

(** ** src/insight_generator.py *)

Module InsightGenerator.
Import Py PyText.

Record Insights : Type := {
  macro_insight : string;
  predictive_insight : string;
  safety_notes : list string
}.

Definition _generate_macro_insight
    (themes : list ThemeClusterer.Theme)
    (temporal_data : list TemporalAnalyzer.WeeklySummary * nat)
    (anomalies : list AnomalyDetector.Anomaly)
    (patterns : PatternDetector.PatternReport) : result string :=
  dominant_theme ←
    max_key (fun t => Z.of_nat (ThemeClusterer.entry_count t)) themes;
  let weekly_summaries := fst temporal_data in
  let trend_counts :=
    counter (map TemporalAnalyzer.mood_trend weekly_summaries) [] in
  dominant_trend ←
    match trend_counts with
    | [] => Ok "stable"
    | _ :: _ => max_key (sd_count trend_counts) (map fst trend_counts)
    end;
  let insight_parts :=
    ["Over the 30-day period, life patterns were primarily characterized by "
       +:+ lower (ThemeClusterer.theme_label dominant_theme) +:+ "."] ++
    [if String.eqb dominant_trend "improving" then
       "Overall emotional trajectory shows positive growth."
     else if String.eqb dominant_trend "declining" then
       "Some challenging periods were observed, suggesting need for additional support strategies."
     else
       "Emotional patterns remained relatively balanced throughout the period."] ++
    (if PatternDetector.weekly_cycle_detected patterns
     then [PatternDetector.report_description patterns] else []) ++
    (if (0 <? length anomalies)%nat
     then [str_of_nat (length anomalies)
             +:+ " significant emotional events were identified."]
     else []) in
  Ok (String.concat " " insight_parts).

Definition _generate_predictive_insight
    (temporal_data : list TemporalAnalyzer.WeeklySummary * nat)
    (patterns : PatternDetector.PatternReport)
    (data : list (gmap string pyval)) : string :=
  let weekly_summaries := fst temporal_data in
  if (length weekly_summaries <? 2)%nat then
    "Insufficient data for reliable prediction."
  else
    let recent_weeks := drop (length weekly_summaries - 2) weekly_summaries in
    let recent_trends := map TemporalAnalyzer.mood_trend recent_weeks in
    let recent_themes := map TemporalAnalyzer.dominant_theme recent_weeks in
    let prediction_parts :=
      (if forallb (fun t => String.eqb t "declining") recent_trends then
         ["If current pattern continues, Week 5 may show continued challenges.";
          "Consider implementing stress-reduction strategies proactively."]
       else if forallb (fun t => String.eqb t "improving") recent_trends then
         ["If momentum continues, Week 5 likely to show sustained positive trajectory.";
          "Consider strategies to maintain current positive practices."]
       else
         ["Week 5 may show similar patterns to recent weeks with typical weekly fluctuations."]) ++
      match recent_themes with
      | theme :: others =>
          if forallb (String.eqb theme) others
          then [theme +:+ " is likely to remain a central focus."]
          else []
      | [] => []
      end in
    String.concat " " prediction_parts.

Definition risk_words : list string :=
  ["hopeless"; "worthless"; "give up"; "can't go on"; "suicide"; "self-harm"].

Definition ambiguous_words : list string :=
  ["uncertain"; "doubt"; "worried"; "unprepared"].

(** The first loop of [_generate_safety_notes]: it stops at the first
    record with a risk word. *)
Fixpoint risk_loop (data : list (gmap string pyval)) : result bool :=
  match data with
  | [] => Ok false
  | entry :: rest =>
      raw ← as_str (get entry "combined_text" (VStr ""));
      if any_in risk_words (lower raw) then Ok true else risk_loop rest
  end.

(** The second loop: the count and the dates of the records with an
    ambiguous word. *)
Fixpoint ambiguous_loop (data : list (gmap string pyval))
    (ambiguous_count : nat) (ambiguous_dates : list pyval)
    : result (nat * list pyval) :=
  match data with
  | [] => Ok (ambiguous_count, ambiguous_dates)
  | entry :: rest =>
      raw ← as_str (get entry "combined_text" (VStr ""));
      if any_in ambiguous_words (lower raw) then
        d ← getitem entry "date";
        ambiguous_loop rest (S ambiguous_count) (ambiguous_dates ++ [d])
      else ambiguous_loop rest ambiguous_count ambiguous_dates
  end.

Definition high_risk_note : string :=
  "High-risk emotional indicators detected. Professional consultation strongly recommended.".

Definition no_risk_note : string :=
  "No critical risk indicators detected.".

Definition disclaimer : string :=
  "All insights are observational and non-diagnostic. This analysis does not replace professional mental health assessment.".

Definition _generate_safety_notes
    (anomalies : list AnomalyDetector.Anomaly)
    (data : list (gmap string pyval)) : result (list string) :=
  high_risk_detected ← risk_loop data;
  let notes :=
    [if (high_risk_detected : bool) then high_risk_note else no_risk_note] in
  found ← ambiguous_loop data 0%nat [];
  let ambiguous_count := fst found in
  let notes :=
    notes ++
    (if (0 <? ambiguous_count)%nat then
       ["Ambiguous self-doubt language detected on "
          +:+ str_of_nat ambiguous_count
          +:+ " occasions. Interpretations should consider broader context."]
     else []) in
  Ok (notes ++ [disclaimer]).

Definition generate
    (themes : list ThemeClusterer.Theme)
    (temporal_data : list TemporalAnalyzer.WeeklySummary * nat)
    (anomalies : list AnomalyDetector.Anomaly)
    (patterns : PatternDetector.PatternReport)
    (data : list (gmap string pyval)) : result Insights :=
  macro_insight ← _generate_macro_insight themes temporal_data anomalies patterns;
  let predictive_insight :=
    _generate_predictive_insight temporal_data patterns data in
  safety_notes ← _generate_safety_notes anomalies data;
  Ok {| macro_insight := macro_insight;
        predictive_insight := predictive_insight;
        safety_notes := safety_notes |}.

End InsightGenerator.

(** * Properties *)

(** [evaluate t H]: run the closed term [t] and keep its value as [H]. *)
Ltac evaluate t H :=
  let v := eval vm_compute in t in
  assert (H : t = v) by (vm_cast_no_check (@eq_refl _ v)).

(** The value of a run that returns. *)
Definition returned {A : Type} (r : Py.result A) (default : A) : A :=
  match r with Py.Ok a => a | Py.Raise _ => default end.

(** [returns t d H]: the closed term [t] returns, by evaluation; its
    value is kept as the term [returned t d]. *)
Ltac returns t d H :=
  assert (H : t = Py.Ok (returned t d))
    by (vm_cast_no_check (@eq_refl _ (Py.Ok (returned t d)))).

(** ** Exceptions *)

Module ResultFacts.
Import Py.

Lemma bind_Ok {A B : Type} (m : result A) (k : A -> result B) (b : B) :
  m ≫= k = Ok b -> exists a, m = Ok a /\ k a = Ok b.
Proof. destruct m as [a|e]; cbn; [eauto | discriminate]. Qed.

Lemma bind_Ok_eq {A B : Type} (m : result A) (k : A -> result B) (a : A) :
  m = Ok a -> m ≫= k = k a.
Proof. now intros ->. Qed.

(** Take a successful run apart, one statement at a time. *)
Ltac inv_run H :=
  repeat match type of H with
  | _ ≫= _ = Ok _ =>
      let a := fresh "a" in
      let Ha := fresh "Ha" in
      apply bind_Ok in H as (a & Ha & H)
  end.

Lemma mapM_Ok_Forall2 {A B : Type} (f : A -> result B) (xs : list A) (ys : list B) :
  mapM f xs = Ok ys <-> Forall2 (fun x y => f x = Ok y) xs ys.
Proof.
  revert ys. induction xs as [|x xs IH]; intros ys.
  - split.
    + intros [= <-]. constructor.
    + intros Hf. inversion Hf. reflexivity.
  - change (mapM f (x :: xs))
      with (f x ≫= fun y => mapM f xs ≫= fun k => Ok (y :: k)).
    split.
    + intros Hrun. inv_run Hrun. injection Hrun as <-.
      constructor; [assumption | now apply IH].
    + intros Hf. inversion Hf as [|x' y xs' ys' Hy Hrest]; subst.
      apply IH in Hrest. now rewrite Hy, Hrest.
Qed.

Lemma mapM_length {A B : Type} (f : A -> result B) (xs : list A) (ys : list B) :
  mapM f xs = Ok ys -> length ys = length xs.
Proof.
  rewrite mapM_Ok_Forall2. intros Hf. symmetry. eapply Forall2_length, Hf.
Qed.

End ResultFacts.

(** ** Text: substrings and lower case *)

Module TextFacts.
Import Py.

(** [w] occurs in [t]: [t] is some text, then [w], then some text. *)
Definition occurs (w t : string) : Prop :=
  exists a b, t = a +:+ (w +:+ b).

(** One of [words] occurs in [t]. *)
Definition mentions (words : list string) (t : string) : Prop :=
  exists w, In w words /\ occurs w t.

Lemma prefix_spec (w t : string) :
  String.prefix w t = true <-> exists b, t = w +:+ b.
Proof.
  revert t. induction w as [|c w IH]; intros t.
  - split; [intros _; now exists t | now destruct t].
  - destruct t as [|c' t]; simpl.
    + split; [discriminate | intros [b Hb]; discriminate].
    + destruct (Ascii.ascii_dec c c') as [->|Hne].
      * rewrite IH. split; intros [b Hb]; exists b.
        -- now rewrite Hb.
        -- now injection Hb.
      * split; [discriminate | intros [b Hb]; injection Hb; congruence].
Qed.

Lemma str_in_spec (w t : string) : str_in w t = true <-> occurs w t.
Proof.
  induction t as [|c t IH].
  - change (str_in w "") with (String.prefix w "" || false).
    rewrite orb_false_r, prefix_spec. split.
    + intros [b Hb]. now exists "", b.
    + intros [a [b Hab]]. destruct a; simpl in Hab; [now exists b | discriminate].
  - change (str_in w (String c t))
      with (String.prefix w (String c t) || str_in w t).
    rewrite orb_true_iff, prefix_spec, IH. split.
    + intros [[b Hb] | [a [b Hab]]].
      * now exists "", b.
      * exists (String c a), b. simpl. now rewrite Hab.
    + intros [a [b Hab]]. destruct a as [|c' a]; simpl in Hab.
      * left. now exists b.
      * right. injection Hab as _ Hab. now exists a, b.
Qed.

Lemma any_in_spec (words : list string) (t : string) :
  any_in words t = true <-> mentions words t.
Proof.
  unfold any_in, mentions. rewrite existsb_exists.
  split; intros [w [Hw Ho]]; exists w; split; auto; now apply str_in_spec.
Qed.

Lemma any_in_false (words : list string) (t : string) :
  any_in words t = false <-> ~ mentions words t.
Proof.
  rewrite <- any_in_spec. destruct (any_in words t); split; congruence.
Qed.

Lemma lower_app (a b : string) : lower (a +:+ b) = lower a +:+ lower b.
Proof. induction a as [|c a IH]; simpl; [reflexivity | now rewrite IH]. Qed.

Lemma occurs_lower (w t : string) : occurs w t -> occurs (lower w) (lower t).
Proof.
  intros [a [b ->]]. exists (lower a), (lower b). now rewrite !lower_app.
Qed.

Lemma string_app_assoc (a b c : string) : (a +:+ b) +:+ c = a +:+ (b +:+ c).
Proof.
  induction a as [|x a IH]; [reflexivity|].
  change (String x ((a +:+ b) +:+ c) = String x (a +:+ (b +:+ c))).
  now f_equal.
Qed.

Lemma occurs_trans (u w t : string) : occurs u w -> occurs w t -> occurs u t.
Proof.
  intros [a [b ->]] [a' [b' ->]]. exists (a' +:+ a), (b +:+ b').
  now rewrite !string_app_assoc.
Qed.

End TextFacts.

(** ** AnomalyDetector: classification of a flagged record *)

Module AnomalyTypeFacts.
Import Py TextFacts AnomalyDetector.

Lemma classify_cases (text : string) :
  (mentions stress_words text -> classify text = "stress_surge") /\
  (~ mentions stress_words text -> mentions fatigue_words text ->
   classify text = "fatigue_spike") /\
  (~ mentions stress_words text -> ~ mentions fatigue_words text ->
   mentions doubt_words text -> classify text = "confidence_dip") /\
  (~ mentions stress_words text -> ~ mentions fatigue_words text ->
   ~ mentions doubt_words text -> classify text = "emotional_spike").
Proof.
  unfold classify.
  repeat split; intros;
    repeat match goal with
    | H : mentions _ _ |- _ => apply any_in_spec in H; rewrite H
    | H : ~ mentions _ _ |- _ => apply any_in_false in H; rewrite H
    end; reflexivity.
Qed.

Lemma create_anomaly_entry_inv entry score embeddings index a :
  _create_anomaly_entry entry score embeddings index = Ok a ->
  exists raw,
    get entry "combined_text" (VStr "") = VStr raw /\
    anomaly_type a = classify (lower raw) /\
    anomaly_score a = round score 4 /\
    getitem entry "entry_id" = Ok (entry_id a).
Proof.
  unfold _create_anomaly_entry. intros Hrun.
  destruct (get entry "combined_text" (VStr "")) as [| | |raw| |] eqn:Hget;
    try discriminate Hrun.
  exists raw. split; [reflexivity|]. cbn in Hrun.
  destruct (getitem entry "entry_id") as [id|]; cbn in Hrun; [|discriminate].
  destruct (date_text entry) as [d|]; cbn in Hrun; [|discriminate].
  destruct (_generate_anomaly_description entry _) as [ds|]; cbn in Hrun;
    [|discriminate].
  injection Hrun as <-. cbn. auto.
Qed.

(** C8. A flagged record is typed by the first trigger list, in the order
    stress, fatigue, doubt, of which a word occurs in its lower-cased
    combined text, and [emotional_spike] when none does; a record whose
    combined text contains "stress pressure anxious" is a [stress_surge].
    The entry is built whenever the record has an id, a date and a text. *)
Theorem create_anomaly_entry_priority
    (entry : gmap string pyval) (score : Q)
    (embeddings : list (list Q)) (index : nat) :
  (forall a, _create_anomaly_entry entry score embeddings index = Ok a ->
     exists raw,
       get entry "combined_text" (VStr "") = VStr raw /\
       let text := lower raw in
       (mentions stress_words text -> anomaly_type a = "stress_surge") /\
       (~ mentions stress_words text -> mentions fatigue_words text ->
        anomaly_type a = "fatigue_spike") /\
       (~ mentions stress_words text -> ~ mentions fatigue_words text ->
        mentions doubt_words text -> anomaly_type a = "confidence_dip") /\
       (~ mentions stress_words text -> ~ mentions fatigue_words text ->
        ~ mentions doubt_words text -> anomaly_type a = "emotional_spike") /\
       (occurs "stress pressure anxious" raw ->
        anomaly_type a = "stress_surge")) /\
  (forall id d raw,
     entry !! "entry_id" = Some id ->
     entry !! "date" = Some (VStr d) ->
     get entry "combined_text" (VStr "") = VStr raw ->
     exists a, _create_anomaly_entry entry score embeddings index = Ok a).
Proof.
  split.
  - intros a Hrun.
    destruct (create_anomaly_entry_inv _ _ _ _ _ Hrun) as (raw & Hget & Hty & _).
    exists raw. split; [exact Hget|]. cbv zeta. rewrite Hty.
    destruct (classify_cases (lower raw)) as (H1 & H2 & H3 & H4).
    repeat split; auto.
    intros Hocc. apply H1. exists "stress". split; [now left|].
    apply occurs_trans with (w := lower "stress pressure anxious").
    + now exists "", " pressure anxious".
    + now apply occurs_lower.
  - intros id d raw Hid Hd Hget.
    unfold _create_anomaly_entry, _generate_anomaly_description, date_text, getitem.
    rewrite Hget, Hid, Hd. cbn. eauto.
Qed.

Definition stress_entry : gmap string pyval :=
  <["entry_id" := VStr "e7"]>
    (<["date" := VStr "2024-03-04"]>
       (<["combined_text" := VStr "Diary: stress pressure anxious"]> ∅)).

Lemma create_anomaly_entry_priority_witness :
  exists a,
    _create_anomaly_entry stress_entry (- (3 # 5)) [] 0 = Ok a /\
    anomaly_type a = "stress_surge".
Proof.
  destruct (create_anomaly_entry_priority stress_entry (- (3 # 5)) [] 0)
    as [Hty Htot].
  destruct (Htot (VStr "e7") "2024-03-04" "Diary: stress pressure anxious"
              eq_refl eq_refl eq_refl) as [a Ha].
  exists a. split; [exact Ha|].
  destruct (Hty a Ha) as (raw & Hget & _ & _ & _ & _ & Hocc).
  apply Hocc. injection Hget as <-. now exists "Diary: ", "".
Defined.

End AnomalyTypeFacts.

(** ** Sorting by a key *)

Module SortFacts.
Import Py.

Section Keyed.

Context {A : Type} (key : A -> Q).

Definition key_le (a b : A) : Prop := (key a <= key b)%Q.

Lemma sort_insert_perm (x : A) (l : list A) :
  Permutation (sort_insert key x l) (x :: l).
Proof.
  induction l as [|y l IH]; simpl; [reflexivity|].
  destruct (Qle_bool (key x) (key y)); [reflexivity|].
  rewrite IH. apply perm_swap.
Qed.

Lemma sort_by_perm (l : list A) : Permutation (sort_by key l) l.
Proof.
  induction l as [|x l IH]; simpl; [reflexivity|].
  rewrite sort_insert_perm. now constructor.
Qed.

Lemma sort_insert_sorted (x : A) (l : list A) :
  StronglySorted key_le l -> StronglySorted key_le (sort_insert key x l).
Proof.
  induction 1 as [|y l Hs IH Hy]; simpl.
  - repeat constructor.
  - destruct (Qle_bool (key x) (key y)) eqn:Hxy.
    + apply Qle_bool_iff in Hxy. constructor; [now constructor|].
      constructor; [exact Hxy|].
      eapply Forall_impl; [exact Hy|].
      intros z Hz. unfold key_le in *. now apply Qle_trans with (key y).
    + constructor; [exact IH|].
      assert (Hyx : key_le y x).
      { unfold key_le. apply Qlt_le_weak, Qnot_le_lt.
        intros Hle. apply Qle_bool_iff in Hle. congruence. }
      rewrite sort_insert_perm. now constructor.
Qed.

Lemma sort_by_sorted (l : list A) : StronglySorted key_le (sort_by key l).
Proof.
  induction l as [|x l IH]; simpl; [constructor | now apply sort_insert_sorted].
Qed.

End Keyed.

(** Sorting two lists whose elements correspond, by keys that agree on
    corresponding elements, keeps them corresponding. *)
Section Related.

Context {A B : Type} (P : A -> B -> Prop) (ka : A -> Q) (kb : B -> Q).
Hypothesis keys_agree : forall a b, P a b -> ka a = kb b.

Lemma sort_insert_related a b la lb :
  P a b -> Forall2 P la lb ->
  Forall2 P (sort_insert ka a la) (sort_insert kb b lb).
Proof.
  intros Hab Hl. induction Hl as [|a' b' la lb Hab' Hl IH]; simpl.
  - now repeat constructor.
  - rewrite (keys_agree _ _ Hab), (keys_agree _ _ Hab').
    destruct (Qle_bool (kb b) (kb b')); now repeat constructor.
Qed.

Lemma sort_by_related la lb :
  Forall2 P la lb -> Forall2 P (sort_by ka la) (sort_by kb lb).
Proof.
  induction 1; simpl; [constructor | now apply sort_insert_related].
Qed.

End Related.

End SortFacts.

(** ** AnomalyDetector: what [detect] returns *)

Module DetectFacts.
Import Py SortFacts AnomalyDetector.

(** The rows that the loop of [detect] flags, with their position. *)
Fixpoint flagged_rows (rows : list (Z * Q)) (i : nat) : list (nat * Q) :=
  match rows with
  | [] => []
  | (pred, score) :: rows' =>
      if pred =? -1 then (i, score) :: flagged_rows rows' (S i)
      else flagged_rows rows' (S i)
  end.

(** Anomaly [a] was built from record [fst p] of [data], scored [snd p]. *)
Definition created (data : list (gmap string pyval))
    (embeddings : list (list Q)) (p : nat * Q) (a : Anomaly) : Prop :=
  exists entry,
    data !! fst p = Some entry /\
    _create_anomaly_entry entry (snd p) embeddings (fst p) = Ok a.

(** A record from which an anomaly entry can be built. *)
Definition well_formed (entry : gmap string pyval) : Prop :=
  is_Some (entry !! "entry_id") /\
  (exists d, entry !! "date" = Some (VStr d)) /\
  (exists raw, get entry "combined_text" (VStr "") = VStr raw).

(** A forest that flags the rows whose first coordinate exceeds 1. *)
Definition threshold_forest : IsolationForestImpl :=
  {| fit_predict := fun _ X =>
       Ok (map (fun row => if Qltb 1 (hd 0%Q row) then -1 else 1) X);
     score_samples := fun _ _ X =>
       Ok (map (fun row => (- hd 0%Q row)%Q) X) |}.

Definition sample_entry (id text : string) : gmap string pyval :=
  <["entry_id" := VStr id]>
    (<["date" := VStr "2024-03-04"]> (<["combined_text" := VStr text]> ∅)).

Definition sample_embeddings : list (list Q) :=
  [[1 # 2]; [3 # 1]; [1 # 4]; [2 # 1]]%Q.

Definition sample_data : list (gmap string pyval) :=
  [sample_entry "e1" "Diary: a calm day";
   sample_entry "e2" "Diary: tired and drained";
   sample_entry "e3" "Diary: good walk";
   sample_entry "e4" "Diary: worry about the review"].

Lemma combine_lookup {A B : Type} (xs : list A) (ys : list B) k x y :
  combine xs ys !! k = Some (x, y) <-> xs !! k = Some x /\ ys !! k = Some y.
Proof.
  revert ys k. induction xs as [|x' xs IH]; intros [|y' ys] [|k]; simpl;
    try (split; [discriminate | intros [? ?]; discriminate]).
  - split; [intros [= -> ->]; auto | intros [[= ->] [= ->]]; auto].
  - apply IH.
Qed.

Lemma flagged_rows_spec rows i j sc :
  In (j, sc) (flagged_rows rows i) <->
  exists k, j = (i + k)%nat /\ rows !! k = Some (-1, sc).
Proof.
  revert i. induction rows as [|[pred score] rows IH]; intros i; simpl.
  - split; [tauto | intros (k & _ & Hk); discriminate].
  - destruct (pred =? -1) eqn:Hp.
    + apply Z.eqb_eq in Hp as ->. simpl. rewrite IH. split.
      * intros [[= <- <-] | (k & -> & Hk)].
        -- exists 0%nat. split; [lia | reflexivity].
        -- exists (S k). split; [lia | exact Hk].
      * intros ([|k] & -> & Hk); simpl in Hk.
        -- left. injection Hk as ->. f_equal. lia.
        -- right. exists k. split; [lia | exact Hk].
    + rewrite IH. apply Z.eqb_neq in Hp. split.
      * intros (k & -> & Hk). exists (S k). split; [lia | exact Hk].
      * intros ([|k] & -> & Hk); simpl in Hk.
        -- injection Hk as -> _. congruence.
        -- exists k. split; [lia | exact Hk].
Qed.

Lemma flagged_rows_NoDup rows i : NoDup (map fst (flagged_rows rows i)).
Proof.
  revert i. induction rows as [|[pred score] rows IH]; intros i; simpl.
  - constructor.
  - destruct (pred =? -1); [|apply IH]. simpl. constructor; [|apply IH].
    rewrite list_elem_of_In, in_map_iff. intros ([j sc] & Hj & Hin).
    simpl in Hj. subst j. apply flagged_rows_spec in Hin as (k & Hk & _). lia.
Qed.

Lemma detect_loop_created data embeddings rows i out :
  detect_loop data embeddings i rows = Ok out ->
  Forall2 (created data embeddings) (flagged_rows rows i) out.
Proof.
  revert i out. induction rows as [|[pred score] rows IH]; intros i out; simpl.
  - intros [= <-]. constructor.
  - destruct (pred =? -1); [|apply IH].
    unfold list_getitem. destruct (data !! i) as [entry|] eqn:Hi; cbn; [|discriminate].
    destruct (_create_anomaly_entry entry score embeddings i) as [a|] eqn:Ha;
      cbn; [|discriminate].
    destruct (detect_loop data embeddings (S i) rows) as [rest|] eqn:Hrest;
      cbn; [|discriminate].
    intros [= <-]. constructor; [|now apply IH].
    exists entry. auto.
Qed.

Lemma create_anomaly_entry_total entry score embeddings index :
  well_formed entry ->
  exists a, _create_anomaly_entry entry score embeddings index = Ok a.
Proof.
  intros ([id Hid] & [d Hd] & [raw Hraw]).
  unfold _create_anomaly_entry, _generate_anomaly_description, date_text, getitem.
  rewrite Hraw, Hid, Hd. cbn. eauto.
Qed.

Lemma detect_loop_total data embeddings rows i :
  (i + length rows <= length data)%nat ->
  Forall well_formed data ->
  exists out, detect_loop data embeddings i rows = Ok out.
Proof.
  intros Hlen Hwf. revert i Hlen.
  induction rows as [|[pred score] rows IH]; intros i Hlen; simpl in *.
  - eauto.
  - destruct (IH (S i)) as [rest Hrest]; [lia|].
    destruct (pred =? -1); [|eauto].
    destruct (lookup_lt_is_Some_2 data i) as [entry Hi]; [lia|].
    unfold list_getitem. rewrite Hi. cbn.
    destruct (create_anomaly_entry_total entry score embeddings i) as [a Ha].
    { rewrite Forall_forall in Hwf. apply Hwf. eapply list_elem_of_lookup_2, Hi. }
    rewrite Ha, Hrest. cbn. eauto.
Qed.

Lemma detect_inv `{IsolationForestImpl} self embeddings data anomalies :
  detect self embeddings data = Ok anomalies ->
  exists predictions scores out,
    fit_predict (model self) embeddings = Ok predictions /\
    score_samples (model self) embeddings embeddings = Ok scores /\
    detect_loop data embeddings 0 (combine predictions scores) = Ok out /\
    anomalies = sort_by anomaly_score out.
Proof.
  unfold detect. intros Hrun.
  destruct (fit_predict _ _) as [predictions|]; cbn in Hrun; [|discriminate].
  destruct (score_samples _ _ _) as [scores|]; cbn in Hrun; [|discriminate].
  destruct (detect_loop _ _ _ _) as [out|] eqn:Hout; cbn in Hrun; [|discriminate].
  injection Hrun as <-. eauto 10.
Qed.

(** C7. The list that [detect] returns is in non-decreasing order of
    anomaly score (the most negative first), and [detect] does return a
    list when the forest labels and scores the rows and no more rows are
    labelled than there are records. *)
Theorem detect_sorted `{IsolationForestImpl}
    (self : AnomalyDetector) (embeddings : list (list Q))
    (data : list (gmap string pyval)) :
  (forall anomalies, detect self embeddings data = Ok anomalies ->
     StronglySorted (fun a b => (anomaly_score a <= anomaly_score b)%Q)
       anomalies) /\
  (forall predictions scores,
     fit_predict (model self) embeddings = Ok predictions ->
     score_samples (model self) embeddings embeddings = Ok scores ->
     (length predictions <= length data)%nat ->
     Forall well_formed data ->
     exists anomalies, detect self embeddings data = Ok anomalies).
Proof.
  split.
  - intros anomalies Hrun.
    destruct (detect_inv _ _ _ _ Hrun) as (p & s & out & _ & _ & _ & ->).
    apply (sort_by_sorted anomaly_score).
  - intros predictions scores Hp Hs Hlen Hwf. unfold detect.
    rewrite Hp, Hs. cbn.
    destruct (detect_loop_total data embeddings (combine predictions scores) 0)
      as [out Hout]; [|exact Hwf|].
    + rewrite length_combine. simpl. lia.
    + rewrite Hout. cbn. eauto.
Qed.

Lemma detect_sorted_witness :
  exists anomalies,
    @detect threshold_forest (__init__ default_contamination)
      sample_embeddings sample_data = Ok anomalies /\
    StronglySorted (fun a b => (anomaly_score a <= anomaly_score b)%Q)
      anomalies.
Proof.
  destruct (@detect_sorted threshold_forest (__init__ default_contamination)
              sample_embeddings sample_data) as [Hsorted Htotal].
  destruct (Htotal _ _ eq_refl eq_refl) as [anomalies Hrun].
  - simpl. lia.
  - repeat constructor; simpl; eauto.
  - exists anomalies. split; [exact Hrun | exact (Hsorted anomalies Hrun)].
Defined.

(** The positions of the flagged rows in the order of the result: by
    rounded score, rows of equal score in row order. It is computed from
    the labels and the scores alone. *)
Definition ranked (predictions : list Z) (scores : list Q) : list (nat * Q) :=
  sort_by (fun p => round (snd p) 4)
          (flagged_rows (combine predictions scores) 0).

Lemma created_score data embeddings p a :
  created data embeddings p a -> round (snd p) 4 = anomaly_score a.
Proof.
  intros (entry & _ & Hrun).
  apply AnomalyTypeFacts.create_anomaly_entry_inv in Hrun
    as (_ & _ & _ & Hscore & _).
  now rewrite Hscore.
Qed.

Lemma detect_ranked `{IsolationForestImpl} self embeddings data anomalies :
  detect self embeddings data = Ok anomalies ->
  exists predictions scores,
    fit_predict (model self) embeddings = Ok predictions /\
    score_samples (model self) embeddings embeddings = Ok scores /\
    Forall2 (created data embeddings) (ranked predictions scores) anomalies.
Proof.
  intros Hrun.
  destruct (detect_inv _ _ _ _ Hrun) as (p & s & out & Hp & Hs & Hout & ->).
  exists p, s. repeat split; auto.
  apply sort_by_related.
  - apply created_score.
  - now apply detect_loop_created.
Qed.

Lemma ranked_spec predictions scores i :
  In i (map fst (ranked predictions scores)) <->
  predictions !! i = Some (-1) /\ (i < length scores)%nat.
Proof.
  unfold ranked. rewrite sort_by_perm, in_map_iff. split.
  - intros ([j sc] & <- & Hin). simpl.
    apply flagged_rows_spec in Hin as (k & -> & Hk).
    apply combine_lookup in Hk as [Hp Hs]. simpl. split; [exact Hp|].
    now apply lookup_lt_Some in Hs.
  - intros [Hp Hlt].
    destruct (lookup_lt_is_Some_2 scores i Hlt) as [sc Hs].
    exists (i, sc). split; [reflexivity|].
    apply flagged_rows_spec. exists i. split; [reflexivity|].
    now apply combine_lookup.
Qed.

Lemma ranked_NoDup predictions scores :
  NoDup (map fst (ranked predictions scores)).
Proof.
  unfold ranked. rewrite sort_by_perm. apply flagged_rows_NoDup.
Qed.

Lemma created_scores data embeddings rows out :
  Forall2 (created data embeddings) rows out ->
  map anomaly_score out = map (fun p => round (snd p) 4) rows.
Proof.
  induction 1 as [|p a rows out Hpa _ IH]; simpl; [reflexivity|].
  now rewrite IH, (created_score _ _ _ _ Hpa).
Qed.

(** C9. Two runs of [detect] on the same embedding matrix, over data
    sets that may differ in every text, flag the same records: both
    results are built, position by position, from one list of record
    indices, which are exactly the rows the forest labelled -1, and the
    scores of the two results are equal. *)
Theorem detect_flags_ignore_text `{IsolationForestImpl}
    (self : AnomalyDetector) (embeddings : list (list Q))
    (data1 data2 : list (gmap string pyval)) (out1 out2 : list Anomaly) :
  detect self embeddings data1 = Ok out1 ->
  detect self embeddings data2 = Ok out2 ->
  exists predictions scores flagged,
    fit_predict (model self) embeddings = Ok predictions /\
    score_samples (model self) embeddings embeddings = Ok scores /\
    (forall i, In i (map fst flagged) <->
       predictions !! i = Some (-1) /\ (i < length scores)%nat) /\
    NoDup (map fst flagged) /\
    Forall2 (created data1 embeddings) flagged out1 /\
    Forall2 (created data2 embeddings) flagged out2 /\
    map anomaly_score out1 = map anomaly_score out2.
Proof.
  intros H1 H2.
  destruct (detect_ranked _ _ _ _ H1) as (p & s & Hp & Hs & Hc1).
  destruct (detect_ranked _ _ _ _ H2) as (p' & s' & Hp' & Hs' & Hc2).
  rewrite Hp in Hp'. injection Hp' as <-.
  rewrite Hs in Hs'. injection Hs' as <-.
  exists p, s, (ranked p s).
  split; [exact Hp|]. split; [exact Hs|].
  split; [intros i; apply ranked_spec|].
  split; [apply ranked_NoDup|].
  split; [exact Hc1|]. split; [exact Hc2|].
  now rewrite (created_scores _ _ _ _ Hc1), (created_scores _ _ _ _ Hc2).
Qed.

Definition sample_data_alarming : list (gmap string pyval) :=
  [sample_entry "e1" "Diary: thoughts of suicide";
   sample_entry "e2" "Diary: a quiet evening";
   sample_entry "e3" "Diary: stress pressure anxious";
   sample_entry "e4" "Diary: nothing to report"].

Lemma detect_flags_ignore_text_witness :
  exists out1 out2,
    @detect threshold_forest (__init__ default_contamination)
      sample_embeddings sample_data = Ok out1 /\
    @detect threshold_forest (__init__ default_contamination)
      sample_embeddings sample_data_alarming = Ok out2 /\
    map anomaly_score out1 = map anomaly_score out2.
Proof.
  destruct (@detect threshold_forest (__init__ default_contamination)
              sample_embeddings sample_data) as [out1|] eqn:H1;
    [|vm_compute in H1; discriminate H1].
  destruct (@detect threshold_forest (__init__ default_contamination)
              sample_embeddings sample_data_alarming) as [out2|] eqn:H2;
    [|vm_compute in H2; discriminate H2].
  exists out1, out2. repeat split.
  destruct (@detect_flags_ignore_text threshold_forest _ _ _ _ _ _ H1 H2)
    as (_ & _ & _ & _ & _ & _ & _ & _ & _ & Heq).
  exact Heq.
Defined.

End DetectFacts.

(** ** Dicts in insertion order *)

Module OrderedDictFacts.
Import Py.

Section OrderedDict.

Context {V : Type}.
Implicit Types (d : list (Z * V)) (k : Z) (v : V).

Lemma od_get_set_eq d k v : od_get (od_set d k v) k = Some v.
Proof.
  induction d as [|[k' v'] d IH]; simpl.
  - now rewrite Z.eqb_refl.
  - destruct (k' =? k) eqn:Hk; simpl; rewrite Hk; auto.
Qed.

Lemma od_get_set_ne d k k' v :
  k <> k' -> od_get (od_set d k v) k' = od_get d k'.
Proof.
  intros Hne. induction d as [|[k0 v0] d IH]; simpl.
  - apply Z.eqb_neq in Hne. now rewrite Hne.
  - destruct (k0 =? k) eqn:Hk; simpl.
    + apply Z.eqb_eq in Hk as ->.
      apply Z.eqb_neq in Hne. now rewrite Hne.
    + now rewrite IH.
Qed.

Lemma od_get_keys d k : In k (od_keys d) <-> od_get d k <> None.
Proof.
  induction d as [|[k' v'] d IH]; simpl.
  - tauto.
  - destruct (k' =? k) eqn:Hk.
    + apply Z.eqb_eq in Hk. split; [discriminate | auto].
    + apply Z.eqb_neq in Hk. rewrite IH. tauto.
Qed.

Lemma od_keys_set d k v :
  od_keys (od_set d k v) =
  match od_get d k with
  | Some _ => od_keys d
  | None => od_keys d ++ [k]
  end.
Proof.
  induction d as [|[k' v'] d IH]; simpl; [reflexivity|].
  destruct (k' =? k) eqn:Hk; simpl; [reflexivity|].
  rewrite IH. now destruct (od_get d k).
Qed.

End OrderedDict.

Lemma snoc_case {A : Type} (l : list A) :
  l = [] \/ exists l' x, l = l' ++ [x].
Proof. induction l using rev_ind; eauto. Qed.

End OrderedDictFacts.

(** ** [max] with a key *)

Module MaxFacts.
Import Py.

Section MaxBy.

Context {A : Type} (key : A -> Z).

Lemma max_by_first (before : list A) (best : A) (between xs : list A) :
  (forall x, In x before -> key x < key best) ->
  (forall x, In x between -> key x <= key best) ->
  exists pre post,
    before ++ best :: between ++ xs = pre ++ max_by key best xs :: post /\
    (forall x, In x pre -> key x < key (max_by key best xs)) /\
    (forall x, In x post -> key x <= key (max_by key best xs)).
Proof.
  revert before best between.
  induction xs as [|x xs IH]; intros before best between Hlt Hle; simpl.
  - exists before, between. rewrite app_nil_r. auto.
  - destruct (key best <? key x) eqn:Hbx.
    + apply Z.ltb_lt in Hbx.
      destruct (IH (before ++ best :: between) x []) as (pre & post & Heq & H1 & H2).
      * intros y Hy. apply in_app_or in Hy as [Hy | [<- | Hy]].
        -- specialize (Hlt y Hy). lia.
        -- exact Hbx.
        -- specialize (Hle y Hy). lia.
      * intros y [].
      * exists pre, post. repeat split; auto.
        rewrite <- Heq. simpl. now rewrite <- !app_assoc.
    + apply Z.ltb_ge in Hbx.
      destruct (IH before best (between ++ [x])) as (pre & post & Heq & H1 & H2).
      * exact Hlt.
      * intros y Hy. apply in_app_or in Hy as [Hy | [<- | []]]; auto.
      * exists pre, post. repeat split; auto.
        rewrite <- Heq. now rewrite <- !app_assoc.
Qed.

(** [max(xs, key=f)] is the first element of [xs] with the largest key. *)
Lemma max_key_first (xs : list A) (m : A) :
  max_key key xs = Ok m ->
  exists pre post,
    xs = pre ++ m :: post /\
    (forall x, In x pre -> key x < key m) /\
    (forall x, In x post -> key x <= key m).
Proof.
  destruct xs as [|x xs]; simpl; [discriminate|].
  intros [= <-].
  destruct (max_by_first [] x [] xs) as (pre & post & Heq & H1 & H2);
    [intros y [] | intros y [] |].
  exists pre, post. auto.
Qed.

End MaxBy.

End MaxFacts.

(** ** TemporalAnalyzer: the dominant cluster of a window *)

Module DominantFacts.
Import Py ResultFacts OrderedDictFacts MaxFacts TemporalAnalyzer.

(** The number of records of cluster [c] among [clusters]. *)
Definition occ (c : Z) (clusters : list Z) : Z :=
  Z.of_nat (count_occ Z.eq_dec clusters c).

(** [a] shows up in [clusters] before any [b] does. *)
Definition precedes (clusters : list Z) (a b : Z) : Prop :=
  exists pre post,
    clusters = pre ++ a :: post /\ ~ In a pre /\ ~ In b pre.

(** The counting loop, on the clusters of the records. *)
Fixpoint tally (clusters : list Z) (counts : list (Z * Z)) : list (Z * Z) :=
  match clusters with
  | [] => counts
  | c :: rest => tally rest (od_set counts c (counts_get counts c + 1))
  end.

Lemma count_clusters_tally week_entries counts :
  count_clusters week_entries counts =
  mapM cluster_of week_entries ≫= fun clusters => Ok (tally clusters counts).
Proof.
  revert counts. induction week_entries as [|entry rest IH]; intros counts.
  - reflexivity.
  - cbn. destruct (cluster_of entry) as [c|e]; cbn; [|reflexivity].
    rewrite IH. unfold counts_get.
    destruct (mapM cluster_of rest); reflexivity.
Qed.

Lemma occ_nonneg c cs : 0 <= occ c cs.
Proof. unfold occ. lia. Qed.

Lemma occ_snoc_eq c cs : occ c (cs ++ [c]) = occ c cs + 1.
Proof.
  unfold occ. rewrite count_occ_app. simpl.
  destruct (Z.eq_dec c c); [lia | congruence].
Qed.

Lemma occ_snoc_ne c k cs : c <> k -> occ k (cs ++ [c]) = occ k cs.
Proof.
  intros Hne. unfold occ. rewrite count_occ_app. simpl.
  destruct (Z.eq_dec c k); [congruence | lia].
Qed.

Lemma occ_pos_In c cs : 0 < occ c cs <-> In c cs.
Proof. unfold occ. rewrite (count_occ_In Z.eq_dec). lia. Qed.

(** What the counting loop maintains: the dict holds the number of
    occurrences of every cluster seen so far, and its keys are in the
    order in which the clusters were first seen. *)
Record counted (counts : list (Z * Z)) (seen : list Z) : Prop := {
  counted_get : forall k,
    od_get counts k = if occ k seen =? 0 then None else Some (occ k seen);
  counted_nodup : NoDup (od_keys counts);
  counted_order : forall pre k post,
    od_keys counts = pre ++ k :: post ->
    exists pre' post',
      seen = pre' ++ k :: post' /\ ~ In k pre' /\
      (forall c, In c pre' -> In c pre)
}.

Lemma counted_value counts seen k :
  counted counts seen -> counts_get counts k = occ k seen.
Proof.
  intros Hc. unfold counts_get. rewrite (counted_get _ _ Hc).
  destruct (occ k seen =? 0) eqn:H0; [|reflexivity].
  apply Z.eqb_eq in H0. now rewrite H0.
Qed.

Lemma counted_keys counts seen k :
  counted counts seen -> In k (od_keys counts) <-> In k seen.
Proof.
  intros Hc. rewrite od_get_keys, (counted_get _ _ Hc), <- occ_pos_In.
  pose proof (occ_nonneg k seen).
  destruct (occ k seen =? 0) eqn:H0.
  - apply Z.eqb_eq in H0. split; [congruence | lia].
  - apply Z.eqb_neq in H0. split; [lia | discriminate].
Qed.

Lemma counted_nil : counted [] [].
Proof.
  split.
  - reflexivity.
  - constructor.
  - intros [|? ?] k post; discriminate.
Qed.

Lemma counted_step counts seen c :
  counted counts seen ->
  counted (od_set counts c (counts_get counts c + 1)) (seen ++ [c]).
Proof.
  intros Hc. pose proof (counted_keys counts seen c Hc) as Hkeys.
  rewrite od_get_keys in Hkeys.
  split.
  - intros k. destruct (Z.eq_dec c k) as [<-|Hne].
    + rewrite od_get_set_eq, occ_snoc_eq, (counted_value _ _ _ Hc).
      pose proof (occ_nonneg c seen).
      destruct (occ c seen + 1 =? 0) eqn:H0; [|reflexivity].
      apply Z.eqb_eq in H0. lia.
    + rewrite od_get_set_ne, occ_snoc_ne by assumption.
      apply (counted_get _ _ Hc).
  - rewrite od_keys_set. destruct (od_get counts c) eqn:Hget.
    + apply (counted_nodup _ _ Hc).
    + apply NoDup_app. split; [apply (counted_nodup _ _ Hc)|].
      split; [|repeat constructor; apply not_elem_of_nil].
      intros x Hx Hx'. apply list_elem_of_singleton in Hx' as ->.
      apply list_elem_of_In, od_get_keys in Hx. congruence.
  - intros pre k post. rewrite od_keys_set.
    destruct (od_get counts c) eqn:Hget.
    + intros Hsplit.
      destruct (counted_order _ _ Hc _ _ _ Hsplit) as (pre' & post' & -> & Hk & Hpre).
      exists pre', (post' ++ [c]). rewrite <- app_assoc. auto.
    + intros Hsplit. destruct (snoc_case post) as [-> | (post0 & x & ->)].
      * apply app_inj_tail in Hsplit as [<- <-].
        exists seen, []. repeat split.
        -- intros Hin. apply Hkeys in Hin. congruence.
        -- intros x Hx. now apply (counted_keys _ _ _ Hc).
      * rewrite app_comm_cons, app_assoc in Hsplit.
        apply app_inj_tail in Hsplit as [Hsplit <-].
        destruct (counted_order _ _ Hc _ _ _ Hsplit)
          as (pre' & post' & -> & Hk & Hpre).
        exists pre', (post' ++ [c]). rewrite <- app_assoc. auto.
Qed.

Lemma counted_tally clusters counts seen :
  counted counts seen -> counted (tally clusters counts) (seen ++ clusters).
Proof.
  revert counts seen. induction clusters as [|c rest IH]; intros counts seen Hc.
  - now rewrite app_nil_r.
  - simpl. replace (seen ++ c :: rest) with ((seen ++ [c]) ++ rest)
      by now rewrite <- app_assoc.
    apply IH. now apply counted_step.
Qed.

Lemma dominant_cluster_inv week_entries d :
  dominant_cluster week_entries = Ok d ->
  exists clusters,
    mapM cluster_of week_entries = Ok clusters /\
    max_key (counts_get (tally clusters [])) (od_keys (tally clusters [])) = Ok d.
Proof.
  unfold dominant_cluster. rewrite count_clusters_tally.
  destruct (mapM cluster_of week_entries) as [clusters|]; cbn; [|discriminate].
  eauto.
Qed.

Lemma mapM_cluster_total week_entries :
  Forall (fun entry => exists c, cluster_of entry = Ok c) week_entries ->
  exists clusters,
    mapM cluster_of week_entries = Ok clusters /\
    length clusters = length week_entries.
Proof.
  induction 1 as [|entry rest [c Hc] _ (cs & Hcs & Hlen)].
  - exists []. auto.
  - exists (c :: cs). cbn. rewrite Hc. cbn. rewrite Hcs. cbn.
    split; [reflexivity | simpl; lia].
Qed.

Lemma analyze_week_dominant
    week_num entry rest themes embeddings all_data summary :
  _analyze_week week_num (entry :: rest) themes embeddings all_data = Ok summary ->
  exists d fallback,
    dominant_cluster (entry :: rest) = Ok d /\
    themes !! 0%nat = Some fallback /\
    dominant_theme summary =
      ThemeClusterer.theme_label
        (match find (fun t => ThemeClusterer.cluster_id t =? d) themes with
         | Some t => t
         | None => fallback
         end).
Proof.
  unfold _analyze_week. intros Hrun.
  apply bind_Ok in Hrun as (theme & Htheme & Hrun).
  apply bind_Ok in Hrun as (trend & _ & Hrun).
  apply bind_Ok in Hrun as (dates & _ & Hrun).
  apply bind_Ok in Htheme as (d & Hd & Htheme).
  apply bind_Ok in Htheme as (fallback & Hfb & Htheme).
  injection Htheme as <-. injection Hrun as <-.
  exists d, fallback. repeat split; auto.
  unfold list_getitem in Hfb. now destruct (themes !! 0%nat); inversion Hfb.
Qed.

(** The tie-break as the specification words it: among the clusters with
    the highest count, the lowest id is the dominant one. *)
Definition lowest_id_wins : Prop :=
  forall week_entries clusters d c,
    dominant_cluster week_entries = Ok d ->
    mapM cluster_of week_entries = Ok clusters ->
    occ c clusters = occ d clusters ->
    d <= c.

Definition in_cluster (c : Z) : gmap string pyval :=
  <["cluster" := VInt c]> ∅.

(** C1, as stated, fails: in a window whose records are of clusters 2
    and 1, in that order, both count once and cluster 2 is dominant. *)
Lemma lowest_id_wins_fails : ~ lowest_id_wins.
Proof.
  intros Hclaim.
  specialize (Hclaim [in_cluster 2; in_cluster 1] [2; 1] 2 1
                eq_refl eq_refl eq_refl).
  lia.
Qed.

(** C1, amended. The dominant cluster of a non-empty window is a cluster
    of the window with the highest record count, and among the clusters
    with that count it is the one whose first record comes first in the
    window. The summary of the window is labelled by the first theme that
    has this cluster id. *)
Theorem dominant_cluster_first_seen (week_entries : list (gmap string pyval)) :
  (forall d, dominant_cluster week_entries = Ok d ->
     exists clusters,
       mapM cluster_of week_entries = Ok clusters /\
       In d clusters /\
       (forall c, occ c clusters <= occ d clusters) /\
       (forall c, c <> d -> occ c clusters = occ d clusters ->
          precedes clusters d c)) /\
  (week_entries <> [] ->
   Forall (fun entry => exists c, cluster_of entry = Ok c) week_entries ->
   exists d, dominant_cluster week_entries = Ok d) /\
  (forall week_num themes embeddings all_data summary,
     week_entries <> [] ->
     _analyze_week week_num week_entries themes embeddings all_data = Ok summary ->
     exists d fallback,
       dominant_cluster week_entries = Ok d /\
       themes !! 0%nat = Some fallback /\
       dominant_theme summary =
         ThemeClusterer.theme_label
           (match find (fun t => ThemeClusterer.cluster_id t =? d) themes with
            | Some t => t
            | None => fallback
            end)).
Proof.
  split; [|split].
  - intros d Hd.
    destruct (dominant_cluster_inv _ _ Hd) as (clusters & Hcs & Hmax).
    exists clusters. split; [exact Hcs|].
    pose proof (counted_tally clusters [] [] counted_nil) as Hc. simpl in Hc.
    apply max_key_first in Hmax as (pre & post & Hkeys & Hlt & Hle).
    assert (Hd_in : In d clusters).
    { apply (counted_keys _ _ _ Hc). rewrite Hkeys. apply in_elt. }
    assert (Hval : forall k, counts_get (tally clusters []) k = occ k clusters).
    { intros k. now apply counted_value. }
    split; [exact Hd_in|]. split.
    + intros c. destruct (in_dec Z.eq_dec c clusters) as [Hin|Hout].
      * apply (counted_keys _ _ _ Hc) in Hin. rewrite Hkeys in Hin.
        apply in_app_or in Hin as [Hin | [<- | Hin]].
        -- specialize (Hlt c Hin). rewrite !Hval in Hlt. lia.
        -- lia.
        -- specialize (Hle c Hin). now rewrite !Hval in Hle.
      * apply occ_pos_In in Hd_in.
        assert (~ 0 < occ c clusters) by now rewrite occ_pos_In. lia.
    + intros c Hne Htie.
      assert (Hc_in : In c clusters).
      { apply occ_pos_In. rewrite Htie. now apply occ_pos_In. }
      apply (counted_keys _ _ _ Hc) in Hc_in. rewrite Hkeys in Hc_in.
      assert (Hc_pre : ~ In c pre).
      { intros Hin. specialize (Hlt c Hin). rewrite !Hval in Hlt. lia. }
      destruct (counted_order _ _ Hc _ _ _ Hkeys) as (pre' & post' & Hsplit & Hd' & Hsub).
      exists pre', post'. repeat split; auto.
  - intros Hne Hwf.
    destruct (mapM_cluster_total _ Hwf) as (clusters & Hcs & Hlen).
    unfold dominant_cluster. rewrite count_clusters_tally, Hcs. cbn.
    pose proof (counted_tally clusters [] [] counted_nil) as Hc. simpl in Hc.
    destruct (od_keys (tally clusters [])) as [|k ks] eqn:Hkeys.
    + destruct clusters as [|c cs].
      * destruct week_entries; [congruence | discriminate].
      * assert (Hin : In c (od_keys (tally (c :: cs) []))).
        { apply (counted_keys _ _ _ Hc). now left. }
        rewrite Hkeys in Hin. destruct Hin.
    + simpl. eauto.
  - intros week_num themes embeddings all_data summary Hne Hrun.
    destruct week_entries as [|entry rest]; [congruence|].
    eapply analyze_week_dominant, Hrun.
Qed.

Lemma dominant_cluster_first_seen_witness :
  dominant_cluster [in_cluster 2; in_cluster 1; in_cluster 1; in_cluster 2]
    = Ok 2 /\
  precedes [2; 1; 1; 2] 2 1.
Proof.
  destruct (dominant_cluster_first_seen
              [in_cluster 2; in_cluster 1; in_cluster 1; in_cluster 2])
    as (Hspec & _ & _).
  split; [reflexivity|].
  destruct (Hspec 2 eq_refl) as (clusters & Hcs & _ & _ & Htie).
  injection Hcs as <-. apply Htie; [lia | reflexivity].
Defined.

End DominantFacts.

(** ** Floats *)

Module FloatFacts.
Import Py.

Lemma Qltb_lt (x y : Q) : Qltb x y = true <-> (x < y)%Q.
Proof.
  unfold Qltb. rewrite Qlt_alt.
  destruct (x ?= y)%Q; split; congruence.
Qed.

Lemma Qltb_ge (x y : Q) : Qltb x y = false <-> (y <= x)%Q.
Proof.
  split.
  - intros Hf. apply Qnot_lt_le. intros Hlt. apply Qltb_lt in Hlt. congruence.
  - intros Hle. destruct (Qltb x y) eqn:Hlt; [|reflexivity].
    apply Qltb_lt in Hlt. exfalso. exact (Qlt_not_le x y Hlt Hle).
Qed.

(** Rounding to the nearest double sees the value of a rational, not
    the fraction that stands for it. *)
Lemma round64_proper (q q' : Q) : (q == q')%Q -> round64 q = round64 q'.
Proof. intros Heq. unfold round64. now rewrite (Qred_complete _ _ Heq). Qed.

Lemma round64_zero : round64 0 = 0%Q.
Proof. reflexivity. Qed.

Lemma fsub_same (x : Q) : fsub x x = 0%Q.
Proof.
  unfold fsub. rewrite (round64_proper (x - x) 0); [reflexivity | ring].
Qed.

Lemma round_half_even_between (a b : Z) (x : Q) :
  (inject_Z a <= x)%Q -> (x <= inject_Z b)%Q ->
  a <= round_half_even x <= b.
Proof.
  intros Ha Hb. unfold round_half_even.
  assert (Hfa : a <= Qfloor x).
  { rewrite <- (Qfloor_Z a). now apply Qfloor_resp_le. }
  assert (Hfb : Qfloor x <= b).
  { rewrite <- (Qfloor_Z b). now apply Qfloor_resp_le. }
  assert (Hup : (1 # 2 <= x - inject_Z (Qfloor x))%Q -> Qfloor x + 1 <= b).
  { intros Hfrac.
    assert (Hlt : (inject_Z (Qfloor x) < inject_Z b)%Q).
    { apply Qlt_le_trans with x; [|exact Hb].
      revert Hfrac. generalize (inject_Z (Qfloor x)). intros f Hfrac. Lqa.lra. }
    rewrite <- Zlt_Qlt in Hlt. lia. }
  destruct (Qcompare_spec (x - inject_Z (Qfloor x)) (1 # 2)) as [Heq | Hlt | Hgt].
  - destruct (Z.even (Qfloor x)); [lia|].
    split; [lia|]. apply Hup. rewrite Heq. apply Qle_refl.
  - lia.
  - split; [lia|]. apply Hup. now apply Qlt_le_weak.
Qed.

Lemma pow2_nonneg_exp (k : Z) : 0 <= k -> pow2 k = inject_Z (2 ^ k).
Proof. intros Hk. unfold pow2. apply Z.leb_le in Hk. now rewrite Hk. Qed.

Lemma pow2_neg (k : Z) : (pow2 k * pow2 (- k) == 1)%Q.
Proof.
  assert (Hpos : forall j, 0 < j -> (pow2 j * pow2 (- j) == 1)%Q).
  { intros j Hj. unfold pow2.
    destruct (0 <=? j) eqn:H1; [|apply Z.leb_gt in H1; lia].
    destruct (0 <=? - j) eqn:H2; [apply Z.leb_le in H2; lia|].
    rewrite Z.opp_involutive.
    assert (H2j : 0 < 2 ^ j) by (apply Z.pow_pos_nonneg; lia).
    unfold Qeq. cbn [Qnum Qden Qmult inject_Z].
    rewrite Pos.mul_1_l, Z2Pos.id by exact H2j. lia. }
  destruct (Z.lt_trichotomy k 0) as [Hk | [-> | Hk]].
  - rewrite Qmult_comm. rewrite <- (Z.opp_involutive k) at 2.
    apply Hpos. lia.
  - reflexivity.
  - now apply Hpos.
Qed.

Lemma ilog2_le (n d : positive) : (n <= d)%positive -> ilog2 n d <= 0.
Proof.
  intros Hle. unfold ilog2.
  assert (Hlog : Z.log2 (Zpos n) <= Z.log2 (Zpos d)) by (apply Z.log2_le_mono; lia).
  destruct (if 0 <=? _ then _ else _); lia.
Qed.

(** A float between -1 and 1 stays there when rounded. *)
Lemma round64_unit (q : Q) :
  (- (1) <= q)%Q -> (q <= 1)%Q ->
  (- (1) <= round64 q)%Q /\ (round64 q <= 1)%Q.
Proof.
  intros Hlo Hhi. unfold round64.
  rewrite <- (Qred_correct q) in Hlo, Hhi.
  set (r := Qred q) in *.
  assert (Hbody : forall n,
            Z.abs (Qnum r) = Zpos n ->
            let quantum := Z.max (ilog2 n (Qden r) - 52) (-1074) in
            (- (1) <=
               Qred (inject_Z (round_half_even (r * pow2 (- quantum)))
                     * pow2 quantum))%Q /\
            (Qred (inject_Z (round_half_even (r * pow2 (- quantum)))
                   * pow2 quantum) <= 1)%Q).
  { intros n Hn quantum.
    assert (Hnd : (n <= Qden r)%positive).
    { destruct r as [num den]. simpl in *.
      unfold Qle in Hlo, Hhi. simpl in Hlo, Hhi. lia. }
    pose proof (ilog2_le _ _ Hnd) as He.
    assert (Hq : quantum <= 0) by (unfold quantum; lia).
    set (N := 2 ^ (- quantum)).
    assert (HN : 0 < N) by (apply Z.pow_pos_nonneg; lia).
    assert (Hp : pow2 (- quantum) = inject_Z N) by (apply pow2_nonneg_exp; lia).
    assert (Hinv : (pow2 quantum * inject_Z N == 1)%Q).
    { rewrite <- Hp. apply pow2_neg. }
    assert (HNq : (0 < inject_Z N)%Q).
    { change 0%Q with (inject_Z 0). now rewrite <- Zlt_Qlt. }
    rewrite Hp.
    destruct (round_half_even_between (- N) N (r * inject_Z N)) as [Hm1 Hm2].
    { rewrite inject_Z_opp. Lqa.nra. }
    { Lqa.nra. }
    set (m := round_half_even (r * inject_Z N)) in *.
    rewrite Qred_correct.
    assert (Hm1q : (- inject_Z N <= inject_Z m)%Q).
    { rewrite <- inject_Z_opp, <- Zle_Qle. exact Hm1. }
    assert (Hm2q : (inject_Z m <= inject_Z N)%Q).
    { rewrite <- Zle_Qle. exact Hm2. }
    assert (Hpq : (0 < pow2 quantum)%Q).
    { destruct (Qlt_le_dec 0 (pow2 quantum)) as [H|H]; [exact H|].
      exfalso. Lqa.nra. }
    revert Hm1q Hm2q Hinv HNq Hpq.
    generalize (inject_Z m) (inject_Z N) (pow2 quantum). intros a b c.
    intros. split; Lqa.nra. }
  destruct (Qnum r) as [|n|n] eqn:Hnum.
  - split; discriminate.
  - apply (Hbody n). reflexivity.
  - apply (Hbody n). reflexivity.
Qed.

Lemma round_half_even_near (x : Q) :
  (x - (1 # 2) <= inject_Z (round_half_even x))%Q /\
  (inject_Z (round_half_even x) <= x + (1 # 2))%Q.
Proof.
  unfold round_half_even.
  pose proof (Qfloor_le x) as Hlo. pose proof (Qlt_floor x) as Hhi.
  rewrite inject_Z_plus in Hhi. change (inject_Z 1) with 1%Q in Hhi.
  assert (Hup : (inject_Z (Qfloor x + 1) == inject_Z (Qfloor x) + 1)%Q)
    by (rewrite inject_Z_plus; reflexivity).
  destruct (Qcompare_spec (x - inject_Z (Qfloor x)) (1 # 2)) as [Heq | Hlt | Hgt];
    [destruct (Z.even (Qfloor x)); [|rewrite Hup] | | rewrite Hup];
    clear Hup; revert Hlo Hhi; try revert Heq; try revert Hlt; try revert Hgt;
    generalize (inject_Z (Qfloor x)); intros f; intros; split; Lqa.lra.
Qed.

(** At a tie the even neighbour is taken. *)
Lemma round_half_even_tie (x : Q) :
  (x - inject_Z (round_half_even x) == 1 # 2)%Q \/
  (inject_Z (round_half_even x) - x == 1 # 2)%Q ->
  Z.even (round_half_even x) = true.
Proof.
  unfold round_half_even.
  pose proof (Qfloor_le x) as Hlo. pose proof (Qlt_floor x) as Hhi.
  rewrite inject_Z_plus in Hhi. change (inject_Z 1) with 1%Q in Hhi.
  assert (Hup : (inject_Z (Qfloor x + 1) == inject_Z (Qfloor x) + 1)%Q)
    by (rewrite inject_Z_plus; reflexivity).
  destruct (Qcompare_spec (x - inject_Z (Qfloor x)) (1 # 2)) as [Heq | Hlt | Hgt].
  - destruct (Z.even (Qfloor x)) eqn:Hev; [auto|].
    intros _. rewrite Z.even_add, Hev. reflexivity.
  - intros [Htie | Htie]; exfalso; revert Hlo Hhi Hlt Htie;
      generalize (inject_Z (Qfloor x)); intros f; intros; Lqa.lra.
  - rewrite Hup. intros [Htie | Htie]; exfalso; revert Hlo Hhi Hgt Htie;
      generalize (inject_Z (Qfloor x)); intros f; intros; Lqa.lra.
Qed.

(** The integer nearest to [q * 10 ** ndigits], ties to even. *)
Definition nearest_decimal (q : Q) (ndigits : nat) (j : Z) : Prop :=
  let scaled := (q * inject_Z (Zpos (Z.to_pos (10 ^ Z.of_nat ndigits))))%Q in
  (scaled - (1 # 2) <= inject_Z j)%Q /\
  (inject_Z j <= scaled + (1 # 2))%Q /\
  ((scaled - inject_Z j == 1 # 2)%Q \/ (inject_Z j - scaled == 1 # 2)%Q ->
   Z.even j = true).

(** [round(x, ndigits)] is the double nearest to the nearest decimal. *)
Lemma round_decimal (q : Q) (ndigits : nat) :
  exists j,
    nearest_decimal q ndigits j /\
    round q ndigits = round64 (j # Z.to_pos (10 ^ Z.of_nat ndigits)).
Proof.
  exists (round_half_even
            (q * inject_Z (Zpos (Z.to_pos (10 ^ Z.of_nat ndigits))))).
  split; [|reflexivity]. unfold nearest_decimal. cbv zeta.
  destruct (round_half_even_near
              (q * inject_Z (Zpos (Z.to_pos (10 ^ Z.of_nat ndigits)))))
    as [Hlo Hhi].
  split; [exact Hlo|]. split; [exact Hhi|]. apply round_half_even_tie.
Qed.

(** Where exact and binary64 arithmetic part: the variance of the week
    means -3/5, 4/5, -4/5 and -1 is 1/2, and numpy finds it above; the
    means 4/6 and 7/6 differ by 1/2, and their doubles by more; the
    double of 0.025 is above 0.025 and rounds up. *)
Example variance_above_half :
  Qltb (1 # 2)
    (np_var [fdiv (-3) 5; fdiv 4 5; fdiv (-4) 5; -1]%Q) = true.
Proof. vm_compute. reflexivity. Qed.

Example difference_above_half :
  Qltb (1 # 2) (fsub (fdiv 7 6) (fdiv 4 6)) = true.
Proof. vm_compute. reflexivity. Qed.

Example mean_above_zero :
  Qltb 0 (np_mean [1; fdiv (-1) 3; fdiv (-2) 3]%Q) = true.
Proof. vm_compute. reflexivity. Qed.

Example round_fortieth :
  round (fdiv (1 # 4) 10) 2 = round64 (3 # 100).
Proof. vm_compute. reflexivity. Qed.

End FloatFacts.

(** ** TemporalAnalyzer: the mood trend of a window *)

Module MoodTrendFacts.
Import Py ResultFacts FloatFacts TemporalAnalyzer.

(** A record whose combined text is a [str], or is missing. *)
Definition has_text (entry : gmap string pyval) : Prop :=
  exists raw, get entry "combined_text" (VStr "") = VStr raw.

Lemma trend_of_diff_cases (diff : Q) :
  (trend_of_diff diff = "improving" <-> (1 # 2 < diff)%Q) /\
  (trend_of_diff diff = "declining" <-> (diff < - (1 # 2))%Q) /\
  (trend_of_diff diff = "stable" <->
     (- (1 # 2) <= diff)%Q /\ (diff <= 1 # 2)%Q).
Proof.
  unfold trend_of_diff.
  destruct (Qltb (1 # 2) diff) eqn:Hup.
  - apply Qltb_lt in Hup. repeat split; try discriminate; auto.
    + intros Hdown. exfalso.
      apply (Qlt_irrefl diff). apply Qlt_trans with (- (1 # 2))%Q; [exact Hdown|].
      apply Qlt_trans with (1 # 2)%Q; [reflexivity | exact Hup].
    + intros [_ Hle]. exfalso. now apply (Qlt_not_le _ _ Hup).
  - apply Qltb_ge in Hup. destruct (Qltb diff (- (1 # 2))) eqn:Hdown.
    + apply Qltb_lt in Hdown. repeat split; try discriminate; auto.
      * intros Hlt. exfalso. now apply (Qlt_not_le _ _ Hlt).
      * intros [Hge _]. exfalso. now apply (Qlt_not_le _ _ Hdown).
    + apply Qltb_ge in Hdown. repeat split; try discriminate; auto.
      * intros Hlt. exfalso. now apply (Qlt_not_le _ _ Hlt).
      * intros Hlt. exfalso. now apply (Qlt_not_le _ _ Hlt).
Qed.

Lemma sentiment_of_total entry :
  has_text entry -> exists s, sentiment_of entry = Ok s.
Proof. intros [raw Hraw]. unfold sentiment_of. rewrite Hraw. cbn. eauto. Qed.

Lemma sentiments_total week_entries :
  Forall has_text week_entries ->
  exists sentiments, mapM sentiment_of week_entries = Ok sentiments.
Proof.
  induction 1 as [|entry rest Hentry _ [ss Hss]].
  - now exists [].
  - destruct (sentiment_of_total _ Hentry) as [s Hs].
    exists (s :: ss).
    change (mapM sentiment_of (entry :: rest))
      with (sentiment_of entry ≫= fun y =>
            mapM sentiment_of rest ≫= fun k => Ok (y :: k)).
    now rewrite Hs, Hss.
Qed.

(** The mean of a list of integers as a float: the double nearest to
    their sum over their number. *)
Definition float_mean (xs : list Z) : Q :=
  round64 (inject_Z (fold_right Z.add 0%Z xs) / inject_Z (Z.of_nat (length xs))).

(** C5. A window of fewer than two records is [stable]. Otherwise the
    sentiments of the window, in order, are cut at half their number,
    rounded down, so that the second part has the extra record of an
    odd window; with [diff] the mean of the second part minus the mean
    of the first, each mean and the difference taken in binary64, the
    trend is [improving] exactly when [diff > 0.5], [declining] exactly
    when [diff < -0.5], and [stable] otherwise. *)
Theorem calculate_mood_trend_spec
    (week_entries all_data : list (gmap string pyval))
    (embeddings : list (list Q)) :
  ((length week_entries < 2)%nat ->
   _calculate_mood_trend week_entries all_data embeddings = Ok "stable") /\
  (forall trend,
     (2 <= length week_entries)%nat ->
     _calculate_mood_trend week_entries all_data embeddings = Ok trend ->
     exists sentiments first second,
       Forall2 (fun entry s => sentiment_of entry = Ok s)
         week_entries sentiments /\
       sentiments = first ++ second /\
       length first = (length week_entries / 2)%nat /\
       length second = (length first + length week_entries mod 2)%nat /\
       let diff := round64 (float_mean second - float_mean first) in
       (trend = "improving" <-> (1 # 2 < diff)%Q) /\
       (trend = "declining" <-> (diff < - (1 # 2))%Q) /\
       (trend = "stable" <-> (- (1 # 2) <= diff)%Q /\ (diff <= 1 # 2)%Q)) /\
  (Forall has_text week_entries ->
   exists trend,
     _calculate_mood_trend week_entries all_data embeddings = Ok trend).
Proof.
  unfold _calculate_mood_trend. split; [|split].
  - intros Hlen. apply Nat.ltb_lt in Hlen. now rewrite Hlen.
  - intros trend Hlen Hrun.
    destruct (length week_entries <? 2)%nat eqn:Hshort;
      [apply Nat.ltb_lt in Hshort; lia|].
    apply bind_Ok in Hrun as (sentiments & Hss & Hrun).
    pose proof (mapM_length _ _ _ Hss) as Hn.
    apply mapM_Ok_Forall2 in Hss.
    destruct (2 <=? length sentiments)%nat eqn:Hlong;
      [|apply Nat.leb_gt in Hlong; lia].
    injection Hrun as <-.
    exists sentiments,
      (take (length sentiments / 2) sentiments),
      (drop (length sentiments / 2) sentiments).
    split; [exact Hss|]. split; [now rewrite take_drop|].
    pose proof (Nat.div_mod_eq (length week_entries) 2) as Hdiv.
    rewrite length_take, length_drop, Hn.
    split; [lia|]. split; [lia|].
    apply trend_of_diff_cases.
  - intros Hwf. destruct (length week_entries <? 2)%nat; [eauto|].
    destruct (sentiments_total _ Hwf) as [ss Hss].
    rewrite (bind_Ok_eq _ _ _ Hss).
    destruct (2 <=? length ss)%nat; eauto.
Qed.

Definition with_text (text : string) : gmap string pyval :=
  <["combined_text" := VStr text]> ∅.

Definition hard_then_good : list (gmap string pyval) :=
  [with_text "Diary: stress and pressure";
   with_text "Diary: happy and grateful";
   with_text "Diary: a wonderful, fun day"].

Lemma calculate_mood_trend_spec_witness :
  _calculate_mood_trend hard_then_good [] [] = Ok "improving" /\
  (1 # 2 < round64 (float_mean [2; 2]%Z - float_mean [-2]%Z))%Q.
Proof.
  split; [reflexivity|].
  destruct (calculate_mood_trend_spec hard_then_good [] []) as (_ & Hspec & _).
  destruct (Hspec "improving") as (ss & first & second & Hss & Hcut & Hl1 & Hl2 & Hup & _);
    [simpl; lia | reflexivity |].
  assert (ss = [-2; 2; 2]) as ->.
  { apply mapM_Ok_Forall2 in Hss. vm_compute in Hss. congruence. }
  destruct first as [|x [|y first]]; simpl in Hl1; try discriminate Hl1.
  injection Hcut as <- <-. now apply Hup.
Defined.

(** Six records that sum to 4, then six that sum to 7: the means differ
    by one half, their doubles by more, and the window is [improving]. *)
Definition half_point_window : list (gmap string pyval) :=
  [with_text "good"; with_text "good"; with_text "good"; with_text "good";
   with_text ""; with_text "";
   with_text "good and great"; with_text "good"; with_text "good";
   with_text "good"; with_text "good"; with_text "good"].

Example half_point_window_improves :
  _calculate_mood_trend half_point_window [] [] = Ok "improving" /\
  (7 # 6) - (4 # 6) == 1 # 2.
Proof. split; vm_compute; reflexivity. Qed.

End MoodTrendFacts.

(** ** PatternDetector: the sentiment of a record *)

Module SentimentFacts.
Import Py ResultFacts FloatFacts PatternDetector.

Lemma count_hits_nonneg words text : 0 <= count_hits words text.
Proof.
  induction words as [|w ws IH]; simpl; [lia|].
  destruct (str_in w text); lia.
Qed.

Lemma ratio_bounds (x t : Z) :
  0 < t -> - t <= x <= t ->
  (- (1) <= inject_Z x / inject_Z t)%Q /\ (inject_Z x / inject_Z t <= 1)%Q.
Proof.
  intros Ht Hx.
  assert (Hpos : (0 < inject_Z t)%Q).
  { change 0%Q with (inject_Z 0). rewrite <- Zlt_Qlt. exact Ht. }
  split.
  - apply Qle_shift_div_l; [exact Hpos|].
    assert (Heq : (- (1) * inject_Z t == inject_Z (- t))%Q)
      by (rewrite inject_Z_opp; ring).
    rewrite Heq, <- Zle_Qle. lia.
  - apply Qle_shift_div_r; [exact Hpos|].
    rewrite Qmult_1_l, <- Zle_Qle. lia.
Qed.

Lemma calculate_sentiment_total entry raw :
  get entry "combined_text" (VStr "") = VStr raw ->
  exists s, _calculate_sentiment entry = Ok s.
Proof.
  intros Hraw. unfold _calculate_sentiment. rewrite Hraw.
  cbn -[count_hits Z.ltb].
  destruct (0 <? _); eauto.
Qed.

(** The proxy as the specification words it: positive hits minus
    negative hits. *)
Definition plain_difference : Prop :=
  forall entry raw s,
    get entry "combined_text" (VStr "") = VStr raw ->
    _calculate_sentiment entry = Ok s ->
    (s == inject_Z (count_hits positive_words (lower raw)
                    - count_hits negative_words (lower raw)))%Q.

Definition two_good_words : gmap string pyval :=
  <["combined_text" := VStr "Diary: a good, great day"]> ∅.

(** C3, as stated, fails: a text with two positive words and no negative
    one scores 1, not 2. *)
Lemma plain_difference_fails : ~ plain_difference.
Proof.
  intros Hclaim.
  specialize (Hclaim two_good_words "Diary: a good, great day" 1%Q
                eq_refl ltac:(vm_compute; reflexivity)).
  vm_compute in Hclaim. discriminate Hclaim.
Qed.

(** C3, amended. With [pos] and [neg] the numbers of positive and of
    negative words of PatternDetector's lexicon that occur in the
    lower-cased combined text, the sentiment of a record is
    [(pos - neg) / (pos + neg)], as the float that the division gives,
    when a word occurs and 0 when none does; it lies between -1 and 1.
    TemporalAnalyzer's proxy is the difference [pos - neg] itself, over
    its own lexicon, to which PatternDetector's adds five positive and
    two negative words. *)
Theorem calculate_sentiment_normalised (entry : gmap string pyval) :
  (forall s, _calculate_sentiment entry = Ok s ->
     exists raw,
       get entry "combined_text" (VStr "") = VStr raw /\
       let pos := count_hits positive_words (lower raw) in
       let neg := count_hits negative_words (lower raw) in
       (0 < pos + neg ->
        s = round64 (inject_Z (pos - neg) / inject_Z (pos + neg))) /\
       (pos + neg = 0 -> s = 0%Q) /\
       (- (1) <= s)%Q /\ (s <= 1)%Q) /\
  (forall s, TemporalAnalyzer.sentiment_of entry = Ok s ->
     exists raw,
       get entry "combined_text" (VStr "") = VStr raw /\
       s = count_hits TemporalAnalyzer.positive_words (lower raw)
           - count_hits TemporalAnalyzer.negative_words (lower raw)) /\
  positive_words =
    TemporalAnalyzer.positive_words ++
    ["recharged"; "energetic"; "optimistic"; "fulfilling"; "rewarding"] /\
  negative_words =
    TemporalAnalyzer.negative_words ++ ["struggling"; "frustrated"] /\
  ((exists raw, get entry "combined_text" (VStr "") = VStr raw) ->
   exists s, _calculate_sentiment entry = Ok s).
Proof.
  split; [|split; [|split; [|split]]].
  - unfold _calculate_sentiment. intros s Hrun.
    apply bind_Ok in Hrun as (raw & Hraw & Hrun).
    exists raw. split.
    { destruct (get entry "combined_text" (VStr "")); try discriminate Hraw.
      now injection Hraw as ->. }
    cbv zeta in *.
    pose proof (count_hits_nonneg positive_words (lower raw)) as Hp.
    pose proof (count_hits_nonneg negative_words (lower raw)) as Hn.
    set (pos := count_hits positive_words (lower raw)) in *.
    set (neg := count_hits negative_words (lower raw)) in *.
    destruct (0 <? pos + neg) eqn:Htotal; injection Hrun as <-.
    + apply Z.ltb_lt in Htotal.
      split; [reflexivity|]. split; [lia|].
      apply round64_unit; apply ratio_bounds; lia.
    + apply Z.ltb_ge in Htotal.
      split; [lia|]. split; [reflexivity|]. split; discriminate.
  - unfold TemporalAnalyzer.sentiment_of. intros s Hrun.
    apply bind_Ok in Hrun as (raw & Hraw & Hrun).
    exists raw. split.
    { destruct (get entry "combined_text" (VStr "")); try discriminate Hraw.
      now injection Hraw as ->. }
    now injection Hrun as <-.
  - reflexivity.
  - reflexivity.
  - intros [raw Hraw]. now apply (calculate_sentiment_total entry raw).
Qed.

Lemma calculate_sentiment_normalised_witness :
  _calculate_sentiment two_good_words = Ok 1%Q /\
  round64 (2 # 2) = 1%Q.
Proof.
  assert (Hrun : _calculate_sentiment two_good_words = Ok 1%Q)
    by (vm_compute; reflexivity).
  destruct (calculate_sentiment_normalised two_good_words) as (Hspec & _).
  destruct (Hspec 1%Q Hrun) as (raw & Hraw & Hratio & _).
  injection Hraw as <-.
  split; [exact Hrun|].
  rewrite (Hratio ltac:(vm_compute; reflexivity)). vm_compute. reflexivity.
Defined.

End SentimentFacts.

(** ** Grouping into a [defaultdict(list)] *)

Module GroupFacts.
Import Py OrderedDictFacts.

Section Grouping.

Context {V : Type}.

(** [d[k].append(x)] on a [defaultdict(list)]. *)
Definition od_append (d : list (Z * list V)) (k : Z) (x : V)
    : list (Z * list V) :=
  od_set d k (match od_get d k with Some xs => xs | None => [] end ++ [x]).

(** The values filed under [k], in the order they came. *)
Definition members (k : Z) (seen : list (Z * V)) : list V :=
  map snd (List.filter (fun p => fst p =? k) seen).

Definition group_all (seen : list (Z * V)) (d : list (Z * list V))
    : list (Z * list V) :=
  fold_left (fun d p => od_append d (fst p) (snd p)) seen d.

Record grouped (d : list (Z * list V)) (seen : list (Z * V)) : Prop := {
  grouped_get : forall k,
    od_get d k =
    match members k seen with
    | [] => None
    | xs => Some xs
    end;
  grouped_nodup : NoDup (od_keys d)
}.

Lemma members_snoc_eq k x seen :
  members k (seen ++ [(k, x)]) = members k seen ++ [x].
Proof.
  unfold members. rewrite List.filter_app, map_app. simpl.
  now rewrite Z.eqb_refl.
Qed.

Lemma members_snoc_ne k k' x seen :
  k <> k' -> members k' (seen ++ [(k, x)]) = members k' seen.
Proof.
  intros Hne. unfold members. rewrite List.filter_app, map_app. simpl.
  apply Z.eqb_neq in Hne. rewrite Hne. simpl. apply app_nil_r.
Qed.

Lemma members_nil_iff k seen : members k seen = [] <-> ~ In k (map fst seen).
Proof.
  unfold members. induction seen as [|[k' x] seen IH]; simpl.
  - tauto.
  - destruct (k' =? k) eqn:Hk; simpl.
    + apply Z.eqb_eq in Hk. split; [discriminate | intros H; exfalso; auto].
    + apply Z.eqb_neq in Hk. rewrite IH. tauto.
Qed.

Lemma grouped_nil : grouped [] [].
Proof. split; [reflexivity | constructor]. Qed.

Lemma grouped_step d seen k x :
  grouped d seen -> grouped (od_append d k x) (seen ++ [(k, x)]).
Proof.
  intros Hg. unfold od_append. split.
  - intros k'. destruct (Z.eq_dec k k') as [<-|Hne].
    + rewrite od_get_set_eq, members_snoc_eq, (grouped_get _ _ Hg).
      destruct (members k seen); reflexivity.
    + rewrite od_get_set_ne, members_snoc_ne by assumption.
      apply (grouped_get _ _ Hg).
  - rewrite od_keys_set. destruct (od_get d k) eqn:Hget.
    + apply (grouped_nodup _ _ Hg).
    + apply NoDup_app. split; [apply (grouped_nodup _ _ Hg)|].
      split; [|repeat constructor; apply not_elem_of_nil].
      intros y Hy Hy'. apply list_elem_of_singleton in Hy' as ->.
      apply list_elem_of_In, od_get_keys in Hy. congruence.
Qed.

Lemma grouped_all seen' d seen :
  grouped d seen -> grouped (group_all seen' d) (seen ++ seen').
Proof.
  revert d seen. induction seen' as [|[k x] seen' IH]; intros d seen Hg; simpl.
  - now rewrite app_nil_r.
  - replace (seen ++ (k, x) :: seen') with ((seen ++ [(k, x)]) ++ seen')
      by now rewrite <- app_assoc.
    apply IH. now apply grouped_step.
Qed.

Lemma grouped_keys d seen k :
  grouped d seen -> In k (od_keys d) <-> In k (map fst seen).
Proof.
  intros Hg. rewrite od_get_keys, (grouped_get _ _ Hg).
  pose proof (members_nil_iff k seen) as Hnil.
  destruct (members k seen) eqn:Hm.
  - split; [congruence | intros Hin; exfalso; now apply Hnil].
  - split; [|discriminate]. intros _.
    destruct (in_dec Z.eq_dec k (map fst seen)) as [Hin|Hout]; [exact Hin|].
    apply Hnil in Hout. discriminate Hout.
Qed.

Lemma od_get_In {W : Type} (d : list (Z * W)) k w :
  NoDup (od_keys d) -> In (k, w) d -> od_get d k = Some w.
Proof.
  induction d as [|[k' w'] d IH]; simpl; [tauto|].
  intros Hnd [[= -> ->] | Hin].
  - now rewrite Z.eqb_refl.
  - apply NoDup_cons in Hnd as [Hk' Hnd].
    destruct (k' =? k) eqn:Hk; [|auto].
    apply Z.eqb_eq in Hk as ->. exfalso. apply Hk'.
    apply list_elem_of_In. change k with (fst (k, w)). now apply in_map.
Qed.

Lemma grouped_members d seen k xs :
  grouped d seen -> In (k, xs) d -> xs = members k seen /\ xs <> [].
Proof.
  intros Hg Hin.
  apply od_get_In in Hin; [|apply (grouped_nodup _ _ Hg)].
  rewrite (grouped_get _ _ Hg) in Hin.
  destruct (members k seen); [discriminate|].
  injection Hin as <-. split; [reflexivity | discriminate].
Qed.

(** The dict has one key for every distinct key that was filed. *)
Lemma grouped_length d seen :
  grouped d seen -> length d = length (nodup Z.eq_dec (map fst seen)).
Proof.
  intros Hg. rewrite <- (length_map fst d).
  apply Permutation_length, NoDup_Permutation.
  - apply (grouped_nodup _ _ Hg).
  - apply NoDup_ListNoDup, List.NoDup_nodup.
  - intros k. rewrite !list_elem_of_In, nodup_In. now apply grouped_keys.
Qed.

End Grouping.

End GroupFacts.

(** ** PatternDetector: the weekly cycle *)

Module WeeklyPatternFacts.
Import Py ResultFacts FloatFacts GroupFacts PatternDetector.

(** Record [entry] is filed under week [fst p] with sentiment [snd p]. *)
Definition filed (entry : gmap string pyval) (p : Z * Q) : Prop :=
  week_of entry = Ok (fst p) /\ _calculate_sentiment entry = Ok (snd p).

(** A record with a usable week and text. *)
Definition scorable (entry : gmap string pyval) : Prop :=
  (exists w, week_of entry = Ok w) /\
  (exists raw, get entry "combined_text" (VStr "") = VStr raw).

(** The variance test of [_detect_weekly_pattern]. *)
Definition fluctuates (weekly : list (Z * list Q)) : Prop :=
  (3 <= length weekly)%nat /\
  (1 # 2 < np_var (map (fun g => np_mean (snd g)) weekly))%Q.

Lemma weekly_loop_groups data weekly0 weekly :
  weekly_loop data weekly0 = Ok weekly ->
  exists pairs, Forall2 filed data pairs /\ weekly = group_all pairs weekly0.
Proof.
  revert weekly0. induction data as [|entry data IH]; intros weekly0; simpl.
  - intros [= <-]. exists []. split; [constructor | reflexivity].
  - intros Hrun.
    apply bind_Ok in Hrun as (w & Hw & Hrun).
    apply bind_Ok in Hrun as (s & Hs & Hrun).
    apply IH in Hrun as (pairs & Hpairs & ->).
    exists ((w, s) :: pairs). split; [|reflexivity].
    constructor; [split; assumption | exact Hpairs].
Qed.

Lemma weekly_loop_total data weekly0 :
  Forall scorable data -> exists weekly, weekly_loop data weekly0 = Ok weekly.
Proof.
  intros Hwf. revert weekly0.
  induction Hwf as [|entry data Hentry _ IH]; intros weekly0; simpl.
  - eauto.
  - destruct Hentry as [[w Hw] [raw Hraw]].
    destruct (SentimentFacts.calculate_sentiment_total entry raw Hraw) as [s Hs].
    rewrite Hw, Hs. cbn. apply IH.
Qed.

Lemma week_averages_values (weekly : list (Z * list Q)) :
  map snd (map (fun '(week, sentiments) => (week, np_mean sentiments)) weekly)
  = map (fun g => np_mean (snd g)) weekly.
Proof.
  rewrite map_map. apply map_ext. now intros [week sentiments].
Qed.

Lemma detect_weekly_pattern_inv data r :
  _detect_weekly_pattern data = Ok r ->
  exists weekly,
    weekly_loop data [] = Ok weekly /\
    detected r = true /\
    (description r = fluctuating <-> fluctuates weekly) /\
    (description r = generic <-> ~ fluctuates weekly).
Proof.
  unfold _detect_weekly_pattern, fluctuates. intros Hrun.
  apply bind_Ok in Hrun as (weekly & Hweekly & Hrun).
  exists weekly. split; [exact Hweekly|].
  rewrite week_averages_values, length_map in Hrun.
  assert (Hne : fluctuating <> generic) by discriminate.
  destruct (3 <=? length weekly)%nat eqn:Hlen; simpl in Hrun.
  - apply Nat.leb_le in Hlen.
    destruct (Qltb _ _) eqn:Hvar; injection Hrun as <-; simpl;
      (split; [reflexivity|]).
    + apply Qltb_lt in Hvar. split; split; auto; try congruence.
      intros Hno. exfalso. apply Hno. auto.
    + apply Qltb_ge in Hvar.
      assert (Hno : ~ ((3 <= length weekly)%nat /\
                       (1 # 2 < np_var (map (fun g => np_mean (snd g)) weekly))%Q)).
      { intros [_ Hlt]. exact (Qlt_not_le _ _ Hlt Hvar). }
      split; split; auto; try congruence; try (intros Hyes; now exfalso).
  - apply Nat.leb_gt in Hlen. injection Hrun as <-; simpl.
    assert (Hno : ~ ((3 <= length weekly)%nat /\
                     (1 # 2 < np_var (map (fun g => np_mean (snd g)) weekly))%Q)).
    { intros [Hge _]. lia. }
    split; [reflexivity|].
    split; split; auto; try congruence; try (intros Hyes; now exfalso).
Qed.

(** C2. Whatever the data, the weekly-cycle result has [detected = true].
    The records are grouped by week; when there are at least three
    distinct weeks and the population variance of the per-week average
    sentiments exceeds 0.5 the description is the sentence on
    fluctuations, and otherwise it is the generic sentence. A result is
    produced for every data set whose records have a usable week and
    text. *)
Theorem detect_weekly_pattern_always_detected
    (data : list (gmap string pyval)) :
  (forall r, _detect_weekly_pattern data = Ok r ->
     detected r = true /\
     exists pairs weekly,
       Forall2 filed data pairs /\
       NoDup (map fst weekly) /\
       (forall w, In w (map fst weekly) <-> In w (map fst pairs)) /\
       (forall w xs, In (w, xs) weekly -> xs = members w pairs) /\
       length weekly = length (nodup Z.eq_dec (map fst pairs)) /\
       (description r = fluctuating <-> fluctuates weekly) /\
       (description r = generic <-> ~ fluctuates weekly)) /\
  (Forall scorable data -> exists r, _detect_weekly_pattern data = Ok r).
Proof.
  split.
  - intros r Hrun.
    apply detect_weekly_pattern_inv in Hrun as (weekly & Hloop & Hdet & Hf & Hg).
    split; [exact Hdet|].
    apply weekly_loop_groups in Hloop as (pairs & Hpairs & ->).
    pose proof (grouped_all pairs [] [] grouped_nil) as Hgr. simpl in Hgr.
    exists pairs, (group_all pairs []).
    split; [exact Hpairs|].
    split; [apply (grouped_nodup _ _ Hgr)|].
    split; [intros w; now apply grouped_keys|].
    split; [intros w xs Hin; now apply (grouped_members _ _ _ _ Hgr)|].
    split; [now apply grouped_length|].
    split; assumption.
  - intros Hwf. unfold _detect_weekly_pattern.
    destruct (weekly_loop_total data [] Hwf) as [weekly Hweekly].
    rewrite (bind_Ok_eq _ _ _ Hweekly).
    destruct (_ && _); eauto.
Qed.

Definition in_week (w : Z) (text : string) : gmap string pyval :=
  <["week" := VInt w]> (<["combined_text" := VStr text]> ∅).

Definition three_weeks : list (gmap string pyval) :=
  [in_week 1 "Diary: good and happy";
   in_week 2 "Diary: stress, so tired";
   in_week 3 "Diary: a great day";
   in_week 1 "Diary: grateful"].

Lemma detect_weekly_pattern_always_detected_witness :
  exists r,
    _detect_weekly_pattern three_weeks = Ok r /\
    detected r = true /\ description r = fluctuating.
Proof.
  destruct (detect_weekly_pattern_always_detected three_weeks) as [Hspec Htotal].
  destruct Htotal as [r Hr].
  { repeat constructor; simpl; eauto. }
  exists r. split; [exact Hr|].
  destruct (Hspec r Hr) as [Hdet _]. split; [exact Hdet|].
  vm_compute in Hr. now injection Hr as <-.
Defined.

(** Four weeks whose sentiments are -3/5, 4/5, -4/5 and -1: their
    variance is one half, numpy finds it above one half, and the
    description is the sentence on fluctuations. *)
Definition half_variance_weeks : list (gmap string pyval) :=
  [in_week 1 "good, but stress, pressure, anxious and nervous";
   in_week 2 ("good great happy wonderful amazing love better "
              +:+ "accomplished grateful, some stress");
   in_week 3 ("good, but stress pressure anxious nervous worry tough "
              +:+ "exhausted tired drained");
   in_week 4 "stress"].

Example half_variance_fluctuates :
  mapM _calculate_sentiment half_variance_weeks
    = Ok [round64 (- (3 # 5)); round64 (4 # 5); round64 (- (4 # 5)); - (1)]%Q /\
  _detect_weekly_pattern half_variance_weeks
    = Ok {| detected := true; description := fluctuating |}.
Proof. split; vm_compute; reflexivity. Qed.

End WeeklyPatternFacts.

(** ** Records on the heap: what an assignment to a field changes *)

Module HeapFacts.
Import Py.

(** Between [h] and [h'] nothing happened but assignments to field [k]
    of the records [refs]: no record appeared or disappeared, every other
    field of every record is as it was, a record of [refs] has field [k]
    and the fields it had, and a record outside [refs] is untouched. *)
Definition only_assigns (k : string) (refs : list nat)
    (h h' : gmap nat (gmap string pyval)) : Prop :=
  forall ref,
    match h !! ref with
    | None => h' !! ref = None
    | Some entry =>
        exists entry',
          h' !! ref = Some entry' /\
          (forall k', k' <> k -> entry' !! k' = entry !! k') /\
          (In ref refs -> dom entry' = {[k]} ∪ dom entry) /\
          (~ In ref refs -> entry' = entry)
    end.

Lemma only_assigns_nil k h : only_assigns k [] h h.
Proof.
  intros ref. destruct (h !! ref) as [entry|] eqn:Href; [|reflexivity].
  exists entry. repeat split; auto. intros [].
Qed.

Lemma only_assigns_snoc k refs h h1 ref v :
  only_assigns k refs h h1 ->
  only_assigns k (refs ++ [ref]) h (setitem h1 ref k v).
Proof.
  intros Hframe ref'. specialize (Hframe ref'). unfold setitem.
  destruct (h !! ref') as [entry|] eqn:Href.
  - destruct Hframe as (entry1 & H1 & Hother & Hin & Hout).
    destruct (decide (ref = ref')) as [->|Hne].
    + exists (<[k := v]> entry1). rewrite lookup_alter_eq, H1.
      split; [reflexivity|]. split; [|split].
      * intros k' Hk'. rewrite lookup_insert_ne by congruence. now apply Hother.
      * intros _. rewrite dom_insert_L.
        destruct (in_dec Nat.eq_dec ref' refs) as [Hyes|Hno].
        -- rewrite (Hin Hyes). apply set_eq. intros x.
           rewrite !elem_of_union. tauto.
        -- now rewrite (Hout Hno).
      * intros Hno. exfalso. apply Hno, in_or_app. right. now left.
    + exists entry1. rewrite lookup_alter_ne by assumption.
      split; [exact H1|]. split; [exact Hother|]. split.
      * intros Hyes. apply in_app_or in Hyes as [Hyes | [Heq | []]];
          [now apply Hin | congruence].
      * intros Hno. apply Hout. intros Hyes. apply Hno, in_or_app. now left.
  - destruct (decide (ref = ref')) as [->|Hne].
    + now rewrite lookup_alter_eq, Hframe.
    + now rewrite lookup_alter_ne.
Qed.

Lemma deref_setitem_eq h ref k v :
  is_Some (h !! ref) -> deref (setitem h ref k v) ref !! k = Some v.
Proof.
  intros [entry Hentry]. unfold deref, setitem.
  rewrite lookup_alter_eq, Hentry. simpl. apply lookup_insert_eq.
Qed.

Lemma deref_setitem_ne h ref ref' k v :
  ref <> ref' -> deref (setitem h ref k v) ref' = deref h ref'.
Proof.
  intros Hne. unfold deref, setitem. now rewrite lookup_alter_ne.
Qed.

(** A field other than [k] reads the same before and after. *)
Lemma only_assigns_read k refs h h' ref k' :
  only_assigns k refs h h' -> k' <> k ->
  deref h' ref !! k' = deref h ref !! k'.
Proof.
  intros Hframe Hne. specialize (Hframe ref). unfold deref.
  destruct (h !! ref) as [entry|].
  - destruct Hframe as (entry' & -> & Hother & _). now apply Hother.
  - now rewrite Hframe.
Qed.

End HeapFacts.

(** ** ThemeClusterer and TemporalAnalyzer: the fields they assign *)

Module FrameFacts.
Import Py ResultFacts HeapFacts.

Lemma assign_clusters_frame labels data :
  forall i h1 r h' h done,
    ThemeClusterer.assign_clusters labels i data h1 = (r, h') ->
    only_assigns "cluster" done h h1 ->
    exists done',
      done' `prefix_of` data /\
      (is_ok r = true -> done' = data) /\
      only_assigns "cluster" (done ++ done') h h'.
Proof.
  induction data as [|ref data IH]; intros i h1 r h' h done; simpl.
  - intros [= <- <-] Hframe. exists []. rewrite app_nil_r. auto using prefix_nil.
  - destruct (labels !! i) as [label|].
    + intros Hrun Hframe.
      destruct (IH _ _ _ _ h (done ++ [ref]) Hrun) as (done' & Hpre & Hall & Hf).
      { now apply only_assigns_snoc. }
      exists (ref :: done'). split; [now apply prefix_cons|].
      split; [intros Hok; now rewrite (Hall Hok)|].
      now rewrite <- app_assoc in Hf.
    + intros [= <- <-] Hframe. exists []. rewrite app_nil_r.
      split; [apply prefix_nil|]. split; [discriminate | exact Hframe].
Qed.

Lemma assign_clusters_total labels data i h :
  (i + length data <= length labels)%nat ->
  fst (ThemeClusterer.assign_clusters labels i data h) = Ok tt.
Proof.
  revert i h. induction data as [|ref data IH]; intros i h Hlen; simpl in *.
  - reflexivity.
  - destruct (lookup_lt_is_Some_2 labels i) as [label ->]; [lia|].
    apply IH. lia.
Qed.

Lemma setitem_allocated h ref k v ref' :
  is_Some (setitem h ref k v !! ref') <-> is_Some (h !! ref').
Proof.
  unfold setitem. destruct (decide (ref = ref')) as [->|Hne].
  - rewrite lookup_alter_eq. destruct (h !! ref'); simpl.
    + split; eauto.
    + split; intros [x Hx]; discriminate.
  - now rewrite lookup_alter_ne.
Qed.

Lemma assign_clusters_other labels data :
  forall i h r h' ref,
    ThemeClusterer.assign_clusters labels i data h = (r, h') ->
    ~ In ref data -> deref h' ref = deref h ref.
Proof.
  induction data as [|ref0 data IH]; intros i h r h' ref; simpl.
  - now intros [= <- <-].
  - destruct (labels !! i) as [label|]; [|now intros [= <- <-]].
    intros Hrun Hout. rewrite (IH _ _ _ _ _ Hrun) by tauto.
    apply deref_setitem_ne. tauto.
Qed.

Lemma assign_clusters_values labels data :
  forall i h h',
    Forall (fun ref => is_Some (h !! ref)) data ->
    ThemeClusterer.assign_clusters labels i data h = (Ok tt, h') ->
    (data = [] \/ (i + length data <= length labels)%nat) /\
    forall j ref,
      data !! j = Some ref ->
      (forall j', (j < j')%nat -> data !! j' <> Some ref) ->
      exists label,
        labels !! (i + j)%nat = Some label /\
        deref h' ref !! "cluster" = Some (VInt label).
Proof.
  induction data as [|ref0 data IH]; intros i h h' Hlive; simpl.
  - intros _. split; [now left|]. intros j ref Hj. discriminate Hj.
  - destruct (labels !! i) as [label|] eqn:Hlabel; [|discriminate].
    intros Hrun. apply Forall_cons in Hlive as [Hlive0 Hlive].
    destruct (IH (S i) (setitem h ref0 "cluster" (VInt label)) h')
      as [Hlen Hvalues]; [|exact Hrun|].
    { eapply Forall_impl; [exact Hlive|]. intros ref Href.
      now apply setitem_allocated. }
    split.
    { right. apply lookup_lt_Some in Hlabel.
      destruct Hlen as [-> | Hlen]; simpl in *; lia. }
    intros [|j] ref Hj Hlast.
    + injection Hj as ->. exists label. rewrite Nat.add_0_r.
      split; [exact Hlabel|].
      rewrite (assign_clusters_other _ _ _ _ _ _ ref Hrun).
      * now apply deref_setitem_eq.
      * intros Hin. apply list_elem_of_In, list_elem_of_lookup in Hin as [j Hj].
        apply (Hlast (S j)); [lia | exact Hj].
    + destruct (Hvalues j ref Hj) as (label' & Hl & Hc).
      { intros j' Hlt. apply (Hlast (S j')). lia. }
      exists label'. split; [|exact Hc].
      now replace (i + S j)%nat with (S i + j)%nat by lia.
Qed.

Lemma mapM_is_ok {A B : Type} (f : A -> result B) (l : list A) :
  (forall x, In x l -> is_ok (f x) = true) -> exists ys, mapM f l = Ok ys.
Proof.
  induction l as [|x l IH]; intros Hok; [now exists []|].
  destruct IH as [ys Hys]; [intros y Hy; apply Hok; now right|].
  destruct (f x) as [y|e] eqn:Hx.
  - exists (y :: ys). apply mapM_Ok_Forall2.
    constructor; [exact Hx | now apply mapM_Ok_Forall2].
  - specialize (Hok x ltac:(now left)). rewrite Hx in Hok. discriminate Hok.
Qed.

Lemma group_loop_frame start data :
  forall weekly h1 r h' h done,
    TemporalAnalyzer.group_loop start data weekly h1 = (r, h') ->
    only_assigns "week" done h h1 ->
    exists done',
      done' `prefix_of` data /\
      (is_ok r = true -> done' = data) /\
      only_assigns "week" (done ++ done') h h'.
Proof.
  induction data as [|ref data IH]; intros weekly h1 r h' h done; simpl.
  - intros [= <- <-] Hframe. exists []. rewrite app_nil_r. auto using prefix_nil.
  - destruct (getitem (deref h1 ref) "date_obj" ≫= as_date) as [d|e].
    + intros Hrun Hframe.
      destruct (IH _ _ _ _ h (done ++ [ref]) Hrun) as (done' & Hpre & Hall & Hf).
      { now apply only_assigns_snoc. }
      exists (ref :: done'). split; [now apply prefix_cons|].
      split; [intros Hok; now rewrite (Hall Hok)|].
      now rewrite <- app_assoc in Hf.
    + intros [= <- <-] Hframe. exists []. rewrite app_nil_r.
      split; [apply prefix_nil|]. split; [discriminate | exact Hframe].
Qed.

(** A record with a parsed date. *)
Definition dated (h : gmap nat (gmap string pyval)) (ref : nat) : Prop :=
  exists d, deref h ref !! "date_obj" = Some (VDate d).

Lemma dated_date h ref :
  dated h ref -> exists d, getitem (deref h ref) "date_obj" ≫= as_date = Ok d.
Proof. intros [d Hd]. exists d. unfold getitem. now rewrite Hd. Qed.

Lemma group_loop_total start data :
  forall weekly h1 h done,
    only_assigns "week" done h h1 ->
    Forall (dated h) data ->
    is_ok (fst (TemporalAnalyzer.group_loop start data weekly h1)) = true.
Proof.
  induction data as [|ref data IH]; intros weekly h1 h done Hframe Hdated; simpl.
  - reflexivity.
  - apply Forall_cons in Hdated as [Href Hdated].
    assert (Href1 : dated h1 ref).
    { destruct Href as [d Hd]. exists d.
      now rewrite (only_assigns_read _ _ _ _ _ _ Hframe). }
    destruct (dated_date _ _ Href1) as [d ->].
    apply (IH _ _ h (done ++ [ref])); [|exact Hdated].
    now apply only_assigns_snoc.
Qed.

(** A theme that holds the number of records with its cluster id. *)
Definition counting_theme (km : ThemeClusterer.KMeans) (cluster_id : Z)
    (data : list (gmap string pyval)) (embeddings : list (list Q))
    (labels : list Z) : result ThemeClusterer.Theme :=
  Ok {| ThemeClusterer.theme_label := "";
        ThemeClusterer.cluster_id := cluster_id;
        ThemeClusterer.representative_entries := [];
        ThemeClusterer.keywords := [];
        ThemeClusterer.cluster_confidence := 0%Q;
        ThemeClusterer.entry_count :=
          length (List.filter
                    (fun entry =>
                       match entry !! "cluster" with
                       | Some (VInt c) => c =? cluster_id
                       | _ => false
                       end) data) |}.

(** C10. [fit_predict] assigns field [cluster], and the week grouping
    assigns field [week], of the records it is given and nothing else:
    afterwards every record has the fields it had plus that one, every
    other field of every record reads as before, records outside the
    data are untouched, and no record appears or disappears. This holds
    for the records reached before an exception as well. When k-means
    gives a label for every record, [fit_predict] assigns every record
    of the data, with the label of its row, whether or not the themes
    can then be extracted, and it returns the themes when each of them
    can; when k-means raises, no record is touched. The week grouping
    assigns every record, and returns, when the data is not empty and
    every record has a parsed date. *)
Theorem cluster_and_week_frame :
  (forall (km : ThemeClusterer.KMeansImpl) _extract_theme
          self embeddings data h r h',
     ThemeClusterer.fit_predict _extract_theme self embeddings data h = (r, h') ->
     exists assigned,
       assigned `prefix_of` data /\
       (is_ok r = true -> assigned = data) /\
       only_assigns "cluster" assigned h h') /\
  (forall (km : ThemeClusterer.KMeansImpl) _extract_theme
          self embeddings data h labels,
     ThemeClusterer.fit_predict_labels (ThemeClusterer.model self) embeddings
       = Ok labels ->
     (length data <= length labels)%nat ->
     exists h',
       ThemeClusterer.fit_predict _extract_theme self embeddings data h =
         (mapM (fun cluster_id =>
                  _extract_theme (ThemeClusterer.model self)
                    (Z.of_nat cluster_id) (map (deref h') data)
                    embeddings labels)
               (seq 0 (ThemeClusterer.n_clusters self)),
          h') /\
       only_assigns "cluster" data h h' /\
       (Forall (fun ref => is_Some (h !! ref)) data ->
        forall i ref,
          data !! i = Some ref ->
          (forall j, (i < j)%nat -> data !! j <> Some ref) ->
          exists label,
            labels !! i = Some label /\
            deref h' ref !! "cluster" = Some (VInt label)) /\
       ((forall cluster_id,
           (cluster_id < ThemeClusterer.n_clusters self)%nat ->
           is_ok (_extract_theme (ThemeClusterer.model self)
                    (Z.of_nat cluster_id) (map (deref h') data)
                    embeddings labels) = true) ->
        exists themes,
          ThemeClusterer.fit_predict _extract_theme self embeddings data h
            = (Ok themes, h'))) /\
  (forall (km : ThemeClusterer.KMeansImpl) _extract_theme
          self embeddings data h e,
     ThemeClusterer.fit_predict_labels (ThemeClusterer.model self) embeddings
       = Raise e ->
     ThemeClusterer.fit_predict _extract_theme self embeddings data h
       = (Raise e, h)) /\
  (forall data h r h',
     TemporalAnalyzer._group_by_week data h = (r, h') ->
     exists assigned,
       assigned `prefix_of` data /\
       (is_ok r = true -> assigned = data) /\
       only_assigns "week" assigned h h') /\
  (forall data h,
     data <> [] -> Forall (dated h) data ->
     exists weekly h',
       TemporalAnalyzer._group_by_week data h = (Ok weekly, h') /\
       only_assigns "week" data h h').
Proof.
  assert (Hweek : forall data h r h',
            TemporalAnalyzer._group_by_week data h = (r, h') ->
            exists assigned,
              assigned `prefix_of` data /\
              (is_ok r = true -> assigned = data) /\
              only_assigns "week" assigned h h').
  { intros data h r h'. unfold TemporalAnalyzer._group_by_week.
    assert (Hstop : forall e,
              (Raise e, h) = (r, h') ->
              exists assigned,
                assigned `prefix_of` data /\
                (is_ok r = true -> assigned = data) /\
                only_assigns "week" assigned h h').
    { intros e [= <- <-]. exists [].
      split; [apply prefix_nil|]. split; [discriminate | apply only_assigns_nil]. }
    destruct (list_getitem data 0) as [first|e]; [|apply Hstop].
    destruct (getitem (deref h first) "date_obj" ≫= as_date) as [start|e];
      [|apply Hstop].
    intros Hloop.
    apply (group_loop_frame _ _ _ _ _ _ h [] Hloop (only_assigns_nil _ h)). }
  split; [|split; [|split; [|split]]].
  - intros km _extract_theme self embeddings data h r h'.
    unfold ThemeClusterer.fit_predict.
    destruct (ThemeClusterer.fit_predict_labels _ _) as [labels|e].
    + destruct (ThemeClusterer.assign_clusters labels 0 data h) as [r1 h1] eqn:Hloop.
      destruct (assign_clusters_frame _ _ _ _ _ _ h [] Hloop (only_assigns_nil _ h))
        as (done & Hpre & Hall & Hframe).
      destruct r1 as [[]|e]; intros [= <- <-]; exists done.
      * rewrite (Hall eq_refl) in *. auto.
      * split; [exact Hpre|]. split; [discriminate | exact Hframe].
    + intros [= <- <-]. exists [].
      split; [apply prefix_nil|]. split; [discriminate | apply only_assigns_nil].
  - intros km _extract_theme self embeddings data h labels Hlabels Hlen.
    unfold ThemeClusterer.fit_predict. rewrite Hlabels.
    pose proof (assign_clusters_total labels data 0 h Hlen) as Htotal.
    destruct (ThemeClusterer.assign_clusters labels 0 data h) as [r1 h1] eqn:Hloop.
    simpl in Htotal. subst r1. exists h1.
    split; [reflexivity|].
    destruct (assign_clusters_frame _ _ _ _ _ _ h [] Hloop (only_assigns_nil _ h))
      as (done & _ & Hall & Hframe).
    rewrite (Hall eq_refl) in Hframe.
    split; [exact Hframe|]. split.
    + intros Hlive.
      destruct (assign_clusters_values _ _ _ _ _ Hlive Hloop) as [_ Hvalues].
      exact Hvalues.
    + intros Hthemes.
      destruct (mapM_is_ok
                  (fun cluster_id =>
                     _extract_theme (ThemeClusterer.model self)
                       (Z.of_nat cluster_id) (map (deref h1) data)
                       embeddings labels)
                  (seq 0 (ThemeClusterer.n_clusters self))) as [themes Hrun].
      { intros c Hc. apply Hthemes. apply in_seq in Hc. lia. }
      exists themes. now rewrite Hrun.
  - intros km _extract_theme self embeddings data h e Hlabels.
    unfold ThemeClusterer.fit_predict. now rewrite Hlabels.
  - exact Hweek.
  - intros data h Hne Hdated.
    assert (Hok : is_ok (fst (TemporalAnalyzer._group_by_week data h)) = true).
    { unfold TemporalAnalyzer._group_by_week.
      destruct data as [|first data]; [congruence|].
      change (list_getitem (first :: data) 0) with (Ok (A := nat) first).
      pose proof (Forall_inv Hdated) as Hfirst.
      destruct (dated_date _ _ Hfirst) as [start ->].
      apply (group_loop_total _ _ _ _ h []);
        [apply only_assigns_nil | exact Hdated]. }
    destruct (TemporalAnalyzer._group_by_week data h) as [[weekly|e] h'] eqn:Hrun;
      [|discriminate Hok].
    exists weekly, h'. split; [reflexivity|].
    destruct (Hweek _ _ _ _ Hrun) as (assigned & _ & Hall & Hframe).
    now rewrite (Hall eq_refl) in Hframe.
Qed.

(** A k-means that gives every record the label 0. *)
Definition constant_kmeans : ThemeClusterer.KMeansImpl :=
  {| ThemeClusterer.fit_predict_labels := fun _ X => Ok (map (fun _ => 0) X);
     ThemeClusterer.cluster_centers_ := fun _ X => [] |}.

Definition two_records : gmap nat (gmap string pyval) :=
  <[0%nat := <["entry_id" := VStr "e1"]> (<["date_obj" := VDate 738000]> ∅)]>
    (<[1%nat := <["entry_id" := VStr "e2"]> (<["date_obj" := VDate 738009]> ∅)]> ∅).

Lemma cluster_and_week_frame_witness :
  exists themes h' weekly h'',
    @ThemeClusterer.fit_predict counting_theme constant_kmeans
      (ThemeClusterer.__init__ 5) [[1%Q]; [2%Q]] [0; 1]%nat two_records
      = (Ok themes, h') /\
    deref h' 1%nat !! "cluster" = Some (VInt 0) /\
    deref h' 1%nat !! "entry_id" = Some (VStr "e2") /\
    TemporalAnalyzer._group_by_week [0; 1]%nat h' = (Ok weekly, h'') /\
    deref h'' 1%nat !! "cluster" = Some (VInt 0) /\
    deref h'' 1%nat !! "entry_id" = Some (VStr "e2").
Proof.
  destruct cluster_and_week_frame as (_ & Hcluster & _ & _ & Hweek).
  destruct (Hcluster constant_kmeans counting_theme (ThemeClusterer.__init__ 5)
              [[1%Q]; [2%Q]] [0; 1]%nat two_records [0; 0] eq_refl)
    as (h' & _ & Hframe & Hvalues & Hthemes); [simpl; lia|].
  destruct Hthemes as [themes Hrun]; [reflexivity|].
  assert (Hlive : Forall (fun ref => is_Some (two_records !! ref)) [0; 1]%nat).
  { apply Forall_cons. split; [vm_compute; eauto|].
    apply Forall_cons. split; [vm_compute; eauto | apply Forall_nil_2]. }
  destruct (Hvalues Hlive 1%nat 1%nat eq_refl) as (label & Hlabel & Hc).
  { intros [|[|j]] Hlt; [lia | lia | discriminate]. }
  injection Hlabel as <-.
  assert (Hid : deref h' 1%nat !! "entry_id" = Some (VStr "e2")).
  { now rewrite (only_assigns_read _ _ _ _ 1%nat "entry_id" Hframe). }
  destruct (Hweek [0; 1]%nat h') as (weekly & h'' & Hrun2 & Hframe2).
  { discriminate. }
  { repeat constructor.
    - exists 738000.
      now rewrite (only_assigns_read _ _ _ _ 0%nat "date_obj" Hframe).
    - exists 738009.
      now rewrite (only_assigns_read _ _ _ _ 1%nat "date_obj" Hframe). }
  exists themes, h', weekly, h''.
  split; [exact Hrun|]. split; [exact Hc|]. split; [exact Hid|].
  split; [exact Hrun2|]. split.
  - now rewrite (only_assigns_read _ _ _ _ 1%nat "cluster" Hframe2).
  - now rewrite (only_assigns_read _ _ _ _ 1%nat "entry_id" Hframe2).
Defined.

End FrameFacts.

(** ** main: the order of the stages *)

Module MainFacts.
Import Py Main.

(** The configuration that the specification calls invalid. *)
Definition invalid_config (n_clusters : nat) (contamination : Q)
    (records : nat) : Prop :=
  (records <= n_clusters)%nat \/ ~ (0 < contamination /\ contamination < 1)%Q.

(** C4 as the specification words it: with an invalid configuration the
    run stops before any stage has started. The data must be loaded for
    the number of records to be known, so loading is not held against
    the claim. *)
Definition aborts_before_any_stage : Prop :=
  forall (fs : DataLoader.FileSystem) (enc : MultiModalEmbedder.Encoder)
         (km : ThemeClusterer.KMeansImpl)
         (forest : AnomalyDetector.IsolationForestImpl)
         (rep : Reporting) _extract_theme data,
    DataLoader.load_data "data/input_data.json" = Ok data ->
    invalid_config main_n_clusters main_contamination (length data) ->
    forall s, In s (fst (main _extract_theme)) -> s = Loading.

(** An environment: a file of three records, an encoder that measures
    the length of the text, a k-means that, like scikit-learn's, refuses
    fewer rows than clusters, and collaborators that report nothing. *)
Definition raw_entry (id date text : string) : gmap string pyval :=
  <["entry_id" := VStr id]>
    (<["date" := VStr date]> (<["text" := VStr text]> ∅)).

Definition three_entries : list (gmap string pyval) :=
  [raw_entry "e1" "2024-03-04" "stress at work";
   raw_entry "e2" "2024-03-05" "a good walk";
   raw_entry "e3" "2024-03-06" "tired"].

Definition small_file : DataLoader.FileSystem :=
  {| DataLoader.json_load := fun _ => Ok three_entries;
     DataLoader.strptime := fun v =>
       match v with
       | VStr s => Ok (738949 + Z.of_nat (String.length s))
       | _ => Raise TypeError
       end |}.

Definition length_encoder : MultiModalEmbedder.Encoder :=
  {| MultiModalEmbedder.encode := fun text =>
       Ok [inject_Z (Z.of_nat (String.length text))] |}.

Definition strict_kmeans : ThemeClusterer.KMeansImpl :=
  {| ThemeClusterer.fit_predict_labels := fun km X =>
       if (length X <? ThemeClusterer.km_n_clusters km)%nat
       then Raise (ValueError "n_samples should be >= n_clusters")
       else Ok (map (fun i => Z.of_nat i) (seq 0 (length X)));
     ThemeClusterer.cluster_centers_ := fun _ X => X |}.

Definition silent_reporting : Reporting :=
  {| insights_t := unit;
     output_t := unit;
     generate := fun _ _ _ _ _ => Ok tt;
     create_all_visualizations := fun _ _ _ _ _ _ => Ok [];
     generate_output := fun _ _ _ _ _ _ => Ok tt |}.

Definition bare_theme (km : ThemeClusterer.KMeans) (cluster_id : Z)
    (data : list (gmap string pyval)) (embeddings : list (list Q))
    (labels : list Z) : result ThemeClusterer.Theme :=
  Ok {| ThemeClusterer.theme_label := "Theme";
        ThemeClusterer.cluster_id := cluster_id;
        ThemeClusterer.representative_entries := [];
        ThemeClusterer.keywords := [];
        ThemeClusterer.cluster_confidence := 0;
        ThemeClusterer.entry_count := 0 |}.

Definition small_run : list stage * result unit :=
  @main small_file length_encoder strict_kmeans
    DetectFacts.threshold_forest silent_reporting bare_theme.

(** With three records and five clusters the run has loaded and embedded
    the data before the clustering raises. *)
Example small_run_stops_at_clustering :
  small_run =
  ([Loading; Embedding; Clustering],
   Raise (ValueError "n_samples should be >= n_clusters")).
Proof. vm_compute. reflexivity. Qed.

(** As many records as clusters: the k-means accepts them. *)
Definition five_entries : list (gmap string pyval) :=
  three_entries ++
  [raw_entry "e4" "2024-03-07" "a calm day";
   raw_entry "e5" "2024-03-08" "good news"].

Definition five_file : DataLoader.FileSystem :=
  {| DataLoader.json_load := fun _ => Ok five_entries;
     DataLoader.strptime := @DataLoader.strptime small_file |}.

Definition five_run : list stage * result unit :=
  @main five_file length_encoder strict_kmeans
    DetectFacts.threshold_forest silent_reporting bare_theme.

(** C4, as stated, fails: a run over three records, fewer than the five
    clusters, embeds the records and starts the clustering. *)
Lemma aborts_before_any_stage_fails : ~ aborts_before_any_stage.
Proof.
  intros Hclaim.
  specialize (Hclaim small_file length_encoder strict_kmeans
                DetectFacts.threshold_forest silent_reporting bare_theme).
  returns (@DataLoader.load_data small_file "data/input_data.json")
          (@nil (gmap string pyval)) Hload.
  specialize (Hclaim _ Hload).
  assert (Hnone : Embedding = Loading).
  { apply Hclaim.
    - left. vm_compute. lia.
    - change (In Embedding (fst small_run)).
      rewrite small_run_stops_at_clustering. simpl. auto. }
  discriminate Hnone.
Qed.

Lemma run_stage_Ok_eq {A B : Type} (s : stage) (a : A)
    (k : A -> list stage * result B) started r :
  k a = (started, r) -> run_stage s (Ok a) k = (s :: started, r).
Proof. intros Hk. unfold run_stage. now rewrite Hk. Qed.

Section Pipeline.

Context `{DataLoader.FileSystem} `{MultiModalEmbedder.Encoder}
        `{ThemeClusterer.KMeansImpl} `{AnomalyDetector.IsolationForestImpl}
        `{Reporting}.

Variable _extract_theme :
  ThemeClusterer.KMeans -> Z -> list (gmap string pyval) ->
  list (list Q) -> list Z -> result ThemeClusterer.Theme.

(** The run from a stage on, given what the stages before it returned. *)
Definition from_output themes temporal_data anomalies patterns
    (insights : insights_t) viz_paths : list stage * result output_t :=
  run_stage Output
    (generate_output themes temporal_data anomalies patterns insights viz_paths)
    (fun output => ([], Ok output)).

Definition from_visualizations processed_data embeddings themes temporal_data
    anomalies patterns (insights : insights_t) : list stage * result output_t :=
  run_stage Visualizations
    (create_all_visualizations processed_data embeddings themes
       temporal_data anomalies patterns)
    (from_output themes temporal_data anomalies patterns insights).

Definition from_insights processed_data embeddings themes temporal_data
    anomalies patterns : list stage * result output_t :=
  run_stage Insights
    (generate themes temporal_data anomalies patterns processed_data)
    (from_visualizations processed_data embeddings themes temporal_data
       anomalies patterns).

Definition from_patterns processed_data embeddings themes temporal_data
    anomalies : list stage * result output_t :=
  run_stage Patterns
    (PatternDetector.detect_patterns processed_data embeddings)
    (from_insights processed_data embeddings themes temporal_data anomalies).

Definition from_anomalies processed_data embeddings themes temporal_data
    : list stage * result output_t :=
  run_stage Anomalies
    (AnomalyDetector.detect (AnomalyDetector.__init__ (1 # 10))
       embeddings processed_data)
    (from_patterns processed_data embeddings themes temporal_data).

Definition from_temporal embeddings refs themes h1
    : list stage * result output_t :=
  let '(temporal_r, h2) := TemporalAnalyzer.analyze embeddings refs themes h1 in
  run_stage Temporal temporal_r
    (from_anomalies (map (deref h2) refs) embeddings themes).

Definition from_clustering embeddings (processed : list (gmap string pyval))
    : list stage * result output_t :=
  let refs := seq 0 (length processed) in
  let '(themes_r, h1) :=
    ThemeClusterer.fit_predict _extract_theme (ThemeClusterer.__init__ 5)
      embeddings refs (allocate processed) in
  run_stage Clustering themes_r
    (fun themes => from_temporal embeddings refs themes h1).

Definition from_embedding (data : list (gmap string pyval))
    : list stage * result output_t :=
  run_stage Embedding (MultiModalEmbedder.generate_embeddings data)
    (fun '(embeddings, processed) => from_clustering embeddings processed).

Lemma main_from_loading :
  main _extract_theme =
  run_stage Loading (DataLoader.load_data "data/input_data.json") from_embedding.
Proof. reflexivity. Qed.

(** C4, amended. There is no configuration check and no error of its
    own for a configuration. The anomaly detector hands the contamination
    it is given to the forest, so that a contamination the forest refuses
    raises when [detect] runs. [main] runs the nine stages in order with
    five clusters and contamination 0.1, whatever the number of records:
    the first stage that raises ends the run with its exception, after
    the stages before it have run, and when no stage raises the run ends
    with the report of the last stage. The outcome of the k-means alone
    decides whether a run goes past the clustering. *)
Theorem main_runs_stages_in_order :
  (forall c embeddings data e,
     AnomalyDetector.fit_predict
       {| AnomalyDetector.contamination := c;
          AnomalyDetector.random_state := 42 |} embeddings = Raise e ->
     AnomalyDetector.detect (AnomalyDetector.__init__ c) embeddings data
       = Raise e) /\
  (forall e,
     DataLoader.load_data "data/input_data.json" = Raise e ->
     main _extract_theme = ([Loading], Raise e)) /\
  (forall data,
     DataLoader.load_data "data/input_data.json" = Ok data ->
     (forall e,
        MultiModalEmbedder.generate_embeddings data = Raise e ->
        main _extract_theme = ([Loading; Embedding], Raise e)) /\
     (forall embeddings processed themes_r h1,
        MultiModalEmbedder.generate_embeddings data
          = Ok (embeddings, processed) ->
        ThemeClusterer.fit_predict _extract_theme (ThemeClusterer.__init__ 5)
          embeddings (seq 0 (length processed)) (allocate processed)
          = (themes_r, h1) ->
        (forall e,
           themes_r = Raise e ->
           main _extract_theme = ([Loading; Embedding; Clustering], Raise e)) /\
        (forall themes temporal_r h2,
           themes_r = Ok themes ->
           TemporalAnalyzer.analyze embeddings (seq 0 (length processed))
             themes h1 = (temporal_r, h2) ->
           (forall e,
              temporal_r = Raise e ->
              main _extract_theme = (take 4 all_stages, Raise e)) /\
           (forall temporal_data,
              temporal_r = Ok temporal_data ->
              let processed_data :=
                map (deref h2) (seq 0 (length processed)) in
              (forall e,
                 AnomalyDetector.detect (AnomalyDetector.__init__ (1 # 10))
                   embeddings processed_data = Raise e ->
                 main _extract_theme = (take 5 all_stages, Raise e)) /\
              (forall anomalies,
                 AnomalyDetector.detect (AnomalyDetector.__init__ (1 # 10))
                   embeddings processed_data = Ok anomalies ->
                 (forall e,
                    PatternDetector.detect_patterns processed_data embeddings
                      = Raise e ->
                    main _extract_theme = (take 6 all_stages, Raise e)) /\
                 (forall patterns,
                    PatternDetector.detect_patterns processed_data embeddings
                      = Ok patterns ->
                    (forall e,
                       generate themes temporal_data anomalies patterns
                         processed_data = Raise e ->
                       main _extract_theme = (take 7 all_stages, Raise e)) /\
                    (forall insights,
                       generate themes temporal_data anomalies patterns
                         processed_data = Ok insights ->
                       (forall e,
                          create_all_visualizations processed_data embeddings
                            themes temporal_data anomalies patterns = Raise e ->
                          main _extract_theme = (take 8 all_stages, Raise e)) /\
                       (forall viz_paths,
                          create_all_visualizations processed_data embeddings
                            themes temporal_data anomalies patterns
                            = Ok viz_paths ->
                          (forall e,
                             generate_output themes temporal_data anomalies
                               patterns insights viz_paths = Raise e ->
                             main _extract_theme = (all_stages, Raise e)) /\
                          (forall output,
                             generate_output themes temporal_data anomalies
                               patterns insights viz_paths = Ok output ->
                             main _extract_theme
                               = (all_stages, Ok output)))))))))).
Proof.
  split.
  { intros c embeddings data e Hfit. unfold AnomalyDetector.detect.
    cbn [AnomalyDetector.model AnomalyDetector.__init__]. now rewrite Hfit. }
  rewrite main_from_loading. split.
  { intros e Hload. now rewrite Hload. }
  intros data Hload. rewrite Hload.
  assert (Hmain1 : forall started r,
            from_embedding data = (started, r) ->
            run_stage Loading (Ok data) from_embedding = (Loading :: started, r))
    by (intros started r; apply run_stage_Ok_eq).
  split.
  { intros e Hemb. apply Hmain1. unfold from_embedding. now rewrite Hemb. }
  intros embeddings processed themes_r h1 Hemb Hfit.
  assert (Hmain2 : forall started r,
            run_stage Clustering themes_r
              (fun themes =>
                 from_temporal embeddings (seq 0 (length processed)) themes h1)
              = (started, r) ->
            run_stage Loading (Ok data) from_embedding
              = (Loading :: Embedding :: started, r)).
  { intros started r Hrest. apply Hmain1. unfold from_embedding. rewrite Hemb.
    apply run_stage_Ok_eq. unfold from_clustering. cbv zeta.
    rewrite Hfit. exact Hrest. }
  split.
  { intros e ->. apply Hmain2. reflexivity. }
  intros themes temporal_r h2 -> Htemporal.
  assert (Hmain3 : forall started r,
            run_stage Temporal temporal_r
              (from_anomalies (map (deref h2) (seq 0 (length processed)))
                 embeddings themes) = (started, r) ->
            run_stage Loading (Ok data) from_embedding
              = (Loading :: Embedding :: Clustering :: started, r)).
  { intros started r Hrest. apply Hmain2.
    apply run_stage_Ok_eq. unfold from_temporal.
    rewrite Htemporal. exact Hrest. }
  split.
  { intros e ->. apply Hmain3. reflexivity. }
  intros temporal_data -> processed_data.
  assert (Hmain4 : forall started r,
            from_anomalies processed_data embeddings themes temporal_data
              = (started, r) ->
            run_stage Loading (Ok data) from_embedding
              = (Loading :: Embedding :: Clustering :: Temporal :: started, r)).
  { intros started r Hrest. apply Hmain3.
    apply run_stage_Ok_eq. exact Hrest. }
  split.
  { intros e Hdet. apply Hmain4. unfold from_anomalies. now rewrite Hdet. }
  intros anomalies Hdet.
  assert (Hmain5 : forall started r,
            from_patterns processed_data embeddings themes temporal_data
              anomalies = (started, r) ->
            run_stage Loading (Ok data) from_embedding
              = (Loading :: Embedding :: Clustering :: Temporal :: Anomalies
                 :: started, r)).
  { intros started r Hrest. apply Hmain4. unfold from_anomalies. rewrite Hdet.
    apply run_stage_Ok_eq. exact Hrest. }
  split.
  { intros e Hpat. apply Hmain5. unfold from_patterns. now rewrite Hpat. }
  intros patterns Hpat.
  assert (Hmain6 : forall started r,
            from_insights processed_data embeddings themes temporal_data
              anomalies patterns = (started, r) ->
            run_stage Loading (Ok data) from_embedding
              = (Loading :: Embedding :: Clustering :: Temporal :: Anomalies
                 :: Patterns :: started, r)).
  { intros started r Hrest. apply Hmain5. unfold from_patterns. rewrite Hpat.
    apply run_stage_Ok_eq. exact Hrest. }
  split.
  { intros e Hins. apply Hmain6. unfold from_insights. now rewrite Hins. }
  intros insights Hins.
  assert (Hmain7 : forall started r,
            from_visualizations processed_data embeddings themes temporal_data
              anomalies patterns insights = (started, r) ->
            run_stage Loading (Ok data) from_embedding
              = (Loading :: Embedding :: Clustering :: Temporal :: Anomalies
                 :: Patterns :: Insights :: started, r)).
  { intros started r Hrest. apply Hmain6. unfold from_insights. rewrite Hins.
    apply run_stage_Ok_eq. exact Hrest. }
  split.
  { intros e Hviz. apply Hmain7. unfold from_visualizations. now rewrite Hviz. }
  intros viz_paths Hviz.
  split.
  { intros e Hout. apply Hmain7. unfold from_visualizations. rewrite Hviz.
    apply run_stage_Ok_eq. unfold from_output. now rewrite Hout. }
  intros output Hout. apply Hmain7. unfold from_visualizations. rewrite Hviz.
  apply run_stage_Ok_eq. unfold from_output. now rewrite Hout.
Qed.

End Pipeline.

Lemma main_runs_stages_in_order_witness :
  small_run =
    ([Loading; Embedding; Clustering],
     Raise (ValueError "n_samples should be >= n_clusters")) /\
  five_run = (all_stages, Ok tt).
Proof.
  split.
  - destruct (@main_runs_stages_in_order small_file length_encoder
                strict_kmeans DetectFacts.threshold_forest silent_reporting
                bare_theme) as (_ & _ & Hrun).
    returns (@DataLoader.load_data small_file "data/input_data.json")
            (@nil (gmap string pyval)) Hload.
    set (data := returned _ _) in Hload.
    destruct (Hrun data Hload) as [_ Hrun2].
    returns (@MultiModalEmbedder.generate_embeddings length_encoder data)
            (@nil (list Q), @nil (gmap string pyval)) Hemb.
    set (rows := returned _ _) in Hemb.
    rewrite (surjective_pairing rows) in Hemb.
    assert (Hfit :
              @ThemeClusterer.fit_predict bare_theme strict_kmeans
                (ThemeClusterer.__init__ 5) (fst rows)
                (seq 0 (length (snd rows))) (allocate (snd rows))
              = (Raise (ValueError "n_samples should be >= n_clusters"),
                 allocate (snd rows)))
      by (vm_cast_no_check
            (@eq_refl _ (Raise (A := list ThemeClusterer.Theme)
                           (ValueError "n_samples should be >= n_clusters"),
                         allocate (snd rows)))).
    destruct (Hrun2 _ _ _ _ Hemb Hfit) as [Hstop _].
    exact (Hstop _ eq_refl).
  - destruct (@main_runs_stages_in_order five_file length_encoder
                strict_kmeans DetectFacts.threshold_forest silent_reporting
                bare_theme) as (_ & _ & Hrun).
    returns (@DataLoader.load_data five_file "data/input_data.json")
            (@nil (gmap string pyval)) Hload.
    set (data := returned _ _) in Hload.
    destruct (Hrun data Hload) as [_ Hrun2].
    returns (@MultiModalEmbedder.generate_embeddings length_encoder data)
            (@nil (list Q), @nil (gmap string pyval)) Hemb.
    set (rows := returned _ _) in Hemb.
    rewrite (surjective_pairing rows) in Hemb.
    set (clustered :=
           @ThemeClusterer.fit_predict bare_theme strict_kmeans
             (ThemeClusterer.__init__ 5) (fst rows)
             (seq 0 (length (snd rows))) (allocate (snd rows))).
    assert (Hfit : clustered = (Ok (returned (fst clustered) []), snd clustered))
      by (vm_cast_no_check
            (@eq_refl _ (Ok (returned (fst clustered) []), snd clustered))).
    destruct (Hrun2 _ _ _ _ Hemb Hfit) as [_ Hrun3].
    set (analyzed :=
           TemporalAnalyzer.analyze (fst rows) (seq 0 (length (snd rows)))
             (returned (fst clustered) []) (snd clustered)).
    assert (Htemporal :
              analyzed = (Ok (returned (fst analyzed) ([], 0%nat)), snd analyzed))
      by (vm_cast_no_check
            (@eq_refl _ (Ok (returned (fst analyzed) ([], 0%nat)), snd analyzed))).
    destruct (Hrun3 _ _ _ eq_refl Htemporal) as [_ Hrun4].
    destruct (Hrun4 _ eq_refl) as [_ Hrun5].
    returns (@AnomalyDetector.detect DetectFacts.threshold_forest
               (AnomalyDetector.__init__ (1 # 10)) (fst rows)
               (map (deref (snd analyzed)) (seq 0 (length (snd rows)))))
            (@nil AnomalyDetector.Anomaly) Hdet.
    destruct (Hrun5 _ Hdet) as [_ Hrun6].
    returns (PatternDetector.detect_patterns
               (map (deref (snd analyzed)) (seq 0 (length (snd rows))))
               (fst rows))
            {| PatternDetector.weekly_cycle_detected := false;
               PatternDetector.report_description := "";
               PatternDetector.day_of_week_patterns := [] |} Hpat.
    destruct (Hrun6 _ Hpat) as [_ Hrun7].
    destruct (Hrun7 tt eq_refl) as [_ Hrun8].
    destruct (Hrun8 [] eq_refl) as [_ Hrun9].
    exact (Hrun9 tt eq_refl).
Defined.

End MainFacts.

(** * Further properties of the pipeline *)

(** ** TemporalAnalyzer: the weekly windows *)

Module WeekWindowFacts.
Import Py ResultFacts OrderedDictFacts GroupFacts HeapFacts FrameFacts.

(** The parsed date of a record. *)
Definition date_of (h : gmap nat (gmap string pyval)) (ref : nat) : option Z :=
  match deref h ref !! "date_obj" with
  | Some (VDate d) => Some d
  | _ => None
  end.

(** The week of a date, counted from the date [start]. *)
Definition week_number (start d : Z) : Z := (d - start) / 7 + 1.

Definition week_in (h : gmap nat (gmap string pyval)) (start : Z) (ref : nat)
    : Z :=
  match date_of h ref with
  | Some d => week_number start d
  | None => 0
  end.

Lemma read_date h ref d :
  getitem (deref h ref) "date_obj" ≫= as_date = Ok d <-> date_of h ref = Some d.
Proof.
  unfold getitem, date_of.
  destruct (deref h ref !! "date_obj") as [[]|]; cbn; split; congruence.
Qed.

Lemma date_of_frame done h h1 ref :
  only_assigns "week" done h h1 -> date_of h1 ref = date_of h ref.
Proof.
  intros Hframe. unfold date_of.
  now rewrite (only_assigns_read _ _ _ _ ref "date_obj" Hframe).
Qed.

Lemma date_of_present h ref d : date_of h ref = Some d -> is_Some (h !! ref).
Proof.
  unfold date_of, deref. destruct (h !! ref); [eauto|].
  rewrite lookup_empty. discriminate.
Qed.

(** The loop of [_group_by_week], run to its end: the dict it builds and
    the week it leaves in every record. *)
Lemma group_loop_windows start data :
  forall weekly h1 weekly' h' h done,
    only_assigns "week" done h h1 ->
    (forall ref, In ref done ->
       deref h1 ref !! "week" = Some (VInt (week_in h start ref))) ->
    TemporalAnalyzer.group_loop start data weekly h1 = (Ok weekly', h') ->
    Forall (fun ref => is_Some (date_of h ref)) data /\
    weekly' =
      group_all (map (fun ref => (week_in h start ref, ref)) data) weekly /\
    (forall ref, In ref (done ++ data) ->
       deref h' ref !! "week" = Some (VInt (week_in h start ref))).
Proof.
  induction data as [|ref data IH]; intros weekly h1 weekly' h' h done Hframe Hweek;
    simpl.
  - intros [= <- <-]. rewrite app_nil_r. auto.
  - destruct (getitem (deref h1 ref) "date_obj" ≫= as_date) as [d|e] eqn:Hd;
      [|intros [= ? ?]; discriminate].
    apply read_date in Hd. pose proof Hd as Hd1.
    rewrite (date_of_frame _ _ _ _ Hframe) in Hd.
    assert (Hwk : week_in h start ref = (d - start) / 7 + 1).
    { unfold week_in. now rewrite Hd. }
    intros Hrun.
    apply (IH _ _ _ _ h (done ++ [ref])) in Hrun as (Hdates & Hdict & Hafter).
    + split; [constructor; [rewrite Hd; eauto | exact Hdates]|].
      split.
      * rewrite Hdict. simpl. now rewrite Hwk.
      * intros ref' Hin. apply Hafter. rewrite <- app_assoc. exact Hin.
    + now apply only_assigns_snoc.
    + intros ref' Hin. destruct (Nat.eq_dec ref ref') as [<-|Hne].
      * rewrite deref_setitem_eq, Hwk; [reflexivity|].
        eapply date_of_present, Hd1.
      * rewrite deref_setitem_ne by assumption. apply Hweek.
        apply in_app_or in Hin as [Hin | [Heq | []]]; [exact Hin | congruence].
Qed.

Lemma od_append_concat {V : Type} (d : list (Z * list V)) k x :
  Permutation (concat (map snd (od_append d k x))) (concat (map snd d) ++ [x]).
Proof.
  unfold od_append. induction d as [|[k' xs] d IH]; simpl.
  - reflexivity.
  - destruct (k' =? k) eqn:Hk; simpl.
    + now rewrite <- !app_assoc, (Permutation_app_comm [x]).
    + rewrite IH. now rewrite app_assoc.
Qed.

Lemma group_all_concat {V : Type} (seen : list (Z * V)) d :
  Permutation (concat (map snd (group_all seen d)))
              (concat (map snd d) ++ map snd seen).
Proof.
  revert d. induction seen as [|[k x] seen IH]; intros d; simpl.
  - now rewrite app_nil_r.
  - rewrite IH, od_append_concat, <- app_assoc. reflexivity.
Qed.

Lemma members_tagged {V : Type} (tag : V -> Z) (xs : list V) w :
  members w (map (fun x => (tag x, x)) xs)
  = List.filter (fun x => tag x =? w) xs.
Proof.
  unfold members. induction xs as [|x xs IH]; simpl; [reflexivity|].
  destruct (tag x =? w); simpl; now rewrite IH.
Qed.

(** X1. When [_group_by_week] returns, every record carries the week
    [(date - start) // 7 + 1], where [start] is the date of the first
    record; the windows have distinct week numbers, none is empty, each
    lists the records of its week in the order of the data, and together
    they hold every record exactly once. *)
Theorem group_by_week_windows
    (data : list nat) (h h' : gmap nat (gmap string pyval))
    (weekly : list (Z * list nat)) :
  TemporalAnalyzer._group_by_week data h = (Ok weekly, h') ->
  exists first start,
    data !! 0%nat = Some first /\
    date_of h first = Some start /\
    (forall ref, In ref data ->
       exists d, date_of h ref = Some d /\
         deref h' ref !! "week" = Some (VInt ((d - start) / 7 + 1))) /\
    NoDup (map fst weekly) /\
    (forall w refs, In (w, refs) weekly ->
       refs <> [] /\
       refs = List.filter (fun ref => week_in h start ref =? w) data) /\
    (forall ref, In ref data -> In (week_in h start ref) (map fst weekly)) /\
    Permutation (concat (map snd weekly)) data.
Proof.
  unfold TemporalAnalyzer._group_by_week, list_getitem.
  destruct (data !! 0%nat) as [first|] eqn:Hfirst; [|discriminate].
  destruct (getitem (deref h first) "date_obj" ≫= as_date) as [start|] eqn:Hstart;
    [|discriminate].
  apply read_date in Hstart. intros Hrun.
  destruct (group_loop_windows start data [] h weekly h' h []
              (only_assigns_nil _ h) ltac:(intros ? []) Hrun)
    as (Hdates & Hdict & Hweeks).
  set (pairs := map (fun ref => (week_in h start ref, ref)) data) in *.
  pose proof (grouped_all pairs [] [] grouped_nil) as Hgr. simpl in Hgr.
  rewrite <- Hdict in Hgr.
  exists first, start. split; [reflexivity|]. split; [exact Hstart|].
  split; [|split; [|split; [|split]]].
  - intros ref Hin. rewrite Forall_forall in Hdates.
    destruct (Hdates ref) as [d Hd]; [now apply list_elem_of_In|].
    exists d. split; [exact Hd|].
    rewrite (Hweeks ref Hin). unfold week_in, week_number. now rewrite Hd.
  - apply (grouped_nodup _ _ Hgr).
  - intros w refs Hin.
    destruct (grouped_members _ _ _ _ Hgr Hin) as [-> Hne].
    split; [exact Hne|]. apply members_tagged.
  - intros ref Hin. apply (grouped_keys _ _ _ Hgr).
    unfold pairs. rewrite map_map. simpl.
    now apply (in_map (fun x => week_in h start x)).
  - rewrite Hdict, group_all_concat. simpl. unfold pairs.
    rewrite map_map. simpl. now rewrite map_id.
Qed.

End WeekWindowFacts.

(** ** TemporalAnalyzer: more on the weekly windows *)

Module WeekOrderFacts.
Import Py ResultFacts OrderedDictFacts GroupFacts HeapFacts FrameFacts.
Import WeekWindowFacts.

Lemma group_by_week_windows_witness :
  exists weekly h',
    TemporalAnalyzer._group_by_week [0; 1]%nat two_records = (Ok weekly, h') /\
    Permutation (concat (map snd weekly)) [0; 1]%nat.
Proof.
  evaluate (TemporalAnalyzer._group_by_week [0; 1]%nat two_records) Hrun.
  match type of Hrun with _ = (Ok ?weekly, ?h') => exists weekly, h' end.
  split; [exact Hrun|].
  destruct (group_by_week_windows _ _ _ _ Hrun)
    as (_ & _ & _ & _ & _ & _ & _ & _ & Hperm).
  exact Hperm.
Defined.

Lemma group_loop_stops start bad post pre :
  forall weekly h1 h done,
    only_assigns "week" done h h1 ->
    Forall (dated h) pre ->
    deref h bad !! "date_obj" = None ->
    exists h',
      TemporalAnalyzer.group_loop start (pre ++ bad :: post) weekly h1
        = (Raise (KeyError "date_obj"), h') /\
      only_assigns "week" (done ++ pre) h h'.
Proof.
  induction pre as [|ref pre IH]; intros weekly h1 h done Hframe Hpre Hbad; simpl.
  - unfold getitem.
    rewrite (only_assigns_read _ _ _ _ bad "date_obj" Hframe), Hbad by discriminate.
    cbn. exists h1. rewrite app_nil_r. auto.
  - apply Forall_cons in Hpre as [Href Hpre].
    assert (Href1 : dated h1 ref).
    { destruct Href as [d Hd]. exists d.
      now rewrite (only_assigns_read _ _ _ _ _ _ Hframe). }
    destruct (dated_date _ _ Href1) as [d ->].
    destruct (IH (od_set weekly ((d - start) / 7 + 1)
                    (match od_get weekly ((d - start) / 7 + 1) with
                     | Some refs => refs
                     | None => []
                     end ++ [ref]))
                 (setitem h1 ref "week" (VInt ((d - start) / 7 + 1)))
                 h (done ++ [ref]))
      as (h' & Hrun & Hframe'); auto.
    { now apply only_assigns_snoc. }
    exists h'. split; [exact Hrun|]. now rewrite <- app_assoc in Hframe'.
Qed.

(** X2. [_group_by_week] raises [IndexError] on empty data and leaves
    the records alone. When it meets a record without a parsed date it
    raises [KeyError], and the week numbers it has already assigned to
    the records before that one stay assigned: these records have a
    [week] field, all else is as it was. *)
Theorem group_by_week_stops_at_undated
    (pre post : list nat) (bad : nat) (h : gmap nat (gmap string pyval)) :
  TemporalAnalyzer._group_by_week [] h = (Raise IndexError, h) /\
  (pre <> [] -> Forall (dated h) pre ->
   deref h bad !! "date_obj" = None ->
   exists h',
     TemporalAnalyzer._group_by_week (pre ++ bad :: post) h
       = (Raise (KeyError "date_obj"), h') /\
     only_assigns "week" pre h h' /\
     (forall ref, In ref pre -> is_Some (deref h' ref !! "week")) /\
     (forall ref, ~ In ref pre -> h' !! ref = h !! ref)).
Proof.
  split; [reflexivity|].
  intros Hne Hpre Hbad. destruct pre as [|first pre]; [congruence|].
  unfold TemporalAnalyzer._group_by_week.
  change (list_getitem ((first :: pre) ++ bad :: post) 0)
    with (Ok (A := nat) first).
  destruct (dated_date _ _ (Forall_inv Hpre)) as [start ->].
  destruct (group_loop_stops start bad post (first :: pre) [] h h []
              (only_assigns_nil _ h) Hpre Hbad) as (h' & Hrun & Hframe).
  exists h'. split; [exact Hrun|]. split; [exact Hframe|]. split.
  - intros ref Hin. specialize (Hframe ref).
    rewrite Forall_forall in Hpre.
    destruct (Hpre ref) as [d Hd]; [now apply list_elem_of_In|].
    unfold deref in *. destruct (h !! ref) as [entry|].
    + destruct Hframe as (entry' & -> & _ & Hdom & _).
      apply elem_of_dom. rewrite (Hdom Hin).
      apply elem_of_union. left. now apply elem_of_singleton.
    + rewrite lookup_empty in Hd. discriminate Hd.
  - intros ref Hout. specialize (Hframe ref).
    destruct (h !! ref) as [entry|]; [|exact Hframe].
    destruct Hframe as (entry' & -> & _ & _ & Hsame). now rewrite (Hsame Hout).
Qed.

Definition dated_then_undated : gmap nat (gmap string pyval) :=
  <[0%nat := <["date_obj" := VDate 738000]> ∅]>
    (<[1%nat := <["entry_id" := VStr "e2"]> ∅]> ∅).

Lemma group_by_week_stops_at_undated_witness :
  exists h',
    TemporalAnalyzer._group_by_week [0; 1]%nat dated_then_undated
      = (Raise (KeyError "date_obj"), h') /\
    is_Some (deref h' 0%nat !! "week").
Proof.
  destruct (group_by_week_stops_at_undated [0%nat] [] 1%nat dated_then_undated)
    as [_ Hstop].
  destruct Hstop as (h' & Hrun & _ & Hweek & _).
  - discriminate.
  - repeat constructor. now exists 738000.
  - reflexivity.
  - exists h'. split; [exact Hrun|]. apply Hweek. now left.
Defined.

(** The keys of a dict built from keys that come in ascending order. *)
Lemma group_all_ascending {V : Type} (seen : list (Z * V)) :
  forall d,
    StronglySorted Z.lt (od_keys d) ->
    (forall k w, In k (od_keys d) -> In w (map fst seen) -> k <= w) ->
    StronglySorted Z.le (map fst seen) ->
    StronglySorted Z.lt (od_keys (group_all seen d)).
Proof.
  induction seen as [|[w x] seen IH]; intros d Hkeys Hbelow Hseen; simpl.
  - exact Hkeys.
  - apply StronglySorted_inv in Hseen as [Hseen Hw]. simpl in Hw.
    assert (Hkeys' : od_keys (od_append d w x) =
                     match od_get d w with
                     | Some _ => od_keys d
                     | None => od_keys d ++ [w]
                     end) by apply od_keys_set.
    apply IH; [| |exact Hseen].
    + rewrite Hkeys'. destruct (od_get d w) eqn:Hget; [exact Hkeys|].
      assert (Hnew : ~ In w (od_keys d)).
      { rewrite od_get_keys. congruence. }
      clear Hkeys'. induction (od_keys d) as [|k ks IHks]; simpl.
      * repeat constructor.
      * apply StronglySorted_inv in Hkeys as [Hks Hk].
        constructor.
        -- apply IHks; auto.
           ++ intros k' w' Hk' Hw'. apply Hbelow; simpl; auto.
           ++ intros Hin. apply Hnew. now right.
        -- apply Forall_app. split; [exact Hk|].
           constructor; [|constructor].
           assert (k <= w) by (apply Hbelow; simpl; auto).
           assert (k <> w) by (intros ->; apply Hnew; now left). lia.
    + intros k w' Hk Hw'. rewrite Hkeys' in Hk.
      assert (Hw_le : w <= w').
      { rewrite Forall_forall in Hw. apply Hw. now apply list_elem_of_In. }
      destruct (od_get d w).
      * apply Hbelow; simpl; auto.
      * apply in_app_or in Hk as [Hk | [<- | []]]; [|exact Hw_le].
        apply Hbelow; simpl; auto.
Qed.

(** The dates of the records do not decrease along the data. *)
Definition in_date_order (h : gmap nat (gmap string pyval))
    (data : list nat) : Prop :=
  StronglySorted
    (fun a b => forall da db,
       date_of h a = Some da -> date_of h b = Some db -> da <= db)
    data.

(** X3. When the records come in date order, the windows come out in
    strictly ascending week order, the first one is week 1, and no week
    number is below 1. *)
Theorem group_by_week_ascending
    (data : list nat) (h h' : gmap nat (gmap string pyval))
    (weekly : list (Z * list nat)) :
  in_date_order h data ->
  TemporalAnalyzer._group_by_week data h = (Ok weekly, h') ->
  StronglySorted Z.lt (map fst weekly) /\
  head (map fst weekly) = Some 1 /\
  Forall (fun w => 1 <= w) (map fst weekly).
Proof.
  intros Hsorted Hrun.
  unfold TemporalAnalyzer._group_by_week, list_getitem in Hrun.
  destruct (data !! 0%nat) as [first|] eqn:Hfirst0; [|discriminate Hrun].
  destruct (getitem (deref h first) "date_obj" ≫= as_date) as [start|] eqn:Hstart;
    [|discriminate Hrun].
  apply read_date in Hstart.
  destruct (group_loop_windows start data [] h weekly h' h []
              (only_assigns_nil _ h) ltac:(intros ? []) Hrun)
    as (Hdates & Hdict & _).
  clear Hrun.
  destruct data as [|first' data]; [discriminate Hfirst0|].
  injection Hfirst0 as ->.
  set (wk := fun ref => week_in h start ref) in *.
  assert (Hfirst : wk first = 1).
  { unfold wk, week_in, week_number. rewrite Hstart.
    replace (start - start) with 0 by lia. reflexivity. }
  assert (Hmono : forall a b,
            (forall da db, date_of h a = Some da -> date_of h b = Some db -> da <= db) ->
            is_Some (date_of h a) -> is_Some (date_of h b) -> wk a <= wk b).
  { intros a b Hle [da Ha] [db Hb]. unfold wk, week_in, week_number.
    rewrite Ha, Hb. specialize (Hle da db Ha Hb).
    assert ((da - start) / 7 <= (db - start) / 7)
      by (apply Z.div_le_mono; lia). lia. }
  assert (Hweeks : StronglySorted Z.le (map wk (first :: data))).
  { clear -Hsorted Hdates Hmono. unfold in_date_order in Hsorted.
    revert Hsorted Hdates. generalize (first :: data). intros l Hsorted Hdates.
    induction Hsorted as [|a l' Hl IH Ha]; simpl; [constructor|].
    apply Forall_cons in Hdates as [Hda Hdl].
    constructor; [now apply IH|].
    rewrite Forall_forall in Ha, Hdl. rewrite Forall_forall. intros w Hw.
    apply list_elem_of_In, in_map_iff in Hw as (b & <- & Hb).
    apply list_elem_of_In in Hb. apply Hmono; [now apply Ha | exact Hda | now apply Hdl]. }
  assert (Hkeys : map fst weekly = od_keys weekly) by reflexivity.
  assert (Hasc : StronglySorted Z.lt (od_keys weekly)).
  { rewrite Hdict. apply group_all_ascending.
    - constructor.
    - intros k w [].
    - now rewrite map_map. }
  pose proof (grouped_all (map (fun ref => (wk ref, ref)) (first :: data))
                [] [] grouped_nil) as Hgr.
  simpl app in Hgr. rewrite <- Hdict in Hgr.
  assert (Hin : forall w, In w (od_keys weekly) -> In w (map wk (first :: data))).
  { intros w Hw. apply (grouped_keys _ _ _ Hgr) in Hw.
    simpl in Hw. rewrite map_map in Hw. exact Hw. }
  assert (Hall : Forall (fun w => wk first <= w) (map wk (first :: data))).
  { apply StronglySorted_inv in Hweeks as [_ Htail].
    simpl. constructor; [lia | exact Htail]. }
  rewrite Hkeys. split; [exact Hasc|]. split.
  - destruct (od_keys weekly) as [|k ks] eqn:Hks.
    + exfalso. assert (Hk : In (wk first) (od_keys weekly)).
      { apply (grouped_keys _ _ _ Hgr). simpl. now left. }
      rewrite Hks in Hk. destruct Hk.
    + simpl. f_equal.
      assert (Hk1 : 1 <= k).
      { rewrite Forall_forall in Hall. rewrite <- Hfirst.
        apply Hall, list_elem_of_In, Hin. now left. }
      assert (Hk2 : In 1 (k :: ks)).
      { rewrite <- Hks, <- Hfirst. apply (grouped_keys _ _ _ Hgr). simpl. now left. }
      destruct Hk2 as [-> | Hk2]; [reflexivity|].
      apply StronglySorted_inv in Hasc as [_ Hlt].
      rewrite Forall_forall in Hlt.
      specialize (Hlt 1 ltac:(now apply list_elem_of_In)). lia.
  - rewrite Forall_forall. intros w Hw. apply list_elem_of_In, Hin in Hw.
    rewrite Forall_forall in Hall. rewrite <- Hfirst.
    now apply Hall, list_elem_of_In.
Qed.

Lemma group_by_week_ascending_witness :
  exists weekly h',
    in_date_order two_records [0; 1]%nat /\
    TemporalAnalyzer._group_by_week [0; 1]%nat two_records = (Ok weekly, h') /\
    StronglySorted Z.lt (map fst weekly) /\
    head (map fst weekly) = Some 1.
Proof.
  evaluate (TemporalAnalyzer._group_by_week [0; 1]%nat two_records) Hrun.
  match type of Hrun with _ = (Ok ?weekly, ?h') => exists weekly, h' end.
  assert (Horder : in_date_order two_records [0; 1]%nat).
  { repeat constructor; intros da db Ha Hb; vm_compute in Ha, Hb;
      injection Ha as <-; injection Hb as <-; lia. }
  split; [exact Horder|]. split; [exact Hrun|].
  destruct (group_by_week_ascending _ _ _ _ Horder Hrun) as (Hasc & Hhead & _).
  split; [exact Hasc | exact Hhead].
Defined.

End WeekOrderFacts.

(** ** TemporalAnalyzer: the weekly summaries *)

Module SummaryFacts.
Import Py ResultFacts FloatFacts GroupFacts HeapFacts FrameFacts.
Import WeekWindowFacts MoodTrendFacts TemporalAnalyzer.

Lemma group_by_week_groups data h weekly h' :
  _group_by_week data h = (Ok weekly, h') ->
  exists first start,
    data !! 0%nat = Some first /\
    date_of h first = Some start /\
    weekly = group_all (map (fun ref => (week_in h start ref, ref)) data) [].
Proof.
  unfold _group_by_week, list_getitem.
  destruct (data !! 0%nat) as [first|] eqn:Hfirst; [|discriminate].
  destruct (getitem (deref h first) "date_obj" ≫= as_date) as [start|] eqn:Hstart;
    [|discriminate].
  apply read_date in Hstart. intros Hrun.
  destruct (group_loop_windows start data [] h weekly h' h []
              (only_assigns_nil _ h) ltac:(intros ? []) Hrun)
    as (_ & Hdict & _).
  exists first, start. auto.
Qed.

Lemma mood_trend_range week_entries all_data embeddings trend :
  _calculate_mood_trend week_entries all_data embeddings = Ok trend ->
  trend = "improving" \/ trend = "declining" \/ trend = "stable".
Proof.
  unfold _calculate_mood_trend.
  destruct (length week_entries <? 2)%nat; [intros [= <-]; auto|].
  intros Hrun. apply bind_Ok in Hrun as (ss & _ & Hrun).
  destruct (2 <=? length ss)%nat; injection Hrun as <-; [|auto].
  unfold trend_of_diff. destruct (Qltb _ _); [auto|].
  destruct (Qltb _ _); auto.
Qed.

Lemma analyze_week_fields week_num week_entries themes embeddings all_data s :
  _analyze_week week_num week_entries themes embeddings all_data = Ok s ->
  exists theme trend dates,
    In theme themes /\
    _calculate_mood_trend week_entries all_data embeddings = Ok trend /\
    Forall2 (fun entry v => entry !! "date" = Some v) week_entries dates /\
    s = {| week := week_num;
           start_date := head dates;
           end_date := last dates;
           dominant_theme := ThemeClusterer.theme_label theme;
           mood_trend := trend;
           entry_count := length week_entries;
           micro_insight := _generate_micro_insight week_entries theme trend |}.
Proof.
  unfold _analyze_week. intros Hrun.
  apply bind_Ok in Hrun as (theme & Htheme & Hrun).
  apply bind_Ok in Hrun as (trend & Htrend & Hrun).
  apply bind_Ok in Hrun as (dates & Hdates & Hrun).
  injection Hrun as <-. exists theme, trend, dates.
  split; [|split; [exact Htrend|split; [|reflexivity]]].
  - assert (Hfirst : forall t, list_getitem themes 0 = Ok t -> In t themes).
    { intros t. unfold list_getitem. destruct themes as [|t0 ts]; [discriminate|].
      intros [= <-]. now left. }
    destruct week_entries as [|entry rest]; [now apply Hfirst|].
    apply bind_Ok in Htheme as (d & _ & Htheme).
    apply bind_Ok in Htheme as (fallback & Hfb & Htheme).
    injection Htheme as <-.
    destruct (find _ themes) as [t|] eqn:Hfind; [|now apply Hfirst].
    now apply find_some in Hfind.
  - apply mapM_Ok_Forall2 in Hdates.
    eapply Forall2_impl; [exact Hdates|].
    intros entry v. unfold getitem.
    destruct (entry !! "date"); [now intros [= ->] | discriminate].
Qed.

(** X4. When [analyze] returns, there is one summary per window, in the
    order of the windows, [total_weeks] is their number, which is the
    number of distinct weeks of the data; every summary counts at least
    one record, and the counts add up to the number of records. *)
Theorem analyze_summaries
    (embeddings : list (list Q)) (data : list nat)
    (themes : list ThemeClusterer.Theme)
    (h h' : gmap nat (gmap string pyval))
    (summaries : list WeeklySummary) (total_weeks : nat) :
  analyze embeddings data themes h = (Ok (summaries, total_weeks), h') ->
  exists weekly start,
    _group_by_week data h = (Ok weekly, h') /\
    total_weeks = length summaries /\
    map week summaries = map fst weekly /\
    NoDup (map week summaries) /\
    length summaries =
      length (nodup Z.eq_dec (map (week_in h start) data)) /\
    Forall (fun s => (1 <= entry_count s)%nat) summaries /\
    list_sum (map entry_count summaries) = length data.
Proof.
  unfold analyze.
  destruct (_group_by_week data h) as [[weekly|e] h1] eqn:Hgroup;
    [|intros [= ? ?]; discriminate].
  intros Hrun. injection Hrun as Hrun <-.
  apply bind_Ok in Hrun as (sums & Hsums & Hrun). injection Hrun as <- <-.
  apply mapM_Ok_Forall2 in Hsums.
  destruct (group_by_week_groups _ _ _ _ Hgroup) as (first & start & _ & _ & Hdict).
  set (pairs := map (fun ref => (week_in h start ref, ref)) data) in *.
  pose proof (grouped_all pairs [] [] grouped_nil) as Hgr. simpl in Hgr.
  rewrite <- Hdict in Hgr.
  assert (Hweek : map week sums = map fst weekly).
  { clear -Hsums. induction Hsums as [|[w refs] s weekly sums Hs _ IH]; simpl;
      [reflexivity|].
    apply analyze_week_fields in Hs as (? & ? & ? & _ & _ & _ & ->).
    simpl. now rewrite IH. }
  assert (Hcount : map entry_count sums = map (fun g => length (snd g)) weekly).
  { clear -Hsums. induction Hsums as [|[w refs] s weekly sums Hs _ IH]; simpl;
      [reflexivity|].
    apply analyze_week_fields in Hs as (? & ? & ? & _ & _ & _ & ->).
    simpl. now rewrite IH, length_map. }
  exists weekly, start. split; [reflexivity|]. split; [reflexivity|].
  split; [exact Hweek|]. split; [|split; [|split]].
  - rewrite Hweek. apply (grouped_nodup _ _ Hgr).
  - rewrite <- (length_map week), Hweek, length_map.
    rewrite (grouped_length _ _ Hgr). unfold pairs. now rewrite map_map.
  - apply Forall_forall. intros s Hs.
    apply list_elem_of_In, (in_map entry_count) in Hs.
    rewrite Hcount in Hs. apply in_map_iff in Hs as ([w refs] & <- & Hin).
    destruct (grouped_members _ _ _ _ Hgr Hin) as [_ Hne]. simpl.
    destruct refs; [congruence | simpl; lia].
  - rewrite Hcount.
    assert (Hperm : Permutation (concat (map snd weekly)) data).
    { rewrite Hdict, group_all_concat. simpl. unfold pairs.
      rewrite map_map. simpl. now rewrite map_id. }
    rewrite <- (Permutation_length Hperm), List.length_concat, map_map.
    reflexivity.
Qed.

Definition two_dated_records : gmap nat (gmap string pyval) :=
  <[0%nat := <["date" := VStr "2024-03-04"]> (<["date_obj" := VDate 738949]> ∅)]>
    (<[1%nat := <["date" := VStr "2024-03-13"]> (<["date_obj" := VDate 738958]> ∅)]> ∅).

Definition work_theme : list ThemeClusterer.Theme :=
  [{| ThemeClusterer.theme_label := "Work Performance";
      ThemeClusterer.cluster_id := 0;
      ThemeClusterer.representative_entries := [];
      ThemeClusterer.keywords := [];
      ThemeClusterer.cluster_confidence := 1;
      ThemeClusterer.entry_count := 2 |}].

Lemma analyze_summaries_witness :
  exists summaries total_weeks h',
    analyze [] [0; 1]%nat work_theme two_dated_records
      = (Ok (summaries, total_weeks), h') /\
    total_weeks = length summaries /\
    list_sum (map entry_count summaries) = 2%nat.
Proof.
  evaluate (analyze [] [0; 1]%nat work_theme two_dated_records) Hrun.
  match type of Hrun with
  | _ = (Ok (?summaries, ?total_weeks), ?h') =>
      exists summaries, total_weeks, h'
  end.
  split; [exact Hrun|].
  destruct (analyze_summaries _ _ _ _ _ _ _ Hrun)
    as (weekly & start & _ & Htotal & _ & _ & _ & _ & Hsum).
  split; [exact Htotal | exact Hsum].
Defined.

(** X5. A summary carries the week number it was asked for, the number
    of records of the window, and the dates of its first and of its last
    record; every record of the window has a date. The summary of an
    empty window has no dates, is [stable] and is labelled by the first
    theme. *)
Theorem analyze_week_summary
    (week_num : Z) (week_entries : list (gmap string pyval))
    (themes : list ThemeClusterer.Theme) (embeddings : list (list Q))
    (all_data : list (gmap string pyval)) (s : WeeklySummary) :
  _analyze_week week_num week_entries themes embeddings all_data = Ok s ->
  week s = week_num /\
  entry_count s = length week_entries /\
  Forall (fun entry => is_Some (entry !! "date")) week_entries /\
  start_date s = head week_entries ≫= (fun entry => entry !! "date") /\
  end_date s = last week_entries ≫= (fun entry => entry !! "date") /\
  (week_entries = [] ->
   mood_trend s = "stable" /\
   Some (dominant_theme s) = ThemeClusterer.theme_label <$> head themes).
Proof.
  intros Hrun.
  assert (Hempty : week_entries = [] ->
            mood_trend s = "stable" /\
            Some (dominant_theme s) = ThemeClusterer.theme_label <$> head themes).
  { intros ->. unfold _analyze_week, list_getitem in Hrun.
    destruct themes as [|t0 ts]; [discriminate Hrun|].
    cbn in Hrun. injection Hrun as <-. split; reflexivity. }
  apply analyze_week_fields in Hrun as (theme & trend & dates & _ & Htrend & Hdates & ->).
  simpl. split; [reflexivity|]. split; [reflexivity|].
  split; [|split; [|split; [|exact Hempty]]].
  - clear -Hdates. induction Hdates; constructor; eauto.
  - destruct Hdates as [|e v es vs He _]; [reflexivity | simpl; now rewrite He].
  - clear -Hdates. induction Hdates as [|e v es vs He Hrest IH]; [reflexivity|].
    destruct Hrest as [|e' v' es' vs' He' Hrest].
    + simpl. now rewrite He.
    + change (last (v :: v' :: vs')) with (last (v' :: vs')).
      change (last (e :: e' :: es')) with (last (e' :: es')). exact IH.
Qed.

Definition dated_entry (d text : string) : gmap string pyval :=
  <["date" := VStr d]> (<["combined_text" := VStr text]> ∅).

Lemma analyze_week_summary_witness :
  exists s,
    _analyze_week 1 [dated_entry "2024-03-04" "Diary: stress";
                     dated_entry "2024-03-05" "Diary: happy"]
      work_theme [] [] = Ok s /\
    start_date s = Some (VStr "2024-03-04") /\
    end_date s = Some (VStr "2024-03-05").
Proof.
  destruct (_analyze_week 1 [dated_entry "2024-03-04" "Diary: stress";
                             dated_entry "2024-03-05" "Diary: happy"]
              work_theme [] []) as [s|] eqn:Hrun;
    [|vm_compute in Hrun; discriminate Hrun].
  exists s. split; [reflexivity|].
  destruct (analyze_week_summary _ _ _ _ _ _ Hrun) as (_ & _ & _ & Hs & He & _).
  split; [exact Hs | exact He].
Defined.

(** X6. With an empty list of themes [_analyze_week] raises, whatever
    the window, and so does [analyze] on any data. *)
Theorem analyze_needs_a_theme
    (embeddings : list (list Q)) (h : gmap nat (gmap string pyval)) :
  (forall week_num week_entries all_data,
     is_ok (_analyze_week week_num week_entries [] embeddings all_data)
       = false) /\
  (forall data, is_ok (fst (analyze embeddings data [] h)) = false).
Proof.
  assert (Hweek : forall week_num week_entries all_data,
            is_ok (_analyze_week week_num week_entries [] embeddings all_data)
              = false).
  { intros week_num week_entries all_data.
    destruct (_analyze_week _ _ _ _ _) as [s|] eqn:Hrun; [|reflexivity].
    apply analyze_week_fields in Hrun as (theme & _ & _ & [] & _). }
  split; [exact Hweek|].
  intros data. unfold analyze.
  destruct (_group_by_week data h) as [[weekly|e] h1] eqn:Hgroup; [|reflexivity].
  simpl.
  destruct (mapM _ weekly) as [sums|] eqn:Hsums; [|reflexivity].
  exfalso. apply mapM_Ok_Forall2 in Hsums.
  destruct Hsums as [|[w refs] s weekly sums Hs _].
  - destruct (group_by_week_groups _ _ _ _ Hgroup) as (first & start & Hfirst & _ & Hdict).
    pose proof (grouped_all (map (fun ref => (week_in h start ref, ref)) data)
                  [] [] grouped_nil) as Hgr.
    simpl in Hgr. rewrite <- Hdict in Hgr.
    apply (grouped_keys _ _ (week_in h start first) Hgr).
    rewrite map_map. simpl.
    apply (in_map (week_in h start)), list_elem_of_In.
    eapply list_elem_of_lookup_2, Hfirst.
  - specialize (Hweek w (map (deref h1) refs) (map (deref h1) data)).
    now rewrite Hs in Hweek.
Qed.

(** X7. The trend of a summary is one of [improving], [declining] and
    [stable], and its micro-insight is the sentence of that trend about
    the dominant theme: the sentence for an unknown trend is never
    produced. *)
Theorem analyze_week_insight
    (week_num : Z) (week_entries : list (gmap string pyval))
    (themes : list ThemeClusterer.Theme) (embeddings : list (list Q))
    (all_data : list (gmap string pyval)) (s : WeeklySummary) :
  _analyze_week week_num week_entries themes embeddings all_data = Ok s ->
  (mood_trend s = "improving" /\
   micro_insight s = dominant_theme s +:+
     " shows positive progression. Consider maintaining current strategies.") \/
  (mood_trend s = "declining" /\
   micro_insight s = dominant_theme s +:+
     " indicates increasing challenges. Consider seeking support or adjusting approach.") \/
  (mood_trend s = "stable" /\
   micro_insight s = dominant_theme s +:+
     " remains consistent. Current balance appears sustainable.").
Proof.
  intros Hrun.
  apply analyze_week_fields in Hrun as (theme & trend & dates & _ & Htrend & _ & ->).
  simpl. apply mood_trend_range in Htrend as [-> | [-> | ->]];
    [left | right; left | right; right]; split; reflexivity.
Qed.

Lemma analyze_week_insight_witness :
  exists s,
    _analyze_week 1 [dated_entry "2024-03-04" "Diary: stress";
                     dated_entry "2024-03-05" "Diary: happy"]
      work_theme [] [] = Ok s /\
    micro_insight s =
      "Work Performance shows positive progression. Consider maintaining current strategies.".
Proof.
  destruct (_analyze_week 1 [dated_entry "2024-03-04" "Diary: stress";
                             dated_entry "2024-03-05" "Diary: happy"]
              work_theme [] []) as [s|] eqn:Hrun;
    [|vm_compute in Hrun; discriminate Hrun].
  exists s. split; [reflexivity|].
  destruct (analyze_week_insight _ _ _ _ _ _ Hrun)
    as [[_ Hi] | [[Ht _] | [Ht _]]].
  - rewrite Hi. vm_compute in Hrun. now injection Hrun as <-.
  - vm_compute in Hrun. injection Hrun as <-. discriminate Ht.
  - vm_compute in Hrun. injection Hrun as <-. discriminate Ht.
Defined.

Lemma mean_of_equal (xs : list Z) (s : Z) :
  xs <> [] -> Forall (fun x => x = s) xs ->
  np_mean_int xs = round64 (inject_Z s).
Proof.
  intros Hne Hall. unfold np_mean_int, fdiv. apply round64_proper.
  assert (Hsum : fold_right Z.add 0 xs = s * Z.of_nat (length xs)).
  { clear Hne. induction Hall as [|x xs -> _ IH]; simpl length; [simpl; lia|].
    simpl fold_right. rewrite IH. lia. }
  rewrite Hsum, inject_Z_mult.
  assert (Hn : ~ (inject_Z (Z.of_nat (length xs)) == 0)%Q).
  { change 0%Q with (inject_Z 0). rewrite inject_Z_injective.
    destruct xs; [congruence | simpl; lia]. }
  field. exact Hn.
Qed.

(** X8. A window whose records all have the same sentiment is [stable],
    however many records it has; so is a window of records without
    text. *)
Theorem same_sentiment_is_stable
    (week_entries all_data : list (gmap string pyval))
    (embeddings : list (list Q)) (s : Z) :
  Forall (fun entry => sentiment_of entry = Ok s) week_entries ->
  _calculate_mood_trend week_entries all_data embeddings = Ok "stable".
Proof.
  intros Hall. unfold _calculate_mood_trend.
  destruct (length week_entries <? 2)%nat eqn:Hshort; [reflexivity|].
  apply Nat.ltb_ge in Hshort.
  assert (Hss : mapM sentiment_of week_entries = Ok (map (fun _ => s) week_entries)).
  { apply mapM_Ok_Forall2. clear Hshort.
    induction Hall; simpl; constructor; auto. }
  rewrite (bind_Ok_eq _ _ _ Hss). rewrite length_map.
  destruct (2 <=? length week_entries)%nat; [|reflexivity].
  f_equal. set (ss := map (fun _ => s) week_entries).
  assert (Hconst : Forall (fun x => x = s) ss).
  { apply Forall_forall. intros x Hx.
    apply list_elem_of_In, in_map_iff in Hx as (? & <- & _). reflexivity. }
  assert (Hlen : length ss = length week_entries) by apply length_map.
  pose proof (Nat.div_mod_eq (length week_entries) 2) as Hdiv.
  pose proof (Nat.mod_upper_bound (length week_entries) 2 ltac:(lia)) as Hmod.
  set (half := (length week_entries / 2)%nat) in *.
  assert (H1 : np_mean_int (take half ss) = round64 (inject_Z s)).
  { apply mean_of_equal.
    - intros Hnil. apply (f_equal length) in Hnil.
      rewrite length_take in Hnil. simpl in Hnil. lia.
    - now apply Forall_take. }
  assert (H2 : np_mean_int (drop half ss) = round64 (inject_Z s)).
  { apply mean_of_equal.
    - intros Hnil. apply (f_equal length) in Hnil.
      rewrite length_drop in Hnil. simpl in Hnil. lia.
    - now apply Forall_drop. }
  rewrite H1, H2, fsub_same. reflexivity.
Qed.

Lemma same_sentiment_is_stable_witness :
  _calculate_mood_trend [with_text ""; with_text ""; with_text ""] [] []
    = Ok "stable".
Proof.
  apply (same_sentiment_is_stable _ [] [] 0).
  repeat constructor.
Defined.

End SummaryFacts.

(** ** Rounding *)

Module RoundFacts.
Import Py FloatFacts.

(** [round(x, 4)] and [round(x, 2)], as the scores and the averages are
    rounded. *)
Lemma round_4 (q : Q) :
  exists j,
    nearest_decimal q 4 j /\ round q 4 = round64 (j # 10000).
Proof. apply (round_decimal q 4). Qed.

Lemma round_2 (q : Q) :
  exists j,
    nearest_decimal q 2 j /\ round q 2 = round64 (j # 100).
Proof. apply (round_decimal q 2). Qed.

End RoundFacts.

(** ** AnomalyDetector: more on what [detect] returns *)

Module DetectOrderFacts.
Import Py ResultFacts SortFacts AnomalyDetector DetectFacts.

(** Sorting a list that is in ascending order of position by a key puts
    it in ascending order of key, elements of equal key in ascending
    order of position. *)
Section Stable.

Context {A : Type} (key : A -> Q) (pos : A -> nat).

Definition key_then_pos (a b : A) : Prop :=
  (key a < key b)%Q \/ ((key a == key b)%Q /\ (pos a < pos b)%nat).

Definition pos_lt (a b : A) : Prop := (pos a < pos b)%nat.

Lemma sort_insert_stable (x : A) (l : list A) :
  Forall (pos_lt x) l ->
  StronglySorted key_then_pos l ->
  StronglySorted key_then_pos (sort_insert key x l).
Proof.
  intros Hx Hl. induction Hl as [|y l Hl IH Hy]; simpl.
  - repeat constructor.
  - apply Forall_cons in Hx as [Hxy Hxl].
    destruct (Qle_bool (key x) (key y)) eqn:Hle.
    + apply Qle_bool_iff in Hle.
      assert (Hfirst : key_then_pos x y).
      { destruct (Qle_lt_or_eq _ _ Hle) as [Hlt | Heq]; [now left | now right]. }
      constructor; [now constructor|].
      constructor; [exact Hfirst|].
      rewrite Forall_forall in Hy, Hxl. apply Forall_forall. intros z Hz.
      destruct (Hy z Hz) as [Hlt | [Heq Hpos]].
      * left. now apply Qle_lt_trans with (key y).
      * destruct (Qle_lt_or_eq _ _ Hle) as [Hlt | Heq'].
        -- left. now rewrite <- Heq.
        -- right. split; [now rewrite Heq' | now apply Hxl].
    + assert (Hlt : (key y < key x)%Q).
      { apply Qnot_le_lt. intros H. apply Qle_bool_iff in H. congruence. }
      constructor; [now apply IH|].
      rewrite sort_insert_perm. constructor; [now left | exact Hy].
Qed.

Lemma sort_by_stable (l : list A) :
  StronglySorted pos_lt l -> StronglySorted key_then_pos (sort_by key l).
Proof.
  induction 1 as [|x l Hl IH Hx]; simpl; [constructor|].
  apply sort_insert_stable; [|exact IH].
  now rewrite sort_by_perm.
Qed.

End Stable.

Lemma flagged_rows_ascending rows i :
  StronglySorted (pos_lt fst) (flagged_rows rows i) /\
  Forall (fun p => (i <= fst p)%nat) (flagged_rows rows i).
Proof.
  revert i. induction rows as [|[pred score] rows IH]; intros i; simpl.
  - split; constructor.
  - destruct (IH (S i)) as [Hs Hall].
    assert (Hall' : Forall (fun p : nat * Q => (i <= fst p)%nat)
                      (flagged_rows rows (S i))).
    { eapply Forall_impl; [exact Hall|]. simpl. intros; lia. }
    destruct (pred =? -1); [|auto].
    split; [|constructor; [simpl; lia | exact Hall']].
    constructor; [exact Hs|].
    eapply Forall_impl; [exact Hall|]. unfold pos_lt. simpl. intros; lia.
Qed.

Lemma flagged_rows_count rows i :
  length (flagged_rows rows i)
  = length (List.filter (fun row => fst row =? -1) rows).
Proof.
  revert i. induction rows as [|[pred score] rows IH]; intros i; simpl;
    [reflexivity|].
  destruct (pred =? -1); simpl; now rewrite IH.
Qed.

(** X11. [detect] returns one anomaly per row that the forest labels -1.
    They are in ascending order of rounded score, and anomalies of equal
    rounded score are in the order of their records in the data. *)
Theorem detect_order_is_determined `{IsolationForestImpl}
    (self : AnomalyDetector) (embeddings : list (list Q))
    (data : list (gmap string pyval)) (anomalies : list Anomaly) :
  detect self embeddings data = Ok anomalies ->
  exists predictions scores flagged,
    fit_predict (model self) embeddings = Ok predictions /\
    score_samples (model self) embeddings embeddings = Ok scores /\
    Forall2 (created data embeddings) flagged anomalies /\
    length anomalies =
      length (List.filter (fun row => fst row =? -1)
                          (combine predictions scores)) /\
    StronglySorted
      (fun p q =>
         (round (snd p) 4 < round (snd q) 4)%Q \/
         ((round (snd p) 4 == round (snd q) 4)%Q /\ (fst p < fst q)%nat))
      flagged.
Proof.
  intros Hrun.
  destruct (detect_ranked _ _ _ _ Hrun) as (p & s & Hp & Hs & Hc).
  exists p, s, (ranked p s).
  split; [exact Hp|]. split; [exact Hs|]. split; [exact Hc|]. split.
  - rewrite <- (Forall2_length _ _ _ Hc). unfold ranked.
    rewrite (Permutation_length (sort_by_perm _ _)).
    apply flagged_rows_count.
  - apply (sort_by_stable (fun p : nat * Q => round (snd p) 4) fst).
    apply flagged_rows_ascending.
Qed.

Definition tied_embeddings : list (list Q) :=
  [[3 # 1]; [1 # 2]; [3 # 1]; [5 # 1]]%Q.

Lemma detect_order_is_determined_witness :
  exists anomalies,
    @detect threshold_forest (__init__ default_contamination)
      tied_embeddings sample_data = Ok anomalies /\
    map entry_id anomalies = [VStr "e4"; VStr "e1"; VStr "e3"] /\
    length anomalies = 3%nat.
Proof.
  destruct (@detect threshold_forest (__init__ default_contamination)
              tied_embeddings sample_data) as [anomalies|] eqn:Hrun;
    [|vm_compute in Hrun; discriminate Hrun].
  exists anomalies. split; [reflexivity|].
  destruct (@detect_order_is_determined threshold_forest _ _ _ _ Hrun)
    as (p & s & flagged & Hp & Hs & _ & Hlen & _).
  injection Hp as <-. injection Hs as <-.
  split; [|exact Hlen].
  vm_compute in Hrun. now injection Hrun as <-.
Defined.

Lemma create_anomaly_entry_parts entry score embeddings index a :
  _create_anomaly_entry entry score embeddings index = Ok a ->
  exists raw id,
    get entry "combined_text" (VStr "") = VStr raw /\
    entry !! "entry_id" = Some id /\
    entry !! "date" = Some (VStr (date a)) /\
    a = {| entry_id := id;
           date := date a;
           anomaly_type := classify (lower raw);
           anomaly_score := round score 4;
           description := description a |} /\
    _generate_anomaly_description entry (classify (lower raw))
      = Ok (description a).
Proof.
  unfold _create_anomaly_entry. intros Hrun.
  apply bind_Ok in Hrun as (raw & Hraw & Hrun).
  apply bind_Ok in Hrun as (id & Hid & Hrun).
  apply bind_Ok in Hrun as (d & Hd & Hrun).
  apply bind_Ok in Hrun as (descr & Hdescr & Hrun).
  injection Hrun as <-. simpl. exists raw, id.
  split.
  { destruct (get entry "combined_text" (VStr "")); try discriminate Hraw.
    now injection Hraw as ->. }
  split.
  { unfold getitem in Hid. destruct (entry !! "entry_id"); [|discriminate].
    now injection Hid as ->. }
  split; [|split; [reflexivity | exact Hdescr]].
  unfold date_text, getitem in Hd.
  destruct (entry !! "date") as [[]|]; cbn in Hd; try discriminate Hd.
  now injection Hd as ->.
Qed.

Lemma created_well_formed data embeddings p a :
  created data embeddings p a ->
  exists entry, data !! fst p = Some entry /\ well_formed entry.
Proof.
  intros (entry & Hentry & Hrun). exists entry. split; [exact Hentry|].
  apply create_anomaly_entry_parts in Hrun
    as (raw & id & Hraw & Hid & Hdate & _).
  repeat split; eauto.
Qed.

Lemma detect_loop_reads_flagged data embeddings rows i :
  (forall j sc, In (j, sc) (flagged_rows rows i) ->
     exists entry, data !! j = Some entry /\ well_formed entry) ->
  exists out, detect_loop data embeddings i rows = Ok out.
Proof.
  revert i. induction rows as [|[pred score] rows IH]; intros i Hwf; simpl in *.
  - eauto.
  - destruct (pred =? -1).
    + destruct (Hwf i score) as (entry & Hi & Hentry); [now left|].
      destruct (IH (S i)) as [rest Hrest].
      { intros j sc Hin. apply (Hwf j sc). now right. }
      unfold list_getitem. rewrite Hi. cbn.
      destruct (create_anomaly_entry_total entry score embeddings i Hentry)
        as [a Ha].
      rewrite Ha, Hrest. cbn. eauto.
    + apply IH. exact Hwf.
Qed.

(** The dates of the records are strings, as [load_data] leaves them:
    it parses every date with [strptime]. *)
Definition dates_are_str (data : list (gmap string pyval)) : Prop :=
  Forall (fun entry =>
            forall v, entry !! "date" = Some v -> exists d, v = VStr d) data.

(** A record with an id, a date and a text. *)
Definition has_fields (entry : gmap string pyval) : Prop :=
  is_Some (entry !! "entry_id") /\
  is_Some (entry !! "date") /\
  (exists raw, get entry "combined_text" (VStr "") = VStr raw).

Lemma has_fields_well_formed data i entry :
  dates_are_str data -> data !! i = Some entry ->
  has_fields entry <-> well_formed entry.
Proof.
  intros Hstr Hi. unfold has_fields, well_formed, dates_are_str in *.
  rewrite Forall_lookup in Hstr. specialize (Hstr i entry Hi).
  split; intros (Hid & Hdate & Htext); repeat split; try assumption.
  - destruct Hdate as [v Hv]. destruct (Hstr v Hv) as [d ->]. eauto.
  - destruct Hdate as [d Hd]. eauto.
Qed.

(** X10. On data whose dates are strings, and given the labels and the
    scores of the forest, [detect] returns a list exactly when every row
    labelled -1 has a record with an id, a date and a text: the records
    of the other rows are never read, and may be malformed or missing. *)
Theorem detect_reads_flagged_only `{IsolationForestImpl}
    (self : AnomalyDetector) (embeddings : list (list Q))
    (data : list (gmap string pyval))
    (predictions : list Z) (scores : list Q) :
  dates_are_str data ->
  fit_predict (model self) embeddings = Ok predictions ->
  score_samples (model self) embeddings embeddings = Ok scores ->
  ((exists anomalies, detect self embeddings data = Ok anomalies) <->
   (forall i, predictions !! i = Some (-1) -> (i < length scores)%nat ->
      exists entry, data !! i = Some entry /\ has_fields entry)).
Proof.
  intros Hstr Hp Hs. split.
  - intros [anomalies Hrun] i Hi Hlen.
    destruct (detect_ranked _ _ _ _ Hrun) as (p & s & Hp' & Hs' & Hc).
    rewrite Hp in Hp'. injection Hp' as <-.
    rewrite Hs in Hs'. injection Hs' as <-.
    assert (Hin : In i (map fst (ranked predictions scores)))
      by now apply ranked_spec.
    apply in_map_iff in Hin as (q & <- & Hq).
    apply list_elem_of_In, list_elem_of_lookup in Hq as [k Hk].
    destruct (Forall2_lookup_l _ _ _ _ _ Hc Hk) as (a & _ & Ha).
    destruct (created_well_formed _ _ _ _ Ha) as (entry & Hentry & Hwf).
    exists entry. split; [exact Hentry|].
    now apply (has_fields_well_formed data (fst q)).
  - intros Hwf. unfold detect. rewrite Hp, Hs. cbn.
    destruct (detect_loop_reads_flagged data embeddings
                (combine predictions scores) 0) as [out Hout].
    + intros j sc Hin. apply flagged_rows_spec in Hin as (k & -> & Hk).
      apply combine_lookup in Hk as [Hk1 Hk2]. simpl.
      destruct (Hwf k Hk1) as (entry & Hentry & Hfields);
        [now apply lookup_lt_Some in Hk2|].
      exists entry. split; [exact Hentry|].
      now apply (has_fields_well_formed data k).
    + rewrite Hout. cbn. eauto.
Qed.

End DetectOrderFacts.

(** ** AnomalyDetector: the fields of an anomaly *)

Module AnomalyFieldFacts.
Import Py ResultFacts RoundFacts AnomalyDetector DetectFacts DetectOrderFacts.

Definition malformed_inliers : list (gmap string pyval) :=
  [∅; sample_entry "e2" "Diary: tired and drained"; ∅].

Lemma detect_reads_flagged_only_witness :
  exists anomalies,
    @detect threshold_forest (__init__ default_contamination)
      [[1 # 2]; [3 # 1]; [1 # 4]]%Q malformed_inliers = Ok anomalies.
Proof.
  assert (Hstr : dates_are_str malformed_inliers).
  { unfold dates_are_str, malformed_inliers.
    repeat (apply Forall_cons; split); try apply Forall_nil_2;
      intros v Hv; vm_compute in Hv; try discriminate Hv.
    injection Hv as <-. eauto. }
  apply (proj2 (@detect_reads_flagged_only threshold_forest
                  (__init__ default_contamination)
                  [[1 # 2]; [3 # 1]; [1 # 4]]%Q malformed_inliers
                  _ _ Hstr eq_refl eq_refl)).
  intros [|[|[|i]]] Hi Hlen; try (vm_compute in Hi; discriminate Hi).
  exists (sample_entry "e2" "Diary: tired and drained").
  split; [reflexivity|]. repeat split; simpl; eauto.
Defined.

(** X12. The description of an anomaly is the sentence of its type
    followed by the date of the record, which is a field of the record;
    the sentence for an unknown type is never produced. *)
Theorem anomaly_description_matches_type
    (entry : gmap string pyval) (score : Q)
    (embeddings : list (list Q)) (index : nat) (a : Anomaly) :
  _create_anomaly_entry entry score embeddings index = Ok a ->
  entry !! "date" = Some (VStr (date a)) /\
  ((anomaly_type a = "stress_surge" /\
    description a = "Elevated stress levels detected on " +:+ date a) \/
   (anomaly_type a = "fatigue_spike" /\
    description a = "Significant fatigue indicators on " +:+ date a) \/
   (anomaly_type a = "confidence_dip" /\
    description a = "Confidence or self-doubt concerns on " +:+ date a) \/
   (anomaly_type a = "emotional_spike" /\
    description a = "Unusual emotional pattern detected on " +:+ date a)).
Proof.
  intros Hrun.
  apply create_anomaly_entry_parts in Hrun
    as (raw & id & _ & _ & Hdate & Ha & Hdescr).
  split; [exact Hdate|].
  unfold _generate_anomaly_description, date_text, getitem in Hdescr.
  rewrite Hdate in Hdescr. cbn in Hdescr.
  rewrite Ha. cbn [anomaly_type description date].
  unfold classify in *.
  destruct (any_in stress_words (lower raw));
    [|destruct (any_in fatigue_words (lower raw));
      [|destruct (any_in doubt_words (lower raw))]];
    cbn in Hdescr; injection Hdescr as Hdescr; rewrite <- Hdescr; auto 10.
Qed.

Lemma anomaly_description_matches_type_witness :
  exists a,
    _create_anomaly_entry (sample_entry "e2" "Diary: tired and drained")
      (- (3 # 5)) [] 0 = Ok a /\
    description a = "Significant fatigue indicators on 2024-03-04".
Proof.
  destruct (_create_anomaly_entry (sample_entry "e2" "Diary: tired and drained")
              (- (3 # 5)) [] 0) as [a|] eqn:Hrun;
    [|vm_compute in Hrun; discriminate Hrun].
  exists a. split; [reflexivity|].
  destruct (anomaly_description_matches_type _ _ _ _ _ Hrun) as [_ Hcases].
  vm_compute in Hrun. injection Hrun as <-.
  destruct Hcases as [[Ht _] | [[_ Hd] | [[Ht _] | [Ht _]]]];
    try discriminate Ht. exact Hd.
Defined.

(** X13. The score stored in an anomaly is the score of the forest
    rounded to four decimals: with [j] the integer nearest to 10000
    times the score, the even one when two are as near, it is the
    double nearest to [j / 10000]. *)
Theorem anomaly_score_is_rounded
    (entry : gmap string pyval) (score : Q)
    (embeddings : list (list Q)) (index : nat) (a : Anomaly) :
  _create_anomaly_entry entry score embeddings index = Ok a ->
  exists j : Z,
    (score * 10000 - (1 # 2) <= inject_Z j)%Q /\
    (inject_Z j <= score * 10000 + (1 # 2))%Q /\
    ((score * 10000 - inject_Z j == 1 # 2)%Q \/
     (inject_Z j - score * 10000 == 1 # 2)%Q -> Z.even j = true) /\
    anomaly_score a = round64 (j # 10000).
Proof.
  intros Hrun.
  apply create_anomaly_entry_parts in Hrun as (raw & id & _ & _ & _ & -> & _).
  cbn [anomaly_score].
  destruct (round_4 score) as (j & Hnear & Hround).
  exists j. rewrite Hround. destruct Hnear as (Hlo & Hhi & Htie).
  split; [exact Hlo|]. split; [exact Hhi|]. split; [exact Htie | reflexivity].
Qed.

(** A score half-way between two decimals: -0.03125 is stored as the
    double of -0.0312. *)
Lemma anomaly_score_is_rounded_witness :
  exists a,
    _create_anomaly_entry (sample_entry "e2" "Diary: tired and drained")
      (- (1 # 32)) [] 0 = Ok a /\
    anomaly_score a = round64 (- (312 # 10000)).
Proof.
  evaluate (_create_anomaly_entry (sample_entry "e2" "Diary: tired and drained")
              (- (1 # 32)) [] 0) Hrun.
  match type of Hrun with _ = Ok ?a => exists a end.
  split; [exact Hrun|].
  destruct (anomaly_score_is_rounded _ _ _ _ _ Hrun)
    as (j & Hlo & Hhi & _ & Hscore).
  rewrite Hscore. f_equal.
  assert (Hj : j = -312).
  { assert (H1 : (inject_Z (-313) <= inject_Z j)%Q)
      by (eapply Qle_trans; [|exact Hlo]; vm_compute; discriminate).
    assert (H2 : (inject_Z j <= inject_Z (-312))%Q)
      by (eapply Qle_trans; [exact Hhi|]; vm_compute; discriminate).
    rewrite <- Zle_Qle in H1, H2.
    destruct (Z.eq_dec j (-313)) as [->|Hne]; [|lia].
    exfalso. vm_compute in Hscore. discriminate Hscore. }
  now rewrite Hj.
Defined.

End AnomalyFieldFacts.

(** ** PatternDetector: the days of the week *)

Module DayOfWeekFacts.
Import Py ResultFacts FloatFacts RoundFacts OrderedDictFacts GroupFacts.
Import PatternDetector.

(** Record [entry] is filed under weekday [fst p] with sentiment
    [snd p]. *)
Definition filed_by_day (entry : gmap string pyval) (p : Z * Q) : Prop :=
  exists d,
    entry !! "date_obj" = Some (VDate d) /\
    fst p = weekday d /\
    _calculate_sentiment entry = Ok (snd p).

(** A record with a parsed date and a usable text. *)
Definition dated_text (entry : gmap string pyval) : Prop :=
  (exists d, entry !! "date_obj" = Some (VDate d)) /\
  (exists raw, get entry "combined_text" (VStr "") = VStr raw).

Lemma weekday_range d : 0 <= weekday d < 7.
Proof. unfold weekday. apply Z.mod_pos_bound. lia. Qed.

Lemma read_date_obj entry d :
  getitem entry "date_obj" ≫= as_date = Ok d <->
  entry !! "date_obj" = Some (VDate d).
Proof.
  unfold getitem. destruct (entry !! "date_obj") as [[]|]; cbn;
    split; congruence.
Qed.

Lemma dow_loop_groups data days0 days :
  dow_loop data days0 = Ok days ->
  exists pairs, Forall2 filed_by_day data pairs /\ days = group_all pairs days0.
Proof.
  revert days0. induction data as [|entry data IH]; intros days0; simpl.
  - intros [= <-]. exists []. split; [constructor | reflexivity].
  - intros Hrun.
    apply bind_Ok in Hrun as (d & Hd & Hrun).
    apply bind_Ok in Hrun as (s & Hs & Hrun).
    apply IH in Hrun as (pairs & Hpairs & ->).
    apply read_date_obj in Hd.
    exists ((weekday d, s) :: pairs). split; [|reflexivity].
    constructor; [|exact Hpairs]. exists d. auto.
Qed.

Lemma dow_loop_total data days0 :
  Forall dated_text data -> exists days, dow_loop data days0 = Ok days.
Proof.
  intros Hwf. revert days0.
  induction Hwf as [|entry data Hentry _ IH]; intros days0; simpl.
  - eauto.
  - destruct Hentry as [[d Hd] [raw Hraw]].
    apply read_date_obj in Hd.
    destruct (SentimentFacts.calculate_sentiment_total entry raw Hraw) as [s Hs].
    rewrite Hd. cbn. rewrite Hs. cbn. apply IH.
Qed.

Lemma filter_nonempty_groups {V : Type} (days : list (Z * list V)) :
  Forall (fun kv => snd kv <> []) days ->
  filter (fun kv => snd kv <> []) days = days.
Proof.
  induction 1 as [|kv days Hkv _ IH]; [reflexivity|].
  now rewrite filter_cons_True, IH.
Qed.

Lemma dow_name (k : Z) :
  0 <= k < 7 -> exists name, dow_names !! Z.to_nat k = Some name.
Proof.
  intros Hk. apply lookup_lt_is_Some_2. simpl. lia.
Qed.

Lemma dow_names_NoDup : NoDup dow_names.
Proof.
  apply NoDup_ListNoDup. unfold dow_names.
  repeat (constructor; [simpl; intuition discriminate|]). constructor.
Qed.

(** The sign of a mean as [_detect_day_of_week_pattern] words it. *)
Definition sign_word (avg : Q) : string :=
  if Qltb 0 avg then "positive" else if Qltb avg 0 then "negative" else "neutral".

Lemma sign_word_cases avg :
  (sign_word avg = "positive" <-> (0 < avg)%Q) /\
  (sign_word avg = "negative" <-> (avg < 0)%Q) /\
  (sign_word avg = "neutral" <-> (avg == 0)%Q).
Proof.
  unfold sign_word. destruct (Qltb 0 avg) eqn:Hpos.
  - apply Qltb_lt in Hpos. repeat split; try discriminate; auto; intros H;
      exfalso; Lqa.lra.
  - apply Qltb_ge in Hpos. destruct (Qltb avg 0) eqn:Hneg.
    + apply Qltb_lt in Hneg. repeat split; try discriminate; auto; intros H;
        exfalso; Lqa.lra.
    + apply Qltb_ge in Hneg. repeat split; try discriminate; auto; intros H;
        try (exfalso; Lqa.lra). Lqa.lra.
Qed.

Lemma day_patterns_inv data patterns :
  _detect_day_of_week_pattern data = Ok patterns ->
  exists pairs,
    Forall2 filed_by_day data pairs /\
    Forall2 (fun kv np =>
               dow_names !! Z.to_nat (fst kv) = Some (fst np) /\
               0 <= fst kv < 7 /\
               snd kv = members (fst kv) pairs /\
               snd np = {| average_sentiment := round (np_mean (snd kv)) 2;
                           trend := sign_word (np_mean (snd kv)) |})
            (group_all pairs []) patterns /\
    grouped (group_all pairs []) pairs.
Proof.
  unfold _detect_day_of_week_pattern. intros Hrun.
  apply bind_Ok in Hrun as (days & Hdays & Hrun).
  apply dow_loop_groups in Hdays as (pairs & Hpairs & ->).
  pose proof (grouped_all pairs [] [] grouped_nil) as Hgr. simpl in Hgr.
  exists pairs. split; [exact Hpairs|]. split; [|exact Hgr].
  rewrite filter_nonempty_groups in Hrun.
  - apply mapM_Ok_Forall2 in Hrun.
    apply Forall2_same_length_lookup. split; [eapply Forall2_length, Hrun|].
    intros i [k xs] [name p] Hkv Hnp.
    pose proof (Forall2_lookup_lr _ _ _ _ _ _ Hrun Hkv Hnp) as Hstep.
    cbn beta iota in Hstep.
    apply bind_Ok in Hstep as (name' & Hname & Hstep).
    injection Hstep as <- <-. simpl.
    assert (Hin : In (k, xs) (group_all pairs [])).
    { apply list_elem_of_In. eapply list_elem_of_lookup_2, Hkv. }
    destruct (grouped_members _ _ _ _ Hgr Hin) as [Hxs _].
    assert (Hk : In k (map fst pairs)).
    { apply (grouped_keys _ _ _ Hgr). change k with (fst (k, xs)).
      now apply in_map. }
    apply in_map_iff in Hk as ([k' s] & Hk' & Hp). simpl in Hk'. subst k'.
    apply list_elem_of_In, list_elem_of_lookup in Hp as [j Hj].
    destruct (Forall2_lookup_r _ _ _ _ _ Hpairs Hj) as (entry & _ & d & _ & Hday & _).
    simpl in Hday. subst k.
    unfold list_getitem in Hname.
    destruct (dow_names !! Z.to_nat (weekday d)); [|discriminate Hname].
    injection Hname as ->.
    split; [reflexivity|]. split; [apply weekday_range|]. split; auto.
  - apply Forall_forall. intros [k xs] Hin. apply list_elem_of_In in Hin.
    now destruct (grouped_members _ _ _ _ Hgr Hin).
Qed.

Lemma nth_name_inj (i j : nat) (name : string) :
  dow_names !! i = Some name -> dow_names !! j = Some name -> i = j.
Proof. apply NoDup_lookup, dow_names_NoDup. Qed.

(** X9. The day-of-week patterns have one entry per weekday on which a
    record is dated, and none for another day: at most seven, under
    distinct day names. The entry of a day holds the mean sentiment of
    the records of that day, as numpy computes it in binary64, rounded
    to two decimals (the double nearest to the nearest decimal), and
    the trend is the sign of that mean before it is rounded. The
    patterns are produced for every data set whose records have a
    parsed date and a text. *)
Theorem day_patterns_cover_present_days (data : list (gmap string pyval)) :
  (forall patterns, _detect_day_of_week_pattern data = Ok patterns ->
     exists pairs,
       Forall2 filed_by_day data pairs /\
       NoDup (map fst patterns) /\
       (length patterns <= 7)%nat /\
       (forall name, In name (map fst patterns) <->
          exists k, In k (map fst pairs) /\
                    dow_names !! Z.to_nat k = Some name) /\
       (forall name p, In (name, p) patterns ->
          exists k,
            dow_names !! Z.to_nat k = Some name /\
            let avg := np_mean (members k pairs) in
            average_sentiment p = round avg 2 /\
            (exists j, nearest_decimal avg 2 j /\
                       average_sentiment p = round64 (j # 100)) /\
            (trend p = "positive" <-> (0 < avg)%Q) /\
            (trend p = "negative" <-> (avg < 0)%Q) /\
            (trend p = "neutral" <-> (avg == 0)%Q))) /\
  (Forall dated_text data ->
   exists patterns, _detect_day_of_week_pattern data = Ok patterns).
Proof.
  split.
  - intros patterns Hrun.
    apply day_patterns_inv in Hrun as (pairs & Hpairs & Hrows & Hgr).
    exists pairs. split; [exact Hpairs|].
    assert (Hnames : forall name,
              In name (map fst patterns) <->
              exists k, In k (map fst pairs) /\
                        dow_names !! Z.to_nat k = Some name).
    { intros name. split.
      - intros Hin. apply in_map_iff in Hin as ([name' p] & <- & Hin).
        apply list_elem_of_In, list_elem_of_lookup in Hin as [i Hi].
        destruct (Forall2_lookup_r _ _ _ _ _ Hrows Hi)
          as ([k xs] & Hkv & Hname & _).
        exists k. split; [|exact Hname].
        apply (grouped_keys _ _ _ Hgr). change k with (fst (k, xs)).
        apply in_map, list_elem_of_In. eapply list_elem_of_lookup_2, Hkv.
      - intros (k & Hk & Hname).
        apply (grouped_keys _ _ _ Hgr), in_map_iff in Hk as ([k' xs] & Hk' & Hin).
        simpl in Hk'. subst k'.
        apply list_elem_of_In, list_elem_of_lookup in Hin as [i Hi].
        destruct (Forall2_lookup_l _ _ _ _ _ Hrows Hi)
          as ([name' p] & Hnp & Hname' & _).
        simpl in Hname'. rewrite Hname in Hname'. injection Hname' as <-.
        change name with (fst (name, p)).
        apply in_map, list_elem_of_In. eapply list_elem_of_lookup_2, Hnp. }
    assert (Hnodup : NoDup (map fst patterns)).
    { apply NoDup_alt. intros i j name Hi Hj.
      rewrite list_lookup_fmap in Hi, Hj.
      destruct (patterns !! i) as [[ni pi]|] eqn:Hpi; [|discriminate Hi].
      destruct (patterns !! j) as [[nj pj]|] eqn:Hpj; [|discriminate Hj].
      simpl in Hi, Hj. injection Hi as ->. injection Hj as ->.
      destruct (Forall2_lookup_r _ _ _ _ _ Hrows Hpi) as ([ki xi] & Hki & Hni & Hri & _).
      destruct (Forall2_lookup_r _ _ _ _ _ Hrows Hpj) as ([kj xj] & Hkj & Hnj & Hrj & _).
      simpl in *.
      assert (Hk : ki = kj).
      { pose proof (nth_name_inj _ _ _ Hni Hnj). lia. }
      subst kj.
      pose proof (grouped_nodup _ _ Hgr) as Hkeys.
      apply (NoDup_lookup _ i j ki Hkeys); unfold od_keys;
        rewrite list_lookup_fmap; [now rewrite Hki | now rewrite Hkj]. }
    split; [exact Hnodup|]. split.
    { change 7%nat with (length dow_names).
      rewrite <- (length_map fst patterns).
      apply NoDup_incl_length; [now apply NoDup_ListNoDup|].
      intros name Hin. apply Hnames in Hin as (k & _ & Hname).
      apply list_elem_of_In. eapply list_elem_of_lookup_2, Hname. }
    split; [exact Hnames|].
    intros name p Hin.
    apply list_elem_of_In, list_elem_of_lookup in Hin as [i Hi].
    destruct (Forall2_lookup_r _ _ _ _ _ Hrows Hi)
      as ([k xs] & _ & Hname & _ & Hxs & Hp).
    simpl in *. subst xs p. exists k. split; [exact Hname|].
    cbn [average_sentiment trend].
    split; [reflexivity|].
    split; [apply round_2|].
    apply sign_word_cases.
  - intros Hwf. unfold _detect_day_of_week_pattern.
    destruct (dow_loop_total data [] Hwf) as [days Hdays].
    rewrite (bind_Ok_eq _ _ _ Hdays).
    apply dow_loop_groups in Hdays as (pairs & Hpairs & ->).
    pose proof (grouped_all pairs [] [] grouped_nil) as Hgr. simpl in Hgr.
    assert (Hkeys : Forall (fun kv : Z * list Q => 0 <= fst kv < 7)
                      (group_all pairs [])).
    { apply Forall_forall. intros [k xs] Hin. simpl.
      assert (Hk : In k (map fst pairs)).
      { apply (grouped_keys _ _ _ Hgr). change k with (fst (k, xs)).
        apply in_map. now apply list_elem_of_In. }
      apply in_map_iff in Hk as ([k' s] & Hk' & Hp). simpl in Hk'. subst k'.
      apply list_elem_of_In, list_elem_of_lookup in Hp as [j Hj].
      destruct (Forall2_lookup_r _ _ _ _ _ Hpairs Hj)
        as (entry & _ & d & _ & Hday & _).
      simpl in Hday. subst k. apply weekday_range. }
    assert (Hkept : Forall (fun kv : Z * list Q => 0 <= fst kv < 7)
                      (filter (fun kv : Z * list Q => snd kv <> [])
                         (group_all pairs []))).
    { apply Forall_forall. intros kv Hin.
      apply list_elem_of_filter in Hin as [_ Hin].
      rewrite Forall_forall in Hkeys. now apply Hkeys. }
    revert Hkept.
    generalize (filter (fun kv : Z * list Q => snd kv <> [])
                  (group_all pairs [])).
    intros days Hkept.
    induction Hkept as [|[k xs] days Hk _ [ps Hps]].
    + now exists [].
    + destruct (dow_name k Hk) as [name Hname].
      eexists. apply mapM_Ok_Forall2.
      constructor; [|apply mapM_Ok_Forall2, Hps].
      cbn. unfold list_getitem. rewrite Hname. reflexivity.
Qed.

Definition on_day (d : Z) (text : string) : gmap string pyval :=
  <["date_obj" := VDate d]> (<["combined_text" := VStr text]> ∅).

(** 738949 is Monday 4 March 2024. *)
Definition monday_and_friday : list (gmap string pyval) :=
  [on_day 738949 "Diary: stress";
   on_day 738953 "Diary: happy";
   on_day 738956 "Diary: tired"].

Lemma day_patterns_cover_present_days_witness :
  exists patterns,
    _detect_day_of_week_pattern monday_and_friday = Ok patterns /\
    map fst patterns = ["Monday"; "Friday"] /\
    NoDup (map fst patterns).
Proof.
  destruct (day_patterns_cover_present_days monday_and_friday)
    as [Hspec Htotal].
  destruct Htotal as [patterns Hrun].
  { repeat constructor; simpl; eauto. }
  exists patterns. split; [exact Hrun|].
  destruct (Hspec patterns Hrun) as (pairs & _ & Hnodup & _).
  split; [|exact Hnodup].
  vm_compute in Hrun. now injection Hrun as <-.
Defined.

End DayOfWeekFacts.

(** ** DataLoader: the records of a run *)

Module LoaderFacts.
Import Py ResultFacts SortFacts DataLoader.

(** Record [entry'] is [entry] with its date parsed. *)
Definition parsed `{FileSystem} (entry entry' : gmap string pyval) : Prop :=
  exists v d,
    entry !! "date" = Some v /\
    strptime v = Ok d /\
    entry' = <["date_obj" := VDate d]> entry.

(** The parsed date of [a] is not after the parsed date of [b]. *)
Definition not_after (a b : gmap string pyval) : Prop :=
  exists da db,
    a !! "date_obj" = Some (VDate da) /\
    b !! "date_obj" = Some (VDate db) /\
    da <= db.

Lemma parse_step `{FileSystem} entry entry' :
  (getitem entry "date" ≫= strptime) ≫=
    (fun d => Ok (<["date_obj" := VDate d]> entry)) = Ok entry' <->
  parsed entry entry'.
Proof.
  unfold parsed, getitem. split.
  - intros Hrun. apply bind_Ok in Hrun as (d & Hd & Hrun).
    apply bind_Ok in Hd as (v & Hv & Hd). injection Hrun as <-.
    destruct (entry !! "date") as [v'|]; [|discriminate Hv].
    injection Hv as ->. eauto.
  - intros (v & d & Hv & Hd & ->). rewrite Hv. cbn. now rewrite Hd.
Qed.

Lemma parsed_key `{FileSystem} entry entry' :
  parsed entry entry' ->
  exists d, entry' !! "date_obj" = Some (VDate d) /\ date_key entry' = inject_Z d.
Proof.
  intros (v & d & _ & _ & ->). exists d. unfold date_key, get.
  now rewrite lookup_insert_eq.
Qed.

Lemma load_data_inv `{FileSystem} file_path data :
  load_data file_path = Ok data ->
  exists raw dated,
    json_load file_path = Ok raw /\
    Forall2 parsed raw dated /\
    data = sort_by date_key dated.
Proof.
  unfold load_data. intros Hrun.
  apply bind_Ok in Hrun as (raw & Hraw & Hrun).
  apply bind_Ok in Hrun as (dated & Hdated & Hrun).
  injection Hrun as <-. exists raw, dated.
  split; [exact Hraw|]. split; [|reflexivity].
  apply mapM_Ok_Forall2 in Hdated.
  eapply Forall2_impl; [exact Hdated|].
  intros entry entry'. apply parse_step.
Qed.

(** X14. The list that [load_data] returns holds every record of the
    file once, each with its date parsed into [date_obj] and otherwise
    as it was in the file, in ascending order of that date. *)
Theorem load_data_sorted `{FileSystem}
    (file_path : string) (data : list (gmap string pyval)) :
  load_data file_path = Ok data ->
  exists raw dated,
    json_load file_path = Ok raw /\
    Forall2 parsed raw dated /\
    Permutation data dated /\
    length data = length raw /\
    StronglySorted not_after data.
Proof.
  intros Hrun.
  apply load_data_inv in Hrun as (raw & dated & Hraw & Hdated & ->).
  exists raw, dated. split; [exact Hraw|]. split; [exact Hdated|].
  split; [apply sort_by_perm|]. split.
  { rewrite (Permutation_length (sort_by_perm _ _)).
    symmetry. eapply Forall2_length, Hdated. }
  assert (Hkeys : Forall (fun e => exists d,
                     e !! "date_obj" = Some (VDate d) /\
                     date_key e = inject_Z d) (sort_by date_key dated)).
  { rewrite sort_by_perm. apply Forall_forall. intros e' Hin.
    apply list_elem_of_lookup in Hin as [i Hi].
    destruct (Forall2_lookup_r _ _ _ _ _ Hdated Hi) as (e & _ & Hp).
    eapply parsed_key, Hp. }
  pose proof (sort_by_sorted date_key dated) as Hsorted.
  induction Hsorted as [|a l Hl IH Ha]; [constructor|].
  apply Forall_cons in Hkeys as [(da & Hda & Hka) Hkeys].
  constructor; [now apply IH|].
  rewrite Forall_forall in Ha, Hkeys. apply Forall_forall. intros b Hb.
  destruct (Hkeys b Hb) as (db & Hdb & Hkb).
  exists da, db. split; [exact Hda|]. split; [exact Hdb|].
  specialize (Ha b Hb). unfold key_le in Ha. rewrite Hka, Hkb in Ha.
  now rewrite Zle_Qle.
Qed.

(** X15. [load_data] returns no list when a record of the file has no
    date or a date that does not parse, nor when the file cannot be
    read. *)
Theorem load_data_all_or_nothing `{FileSystem} (file_path : string) :
  (forall e, json_load file_path = Raise e -> load_data file_path = Raise e) /\
  (forall raw entry,
     json_load file_path = Ok raw ->
     In entry raw ->
     is_ok (getitem entry "date" ≫= strptime) = false ->
     is_ok (load_data file_path) = false).
Proof.
  split.
  - intros e He. unfold load_data. now rewrite He.
  - intros raw entry Hraw Hin Hbad.
    destruct (load_data file_path) as [data|] eqn:Hrun; [|reflexivity].
    apply load_data_inv in Hrun as (raw' & dated & Hraw' & Hdated & _).
    rewrite Hraw in Hraw'. injection Hraw' as <-.
    apply list_elem_of_In, list_elem_of_lookup in Hin as [i Hi].
    destruct (Forall2_lookup_l _ _ _ _ _ Hdated Hi) as (e' & _ & v & d & Hv & Hd & _).
    unfold getitem in Hbad. rewrite Hv in Hbad. cbn in Hbad.
    now rewrite Hd in Hbad.
Qed.

(** A file of three records, the second the earliest; the parser reads
    the day of the month. *)
Definition unsorted_file : FileSystem :=
  {| json_load := fun _ =>
       Ok [<["date" := VStr "2024-03-05"]> (<["entry_id" := VStr "b"]> ∅);
           <["date" := VStr "2024-03-04"]> (<["entry_id" := VStr "a"]> ∅);
           <["entry_id" := VStr "c"]> ∅];
     strptime := fun v =>
       match v with
       | VStr "2024-03-04" => Ok 738949
       | VStr "2024-03-05" => Ok 738950
       | VStr _ => Raise (ValueError "time data does not match format")
       | _ => Raise TypeError
       end |}.

Definition two_day_file : FileSystem :=
  {| json_load := fun _ =>
       Ok [<["date" := VStr "2024-03-05"]> (<["entry_id" := VStr "b"]> ∅);
           <["date" := VStr "2024-03-04"]> (<["entry_id" := VStr "a"]> ∅)];
     strptime := @strptime unsorted_file |}.

Lemma load_data_sorted_witness :
  exists data,
    @load_data two_day_file "data/input_data.json" = Ok data /\
    StronglySorted not_after data.
Proof.
  evaluate (@load_data two_day_file "data/input_data.json") Hrun.
  match type of Hrun with _ = Ok ?data => exists data end.
  split; [exact Hrun|].
  destruct (@load_data_sorted two_day_file _ _ Hrun)
    as (_ & _ & _ & _ & _ & _ & Hsorted).
  exact Hsorted.
Defined.

Lemma load_data_all_or_nothing_witness :
  is_ok (@load_data unsorted_file "data/input_data.json") = false.
Proof.
  destruct (@load_data_all_or_nothing unsorted_file "data/input_data.json")
    as [_ Hbad].
  apply (Hbad _ (<["entry_id" := VStr "c"]> ∅) eq_refl).
  - simpl. auto.
  - reflexivity.
Defined.

End LoaderFacts.

(** ** MultiModalEmbedder: the combined text and the embeddings *)

Module EmbedderFacts.
Import Py ResultFacts TextFacts MultiModalEmbedder.

Lemma string_app_nil_r (w : string) : w +:+ "" = w.
Proof.
  induction w as [|c w IH]; [reflexivity|].
  change (String c w +:+ "") with (String c (w +:+ "")). now rewrite IH.
Qed.

Lemma occurs_refl (w : string) : occurs w w.
Proof.
  exists "", "". change ("" +:+ (w +:+ "")) with (w +:+ "").
  now rewrite string_app_nil_r.
Qed.

Lemma occurs_app_l (w a b : string) : occurs w a -> occurs w (a +:+ b).
Proof.
  intros [x [y ->]]. exists x, (y +:+ b). now rewrite !string_app_assoc.
Qed.

Lemma occurs_app_r (w a b : string) : occurs w b -> occurs w (a +:+ b).
Proof.
  intros [x [y ->]]. exists (a +:+ x), y. now rewrite !string_app_assoc.
Qed.

(** The parts that [_combine_modalities] joins. *)
Definition parts_of (text voice image : option string) : list string :=
  match text with Some t => ["Diary: " +:+ t] | None => [] end ++
  match voice with Some t => ["Voice: " +:+ t] | None => [] end ++
  match image with Some t => ["Scene: " +:+ t] | None => [] end.

(** Find a part in a text that is given as a concatenation. *)
Ltac find_part :=
  cbn [parts_of String.concat app];
  solve [eauto 8 using occurs_refl, occurs_app_l, occurs_app_r].

Lemma combine_modalities_inv entry combined :
  _combine_modalities entry = Ok combined ->
  exists text voice image,
    modality entry "text" = Ok text /\
    modality entry "voice_transcript" = Ok voice /\
    modality entry "image_caption" = Ok image /\
    combined = String.concat " " (parts_of text voice image).
Proof.
  unfold _combine_modalities. intros Hrun.
  apply bind_Ok in Hrun as (text & Ht & Hrun).
  apply bind_Ok in Hrun as (voice & Hv & Hrun).
  apply bind_Ok in Hrun as (image & Hi & Hrun).
  injection Hrun as <-. exists text, voice, image. auto.
Qed.

Lemma modality_some entry k t :
  modality entry k = Ok (Some t) -> entry !! k = Some (VStr t) /\ t <> "".
Proof.
  unfold modality, get. destruct (entry !! k) as [[]|]; try discriminate.
  destruct (String.eqb_spec s ""); [discriminate|].
  intros [= <-]. auto.
Qed.

Lemma modality_none entry k :
  modality entry k = Ok None <->
  entry !! k = None \/ entry !! k = Some VNone \/ entry !! k = Some (VStr "").
Proof.
  unfold modality, get. destruct (entry !! k) as [[]|]; split;
    try discriminate; auto;
    try (intros [H | [H | H]]; discriminate H).
  - destruct (String.eqb_spec s ""); [subst; auto | discriminate].
  - intros [H | [H | H]]; try discriminate H. now injection H as ->.
Qed.

Lemma combined_text_of_modalities (entry : gmap string pyval)
    (combined : string) :
  _combine_modalities entry = Ok combined ->
  (combined = "" <->
     modality entry "text" = Ok None /\
     modality entry "voice_transcript" = Ok None /\
     modality entry "image_caption" = Ok None) /\
  (forall t, modality entry "text" = Ok (Some t) ->
     exists rest, combined = "Diary: " +:+ t +:+ rest) /\
  (forall t, modality entry "voice_transcript" = Ok (Some t) ->
     occurs ("Voice: " +:+ t) combined) /\
  (forall t, modality entry "image_caption" = Ok (Some t) ->
     occurs ("Scene: " +:+ t) combined) /\
  (forall d v s,
     modality entry "text" = Ok (Some d) ->
     modality entry "voice_transcript" = Ok (Some v) ->
     modality entry "image_caption" = Ok (Some s) ->
     combined = "Diary: " +:+ d +:+ " Voice: " +:+ v +:+ " Scene: " +:+ s).
Proof.
  intros Hrun.
  apply combine_modalities_inv in Hrun as (text & voice & image & Ht & Hv & Hi & ->).
  rewrite Ht, Hv, Hi.
  split; [|split; [|split; [|split]]].
  - split.
    + destruct text, voice, image; simpl; try discriminate; auto.
    + intros ([= ->] & [= ->] & [= ->]). reflexivity.
  - intros t [= ->].
    destruct voice, image; cbn [parts_of String.concat app];
      try (eexists; rewrite string_app_assoc; reflexivity).
    exists "". now rewrite string_app_nil_r.
  - intros t [= ->].
    destruct text, image; find_part.
  - intros t [= ->].
    destruct text, voice; find_part.
  - intros d v s [= ->] [= ->] [= ->]. cbn [parts_of String.concat app].
    now rewrite !string_app_assoc.
Qed.

(** Field [k] of a record is missing, [None] or a [str]. *)
Definition str_or_absent (entry : gmap string pyval) (k : string) : Prop :=
  entry !! k = None \/ entry !! k = Some VNone \/
  exists s, entry !! k = Some (VStr s).

(** Field [k] holds the text [t], which is not empty. *)
Definition present (entry : gmap string pyval) (k t : string) : Prop :=
  entry !! k = Some (VStr t) /\ t <> "".

(** Field [k] holds no text: it is missing, [None] or empty. *)
Definition absent (entry : gmap string pyval) (k : string) : Prop :=
  entry !! k = None \/ entry !! k = Some VNone \/ entry !! k = Some (VStr "").

(** The text of field [k], if it holds one. *)
Definition field_text (entry : gmap string pyval) (k : string)
    : option string :=
  match entry !! k with
  | Some (VStr s) => if String.eqb s "" then None else Some s
  | _ => None
  end.

Lemma modality_field_text entry k :
  str_or_absent entry k -> modality entry k = Ok (field_text entry k).
Proof.
  unfold str_or_absent, modality, field_text, get.
  intros [-> | [-> | [s ->]]]; reflexivity.
Qed.

Lemma modality_present entry k t :
  present entry k t <-> modality entry k = Ok (Some t).
Proof.
  split; [|apply modality_some].
  intros [Hk Ht]. unfold modality, get. rewrite Hk.
  destruct (String.eqb_spec t ""); congruence.
Qed.

(** X17. For a record whose diary text, voice transcript and image
    caption are each missing, [None] or a [str], [_combine_modalities]
    returns the texts that are not empty, each behind its label, joined
    by a space in the order diary, voice, scene. So the combined text is
    empty exactly when the record has none of the three, and otherwise
    it holds the text of every modality the record has. *)
Theorem combine_modalities_holds_every_text (entry : gmap string pyval) :
  str_or_absent entry "text" ->
  str_or_absent entry "voice_transcript" ->
  str_or_absent entry "image_caption" ->
  exists combined,
    _combine_modalities entry = Ok combined /\
    combined =
      String.concat " "
        (match field_text entry "text" with
         | Some t => ["Diary: " +:+ t] | None => [] end ++
         match field_text entry "voice_transcript" with
         | Some t => ["Voice: " +:+ t] | None => [] end ++
         match field_text entry "image_caption" with
         | Some t => ["Scene: " +:+ t] | None => [] end) /\
    (combined = "" <->
       absent entry "text" /\
       absent entry "voice_transcript" /\
       absent entry "image_caption") /\
    (forall t, present entry "text" t ->
       exists rest, combined = "Diary: " +:+ t +:+ rest) /\
    (forall t, present entry "voice_transcript" t ->
       occurs ("Voice: " +:+ t) combined) /\
    (forall t, present entry "image_caption" t ->
       occurs ("Scene: " +:+ t) combined) /\
    (forall d v s,
       present entry "text" d ->
       present entry "voice_transcript" v ->
       present entry "image_caption" s ->
       combined = "Diary: " +:+ d +:+ " Voice: " +:+ v +:+ " Scene: " +:+ s).
Proof.
  intros Ht Hv Hi.
  assert (Hrun : _combine_modalities entry =
                 Ok (String.concat " "
                       (parts_of (field_text entry "text")
                          (field_text entry "voice_transcript")
                          (field_text entry "image_caption")))).
  { unfold _combine_modalities.
    rewrite (modality_field_text _ _ Ht), (modality_field_text _ _ Hv),
      (modality_field_text _ _ Hi).
    reflexivity. }
  eexists. split; [exact Hrun|]. split; [reflexivity|].
  destruct (combined_text_of_modalities _ _ Hrun)
    as (Hempty & Hdiary & Hvoice & Hscene & Hall).
  split; [|split; [|split; [|split]]].
  - unfold absent. rewrite Hempty, !modality_none. reflexivity.
  - intros t Hp. now apply Hdiary, modality_present.
  - intros t Hp. now apply Hvoice, modality_present.
  - intros t Hp. now apply Hscene, modality_present.
  - intros d v s Hd Hv' Hs. now apply Hall; apply modality_present.
Qed.

Definition diary_and_scene : gmap string pyval :=
  <["text" := VStr "Long day"]>
    (<["voice_transcript" := VStr ""]>
       (<["image_caption" := VStr "Desk at night"]> ∅)).

Lemma combine_modalities_holds_every_text_witness :
  _combine_modalities diary_and_scene = Ok "Diary: Long day Scene: Desk at night" /\
  occurs "Scene: Desk at night" "Diary: Long day Scene: Desk at night".
Proof.
  destruct (combine_modalities_holds_every_text diary_and_scene)
    as (combined & Hrun & Hparts & _ & _ & _ & Hscene & _).
  - right. right. now exists "Long day".
  - right. right. now exists "".
  - right. right. now exists "Desk at night".
  - assert (Hc : combined = "Diary: Long day Scene: Desk at night")
      by (rewrite Hparts; reflexivity).
    rewrite Hc in Hrun, Hscene. split; [exact Hrun|].
    apply Hscene. split; [reflexivity | discriminate].
Defined.

Lemma generate_embeddings_rows `{Encoder} data embeddings processed :
  generate_embeddings data = Ok (embeddings, processed) ->
  exists rows,
    Forall2 (fun entry row =>
               exists combined,
                 _combine_modalities entry = Ok combined /\
                 encode combined = Ok (fst row) /\
                 snd row = <["embedding" := VVec (fst row)]>
                             (<["combined_text" := VStr combined]> entry))
            data rows /\
    embeddings = map fst rows /\ processed = map snd rows.
Proof.
  unfold generate_embeddings. intros Hrun.
  apply bind_Ok in Hrun as (rows & Hrows & Hrun).
  injection Hrun as <- <-. exists rows. split; [|auto].
  apply mapM_Ok_Forall2 in Hrows.
  eapply Forall2_impl; [exact Hrows|].
  intros entry [row p] Hstep. simpl.
  apply bind_Ok in Hstep as (combined & Hc & Hstep).
  apply bind_Ok in Hstep as (embedding & He & Hstep).
  injection Hstep as <- <-. eauto.
Qed.

(** X16. [generate_embeddings] returns one row and one processed record
    per record, position by position: the row is the encoding of the
    combined text of the record, and the processed record is the record
    with that text under [combined_text] and that row under [embedding],
    every other field as it was. *)
Theorem generate_embeddings_aligned `{Encoder}
    (data : list (gmap string pyval))
    (embeddings : list (list Q)) (processed : list (gmap string pyval)) :
  generate_embeddings data = Ok (embeddings, processed) ->
  length embeddings = length data /\
  length processed = length data /\
  (forall i entry, data !! i = Some entry ->
     exists combined row p,
       _combine_modalities entry = Ok combined /\
       encode combined = Ok row /\
       embeddings !! i = Some row /\
       processed !! i = Some p /\
       p !! "combined_text" = Some (VStr combined) /\
       p !! "embedding" = Some (VVec row) /\
       (forall k, k <> "combined_text" -> k <> "embedding" ->
          p !! k = entry !! k)).
Proof.
  intros Hrun.
  apply generate_embeddings_rows in Hrun as (rows & Hrows & -> & ->).
  rewrite !length_map. pose proof (Forall2_length _ _ _ Hrows) as Hlen.
  split; [now symmetry|]. split; [now symmetry|].
  intros i entry Hi.
  destruct (Forall2_lookup_l _ _ _ _ _ Hrows Hi)
    as ([row p] & Hrow & combined & Hc & He & Hp).
  simpl in *. exists combined, row, p.
  split; [exact Hc|]. split; [exact He|].
  rewrite !list_lookup_fmap, Hrow. simpl.
  split; [reflexivity|]. split; [reflexivity|]. subst p.
  split; [|split].
  - rewrite lookup_insert_ne by discriminate. apply lookup_insert_eq.
  - apply lookup_insert_eq.
  - intros k Hk1 Hk2. now rewrite !lookup_insert_ne by congruence.
Qed.

Definition length_of_text : Encoder :=
  {| encode := fun text => Ok [inject_Z (Z.of_nat (String.length text))] |}.

Lemma generate_embeddings_aligned_witness :
  exists embeddings processed,
    @generate_embeddings length_of_text [diary_and_scene]
      = Ok (embeddings, processed) /\
    length embeddings = 1%nat /\ length processed = 1%nat.
Proof.
  evaluate (@generate_embeddings length_of_text [diary_and_scene]) Hrun.
  match type of Hrun with
  | _ = Ok (?embeddings, ?processed) => exists embeddings, processed
  end.
  split; [exact Hrun|].
  destruct (@generate_embeddings_aligned length_of_text _ _ _ Hrun)
    as (Hl1 & Hl2 & _).
  split; [exact Hl1 | exact Hl2].
Defined.

(** X18. A stress word in the diary text, the voice transcript or the
    image caption of a record, in whatever case, makes the anomaly built
    from its processed record a [stress_surge]. *)
Theorem stress_in_any_modality
    (entry p : gmap string pyval) (combined : string) (row : list Q)
    (k t w : string) (score : Q) (embeddings : list (list Q)) (index : nat)
    (a : AnomalyDetector.Anomaly) :
  _combine_modalities entry = Ok combined ->
  p = <["embedding" := VVec row]> (<["combined_text" := VStr combined]> entry) ->
  In k ["text"; "voice_transcript"; "image_caption"] ->
  modality entry k = Ok (Some t) ->
  In w AnomalyDetector.stress_words ->
  occurs w (lower t) ->
  AnomalyDetector._create_anomaly_entry p score embeddings index = Ok a ->
  AnomalyDetector.anomaly_type a = "stress_surge".
Proof.
  intros Hc -> Hk Ht Hw Hocc Hrun.
  apply AnomalyTypeFacts.create_anomaly_entry_inv in Hrun
    as (raw & Hraw & Hty & _).
  unfold get in Hraw.
  rewrite lookup_insert_ne, lookup_insert_eq in Hraw by discriminate.
  injection Hraw as <-. rewrite Hty.
  apply AnomalyTypeFacts.classify_cases.
  exists w. split; [exact Hw|].
  apply occurs_trans with (w := lower t); [exact Hocc|].
  apply occurs_lower.
  apply combine_modalities_inv in Hc as (text & voice & image & H1 & H2 & H3 & ->).
  destruct Hk as [<- | [<- | [<- | []]]].
  - rewrite Ht in H1. injection H1 as <-.
    destruct voice, image; find_part.
  - rewrite Ht in H2. injection H2 as <-.
    destruct text, image; find_part.
  - rewrite Ht in H3. injection H3 as <-.
    destruct text, voice; find_part.
Qed.

Definition spoken_pressure : gmap string pyval :=
  <["entry_id" := VStr "e9"]>
    (<["date" := VStr "2024-03-08"]>
       (<["voice_transcript" := VStr "So much PRESSURE today"]> ∅)).

Lemma stress_in_any_modality_witness :
  exists a,
    AnomalyDetector._create_anomaly_entry
      (<["embedding" := VVec [1%Q]]>
         (<["combined_text" := VStr "Voice: So much PRESSURE today"]>
            spoken_pressure))
      (- (1 # 2)) [] 0 = Ok a /\
    AnomalyDetector.anomaly_type a = "stress_surge".
Proof.
  destruct (AnomalyDetector._create_anomaly_entry
              (<["embedding" := VVec [1%Q]]>
                 (<["combined_text" := VStr "Voice: So much PRESSURE today"]>
                    spoken_pressure))
              (- (1 # 2)) [] 0) as [a|] eqn:Hrun;
    [|vm_compute in Hrun; discriminate Hrun].
  exists a. split; [reflexivity|].
  apply (stress_in_any_modality spoken_pressure
           (<["embedding" := VVec [1%Q]]>
              (<["combined_text" := VStr "Voice: So much PRESSURE today"]>
                 spoken_pressure))
           "Voice: So much PRESSURE today" [1%Q]
           "voice_transcript" "So much PRESSURE today" "pressure"
           (- (1 # 2)) [] 0 a); try reflexivity.
  - simpl. auto.
  - simpl. auto.
  - now exists "so much ", " today".
  - exact Hrun.
Defined.

End EmbedderFacts.

(** ** Words and counters *)

Module WordFacts.
Import Py PyText ResultFacts TextFacts SortFacts EmbedderFacts.

Lemma sd_get_set_eq d k v : sd_get (sd_set d k v) k = Some v.
Proof.
  induction d as [|[k' v'] d IH]; simpl.
  - now rewrite String.eqb_refl.
  - destruct (String.eqb k' k) eqn:Hk; simpl; rewrite Hk; auto.
Qed.

Lemma sd_get_set_ne d k k' v :
  k <> k' -> sd_get (sd_set d k v) k' = sd_get d k'.
Proof.
  intros Hne. induction d as [|[k0 v0] d IH]; simpl.
  - apply String.eqb_neq in Hne. now rewrite Hne.
  - destruct (String.eqb k0 k) eqn:Hk; simpl.
    + apply String.eqb_eq in Hk as ->.
      apply String.eqb_neq in Hne. now rewrite Hne.
    + now rewrite IH.
Qed.

Lemma sd_get_keys d k : In k (map fst d) <-> sd_get d k <> None.
Proof.
  induction d as [|[k' v'] d IH]; simpl.
  - tauto.
  - destruct (String.eqb k' k) eqn:Hk.
    + apply String.eqb_eq in Hk. split; [discriminate | auto].
    + apply String.eqb_neq in Hk. rewrite IH. tauto.
Qed.

Lemma sd_keys_set d k v :
  map fst (sd_set d k v) =
  match sd_get d k with
  | Some _ => map fst d
  | None => map fst d ++ [k]
  end.
Proof.
  induction d as [|[k' v'] d IH]; simpl; [reflexivity|].
  destruct (String.eqb k' k) eqn:Hk; simpl; [reflexivity|].
  rewrite IH. now destruct (sd_get d k).
Qed.

Lemma sd_get_In d k v :
  NoDup (map fst d) -> In (k, v) d -> sd_get d k = Some v.
Proof.
  induction d as [|[k' v'] d IH]; simpl; [tauto|].
  intros Hnd [[= -> ->] | Hin].
  - now rewrite String.eqb_refl.
  - apply NoDup_cons in Hnd as [Hk' Hnd].
    destruct (String.eqb k' k) eqn:Hk; [|auto].
    apply String.eqb_eq in Hk as ->. exfalso. apply Hk'.
    apply list_elem_of_In. change k with (fst (k, v)). now apply in_map.
Qed.

(** The number of times [w] is among [words]. *)
Definition times (w : string) (words : list string) : Z :=
  Z.of_nat (count_occ string_dec words w).

Lemma times_nonneg w ws : 0 <= times w ws.
Proof. unfold times. lia. Qed.

Lemma times_snoc_eq w ws : times w (ws ++ [w]) = times w ws + 1.
Proof.
  unfold times. rewrite count_occ_app. simpl.
  destruct (string_dec w w); [lia | congruence].
Qed.

Lemma times_snoc_ne w k ws : w <> k -> times k (ws ++ [w]) = times k ws.
Proof.
  intros Hne. unfold times. rewrite count_occ_app. simpl.
  destruct (string_dec w k); [congruence | lia].
Qed.

Lemma times_pos_In w ws : 0 < times w ws <-> In w ws.
Proof. unfold times. rewrite (count_occ_In string_dec). lia. Qed.

(** What a counter holds after the words [seen]. *)
Record counts_of (counts : list (string * Z)) (seen : list string) : Prop := {
  counts_lookup : forall k,
    sd_get counts k = if times k seen =? 0 then None else Some (times k seen);
  counts_distinct : NoDup (map fst counts)
}.

Lemma counts_of_nil : counts_of [] [].
Proof. split; [reflexivity | constructor]. Qed.

Lemma counts_of_value counts seen k :
  counts_of counts seen -> sd_count counts k = times k seen.
Proof.
  intros Hc. unfold sd_count. rewrite (counts_lookup _ _ Hc).
  destruct (times k seen =? 0) eqn:H0; [|reflexivity].
  apply Z.eqb_eq in H0. now rewrite H0.
Qed.

Lemma counts_of_step counts seen w :
  counts_of counts seen ->
  counts_of (sd_set counts w (sd_count counts w + 1)) (seen ++ [w]).
Proof.
  intros Hc. split.
  - intros k. destruct (string_dec w k) as [<-|Hne].
    + rewrite sd_get_set_eq, times_snoc_eq, (counts_of_value _ _ _ Hc).
      pose proof (times_nonneg w seen).
      destruct (times w seen + 1 =? 0) eqn:H0; [|reflexivity].
      apply Z.eqb_eq in H0. lia.
    + rewrite sd_get_set_ne, times_snoc_ne by assumption.
      apply (counts_lookup _ _ Hc).
  - rewrite sd_keys_set. destruct (sd_get counts w) eqn:Hget.
    + apply (counts_distinct _ _ Hc).
    + apply NoDup_app. split; [apply (counts_distinct _ _ Hc)|].
      split; [|repeat constructor; apply not_elem_of_nil].
      intros x Hx Hx'. apply list_elem_of_singleton in Hx' as ->.
      apply list_elem_of_In, sd_get_keys in Hx. congruence.
Qed.

Lemma counts_of_counter words counts seen :
  counts_of counts seen -> counts_of (counter words counts) (seen ++ words).
Proof.
  revert counts seen. induction words as [|w rest IH]; intros counts seen Hc.
  - now rewrite app_nil_r.
  - simpl. replace (seen ++ w :: rest) with ((seen ++ [w]) ++ rest)
      by now rewrite <- app_assoc.
    apply IH. now apply counts_of_step.
Qed.

Lemma counts_of_In counts seen k n :
  counts_of counts seen -> In (k, n) counts -> n = times k seen /\ In k seen.
Proof.
  intros Hc Hin.
  apply sd_get_In in Hin; [|apply (counts_distinct _ _ Hc)].
  rewrite (counts_lookup _ _ Hc) in Hin.
  destruct (times k seen =? 0) eqn:H0; [discriminate|].
  injection Hin as <-. split; [reflexivity|].
  apply times_pos_In. apply Z.eqb_neq in H0.
  pose proof (times_nonneg k seen). lia.
Qed.

(** A run of word characters of a text occurs in the text. *)
Lemma word_runs_occur s :
  forall run w, In w (word_runs s run) -> occurs w (run +:+ s).
Proof.
  induction s as [|c s IH]; intros run w; simpl.
  - destruct (String.eqb run ""); [intros [] | intros [<- | []]].
    rewrite string_app_nil_r. apply occurs_refl.
  - destruct (is_word_char c).
    + intros Hin. apply IH in Hin.
      replace (run +:+ String c s) with ((run +:+ String c "") +:+ s);
        [exact Hin|].
      now rewrite string_app_assoc.
    + intros Hin. apply in_app_or in Hin as [Hin | Hin].
      * destruct (String.eqb run ""); [destruct Hin|].
        destruct Hin as [<- | []]. apply occurs_app_l, occurs_refl.
      * apply IH in Hin. apply occurs_app_r.
        change (String c s) with (String c "" +:+ s).
        now apply occurs_app_r.
Qed.

Lemma In_take {A : Type} (x : A) n l : In x (take n l) -> In x l.
Proof.
  intros Hin. rewrite <- (take_drop n l). apply in_or_app. now left.
Qed.

Lemma most_common_spec n counts :
  let top := most_common n counts in
  (length top <= n)%nat /\
  (forall kv, In kv top -> In kv counts) /\
  (NoDup (map fst counts) -> NoDup (map fst top)) /\
  StronglySorted (fun a b => snd b <= snd a) top.
Proof.
  cbv zeta. unfold most_common.
  set (sorted := sort_by (fun kv : string * Z => inject_Z (- snd kv)) counts).
  assert (Hperm : Permutation sorted counts) by apply sort_by_perm.
  split; [rewrite length_take; lia|]. split; [|split].
  - intros kv Hin. apply (Permutation_in _ Hperm).
    eapply In_take, Hin.
  - intros Hnd.
    assert (Hnd' : NoDup (map fst sorted)).
    { assert (Hp : map fst sorted ≡ₚ map fst counts)
        by now apply Permutation_map.
      now rewrite Hp. }
    rewrite <- (take_drop n sorted), map_app in Hnd'.
    now apply NoDup_app in Hnd' as [Hnd' _].
  - pose proof (sort_by_sorted (fun kv : string * Z => inject_Z (- snd kv)) counts)
      as Hs.
    fold sorted in Hs. clear Hperm. revert n. induction Hs as [|a l Hl IH Ha]; intros [|n];
      simpl; try constructor.
    + apply IH.
    + apply Forall_forall. intros b Hb.
      apply list_elem_of_In, In_take, list_elem_of_In in Hb.
      rewrite Forall_forall in Ha.
      specialize (Ha b Hb). unfold key_le in Ha.
      rewrite <- Zle_Qle in Ha. lia.
Qed.

Lemma sorted_app_related {A : Type} (R : A -> A -> Prop) l1 l2 x1 x2 :
  StronglySorted R (l1 ++ l2) -> In x1 l1 -> In x2 l2 -> R x1 x2.
Proof.
  intros Hs. induction l1 as [|a l1 IH]; intros H1 H2; [destruct H1|].
  simpl in Hs. apply StronglySorted_inv in Hs as [Hs Ha].
  destruct H1 as [<- | H1]; [|now apply IH].
  rewrite Forall_forall in Ha. apply Ha, list_elem_of_In, in_or_app. now right.
Qed.

Lemma counts_of_keys counts seen w :
  counts_of counts seen -> In w seen -> In (w, times w seen) counts.
Proof.
  intros Hc Hw.
  assert (Hget : sd_get counts w = Some (times w seen)).
  { rewrite (counts_lookup _ _ Hc).
    apply times_pos_In in Hw.
    destruct (times w seen =? 0) eqn:H0; [|reflexivity].
    apply Z.eqb_eq in H0. lia. }
  clear -Hget. induction counts as [|[k v] counts IH]; [discriminate|].
  simpl in Hget. destruct (String.eqb k w) eqn:Hk.
  - apply String.eqb_eq in Hk as ->. injection Hget as ->. now left.
  - right. now apply IH.
Qed.

(** What [most_common] leaves out counts no more than what it keeps,
    and it leaves something out only when it keeps [n] items. *)
Lemma most_common_rest n counts kv :
  In kv counts ->
  In kv (most_common n counts) \/
  (length (most_common n counts) = n /\
   forall top, In top (most_common n counts) -> snd kv <= snd top).
Proof.
  unfold most_common.
  set (sorted := sort_by (fun kv : string * Z => inject_Z (- snd kv)) counts).
  intros Hin.
  assert (Hin' : In kv sorted).
  { apply (Permutation_in _ (Permutation_sym (sort_by_perm _ _))), Hin. }
  pose proof (sort_by_sorted (fun kv : string * Z => inject_Z (- snd kv)) counts)
    as Hs.
  fold sorted in Hs. clearbody sorted. clear Hin.
  rewrite <- (take_drop n sorted) in Hin', Hs.
  apply in_app_or in Hin' as [Hin' | Hin']; [now left | right].
  split.
  - rewrite length_take. apply Nat.min_l.
    destruct (Nat.le_gt_cases n (length sorted)) as [Hle | Hgt]; [exact Hle|].
    rewrite drop_ge in Hin' by lia. destruct Hin'.
  - intros top Htop.
    pose proof (sorted_app_related _ _ _ _ _ Hs Htop Hin') as Hle.
    unfold key_le in Hle.
    rewrite <- Zle_Qle in Hle. lia.
Qed.

End WordFacts.

(** ** ThemeClusterer: keywords and labels *)

Module KeywordFacts.
Import Py PyText ResultFacts TextFacts EmbedderFacts WordFacts MaxFacts.
Import ThemeExtraction.

(** The text in which the keywords of a cluster are looked for. *)
Definition cluster_text (entries : list (gmap string pyval)) : result string :=
  texts ← mapM (fun entry => as_joined (get entry "combined_text" (VStr "")))
               entries;
  Ok (lower (String.concat " " texts)).

Lemma extract_keywords_inv entries keywords :
  _extract_keywords entries = Ok keywords ->
  exists all_text words,
    cluster_text entries = Ok all_text /\
    words = List.filter (fun w => negb (str_member w stop_words))
              (findall_words all_text) /\
    keywords = map fst (most_common 15 (counter words [])).
Proof.
  unfold _extract_keywords, cluster_text. intros Hrun.
  apply bind_Ok in Hrun as (texts & Htexts & Hrun).
  injection Hrun as <-. rewrite Htexts. cbn. eauto.
Qed.

(** The texts of the records are ASCII: on such text the bytes of the
    model are the characters of the [str], and [\w], [\b] and [lower]
    are those of ASCII. *)
Definition is_ascii (c : ascii) : bool := (N_of_ascii c <? 128)%N.

Definition ascii_texts (entries : list (gmap string pyval)) : Prop :=
  Forall (fun entry =>
            forall s, get entry "combined_text" (VStr "") = VStr s ->
                      all_chars is_ascii s = true) entries.

(** The words among which the keywords are counted. *)
Definition counted_words (all_text : string) : list string :=
  List.filter (fun w => negb (str_member w stop_words))
    (findall_words all_text).

(** X19. For records with ASCII texts, the keywords of a cluster are at
    most fifteen distinct words. Every one is made of at least four
    lower-case letters, is no stop word and is one of the words of the
    lower-cased texts of the cluster; they come in descending order of
    their number of occurrences among these words, and a word that is
    left out occurs no more often than any keyword, which happens only
    when there are fifteen keywords. A combined text that is not a [str]
    is a [TypeError]. *)
Theorem extract_keywords_spec (entries : list (gmap string pyval)) :
  (forall keywords,
     ascii_texts entries ->
     _extract_keywords entries = Ok keywords ->
     exists all_text,
       let words := counted_words all_text in
       cluster_text entries = Ok all_text /\
       (length keywords <= 15)%nat /\
       NoDup keywords /\
       (forall w, In w keywords ->
          (4 <= String.length w)%nat /\
          all_chars is_lower w = true /\
          ~ In w stop_words /\
          occurs w all_text /\
          In w words) /\
       StronglySorted (fun a b => times b words <= times a words) keywords /\
       (forall w, In w words ->
          In w keywords \/
          (length keywords = 15%nat /\
           forall k, In k keywords -> times w words <= times k words))) /\
  (forall entry v,
     In entry entries ->
     get entry "combined_text" (VStr "") = v ->
     (forall s, v <> VStr s) ->
     _extract_keywords entries = Raise TypeError).
Proof.
  split.
  - intros keywords _ Hrun.
    apply extract_keywords_inv in Hrun as (all_text & words & Htext & Hwords & ->).
    exists all_text. cbv zeta. fold (counted_words all_text) in Hwords.
    rewrite <- Hwords. split; [exact Htext|].
    pose proof (counts_of_counter words [] [] counts_of_nil) as Hc. simpl in Hc.
    destruct (most_common_spec 15 (counter words [])) as (Hlen & Hin & Hnd & Hsorted).
    split; [now rewrite length_map|].
    split; [apply Hnd, (counts_distinct _ _ Hc)|].
    split; [|split].
    + intros w Hw. apply in_map_iff in Hw as ([w' n] & <- & Hw). simpl.
      apply Hin in Hw. destruct (counts_of_In _ _ _ _ Hc Hw) as [_ Hseen].
      rewrite Hwords in Hseen. apply filter_In in Hseen as [Hfound Hstop].
      unfold findall_words in Hfound.
      apply filter_In in Hfound as [Hrun Hshape].
      apply andb_true_iff in Hshape as [Hlower Hlong].
      apply Nat.leb_le in Hlong.
      split; [exact Hlong|]. split; [exact Hlower|]. split; [|split].
      * intros Hin_stop. apply negb_true_iff in Hstop.
        unfold str_member in Hstop.
        assert (Hyes : existsb (String.eqb w') stop_words = true).
        { apply existsb_exists. exists w'. split; [exact Hin_stop|].
          apply String.eqb_refl. }
        congruence.
      * apply word_runs_occur in Hrun. exact Hrun.
      * rewrite Hwords. apply filter_In. split; [|exact Hstop].
        unfold findall_words. apply filter_In. split; [exact Hrun|].
        apply andb_true_iff. split; [exact Hlower | now apply Nat.leb_le].
    + clear -Hsorted Hin Hc.
      induction Hsorted as [|[w n] l Hl IH Ha]; simpl; [constructor|].
      constructor.
      * apply IH. intros kv Hkv. apply Hin. now right.
      * apply Forall_forall. intros w' Hw'.
        apply list_elem_of_In, in_map_iff in Hw' as ([w'' n'] & <- & Hw').
        rewrite Forall_forall in Ha.
        specialize (Ha (w'', n') ltac:(now apply list_elem_of_In)). simpl in *.
        destruct (counts_of_In _ _ _ _ Hc (Hin (w, n) ltac:(now left))) as [<- _].
        destruct (counts_of_In _ _ _ _ Hc (Hin (w'', n') ltac:(now right)))
          as [<- _].
        exact Ha.
    + intros w Hw.
      destruct (most_common_rest 15 _ _ (counts_of_keys _ _ _ Hc Hw))
        as [Hkept | [Hfull Hless]].
      * left. apply in_map_iff. exists (w, times w words). auto.
      * right. split; [now rewrite length_map|].
        intros k Hk. apply in_map_iff in Hk as ([k' n] & <- & Hk).
        specialize (Hless _ Hk). simpl in *.
        now destruct (counts_of_In _ _ _ _ Hc (Hin _ Hk)) as [<- _].
  - intros entry v Hin Hv Hnot. unfold _extract_keywords.
    assert (Hbad : mapM (fun e => as_joined (get e "combined_text" (VStr "")))
                     entries = Raise TypeError).
    { clear -Hin Hv Hnot. induction entries as [|e es IH]; [destruct Hin|].
      change (mapM (fun e => as_joined (get e "combined_text" (VStr ""))) (e :: es))
        with (as_joined (get e "combined_text" (VStr "")) ≫= fun y =>
              mapM (fun e => as_joined (get e "combined_text" (VStr ""))) es
              ≫= fun k => Ok (y :: k)).
      destruct (as_joined (get e "combined_text" (VStr ""))) as [s|err] eqn:He.
      - destruct Hin as [<- | Hin].
        + exfalso. rewrite Hv in He. destruct v; try discriminate He.
          now apply (Hnot s0).
        + cbn. now rewrite (IH Hin).
      - cbn. unfold as_joined in He.
        destruct (get e "combined_text" (VStr "")); congruence. }
    now rewrite Hbad.
Qed.

Definition text_record (text : string) : gmap string pyval :=
  <["combined_text" := VStr text]> ∅.

Definition project_cluster : list (gmap string pyval) :=
  [text_record "Diary: The project deadline is near; project review";
   text_record "Voice: deadline stress and project work"].

Lemma extract_keywords_spec_witness :
  _extract_keywords project_cluster
    = Ok ["project"; "deadline"; "near"; "review"; "stress"; "work"] /\
  NoDup ["project"; "deadline"; "near"; "review"; "stress"; "work"].
Proof.
  split; [vm_compute; reflexivity|].
  destruct (extract_keywords_spec project_cluster) as [Hspec _].
  assert (Hascii : ascii_texts project_cluster).
  { unfold ascii_texts, project_cluster.
    repeat (apply Forall_cons; split); try apply Forall_nil_2;
      intros s Hs; vm_compute in Hs; injection Hs as <-; reflexivity. }
  destruct (Hspec _ Hascii ltac:(vm_compute; reflexivity))
    as (all_text & _ & _ & Hnd & _).
  exact Hnd.
Defined.

(** The score of a category for a list of keywords. *)
Definition score_of (keywords : list string) (category : string * list string)
    : Z :=
  theme_score keywords (snd category).

Lemma theme_score_nonneg keywords theme_words :
  0 <= theme_score keywords theme_words.
Proof.
  induction keywords as [|kw rest IH]; simpl; [lia|].
  destruct (str_member kw theme_words); lia.
Qed.

Lemma theme_names_NoDup : List.NoDup (map fst theme_keywords).
Proof.
  unfold theme_keywords. simpl.
  repeat (constructor; [simpl; intuition discriminate|]). constructor.
Qed.

Lemma map_split {A B : Type} (f : A -> B) (l : list A) pre x post :
  map f l = pre ++ x :: post ->
  exists lpre y lpost,
    l = lpre ++ y :: lpost /\ map f lpre = pre /\ f y = x /\ map f lpost = post.
Proof.
  revert l. induction pre as [|p pre IH]; intros [|a l]; simpl;
    try discriminate.
  - intros [= <- <-]. now exists [], a, l.
  - intros [= <- Hrest]. apply IH in Hrest as (lpre & y & lpost & -> & <- & <- & <-).
    now exists (a :: lpre), y, lpost.
Qed.

(** X20. [_generate_theme_label] never raises. When a keyword belongs to
    the word list of some category, the label is the name of a category
    of the highest score, the first one in the order of the table;
    when no keyword belongs to any, it is the first two keywords (or
    the fewer there are), joined by a space, in title case. *)
Theorem generate_theme_label_spec
    (keywords : list string) (entries : list (gmap string pyval)) :
  exists label,
    _generate_theme_label keywords entries = Ok label /\
    ((exists category, In category theme_keywords /\
                       0 < score_of keywords category) ->
     exists pre words post,
       theme_keywords = pre ++ (label, words) :: post /\
       0 < theme_score keywords words /\
       (forall category, In category pre ->
          score_of keywords category < theme_score keywords words) /\
       (forall category, In category post ->
          score_of keywords category <= theme_score keywords words)) /\
    ((forall category, In category theme_keywords ->
        score_of keywords category = 0) ->
     label = title (String.concat " " (take 2 keywords))).
Proof.
  unfold _generate_theme_label.
  set (theme_scores :=
         map (fun '(theme, theme_words) =>
                (theme, theme_score keywords theme_words)) theme_keywords).
  assert (Hscores : map snd theme_scores = map (score_of keywords) theme_keywords).
  { unfold theme_scores. rewrite map_map. apply map_ext. now intros [n ws]. }
  assert (Hnames : map fst theme_scores = map fst theme_keywords).
  { unfold theme_scores. rewrite map_map. apply map_ext. now intros [n ws]. }
  assert (Hcount : forall category, In category theme_keywords ->
            sd_count theme_scores (fst category) = score_of keywords category).
  { intros [n ws] Hin. unfold sd_count. cbn [fst].
    rewrite (sd_get_In theme_scores n (theme_score keywords ws)); [reflexivity| |].
    - apply NoDup_ListNoDup. rewrite Hnames. apply theme_names_NoDup.
    - unfold theme_scores. apply in_map_iff. exists (n, ws). auto. }
  assert (Hmax : exists highest,
            max_key (fun score => score) (map snd theme_scores) = Ok highest).
  { destruct (max_key (fun score => score) (map snd theme_scores))
      as [highest|e] eqn:Hmax; [eauto | discriminate Hmax]. }
  destruct Hmax as [highest Hmax]. rewrite (bind_Ok_eq _ _ _ Hmax).
  apply max_key_first in Hmax as (vpre & vpost & Hvals & Hvlt & Hvle).
  assert (Hhigh : forall category, In category theme_keywords ->
            score_of keywords category <= highest).
  { intros category Hin. apply (in_map (score_of keywords)) in Hin.
    rewrite <- Hscores, Hvals in Hin.
    apply in_app_or in Hin as [Hin | [<- | Hin]];
      [specialize (Hvlt _ Hin) | | specialize (Hvle _ Hin)]; lia. }
  assert (Hsome : exists category, In category theme_keywords /\
                    score_of keywords category = highest).
  { assert (Hin : In highest (map (score_of keywords) theme_keywords)).
    { rewrite <- Hscores, Hvals. apply in_elt. }
    apply in_map_iff in Hin as (category & <- & Hin). eauto. }
  destruct (0 <? highest) eqn:Hpos.
  - apply Z.ltb_lt in Hpos.
    destruct (max_key (sd_count theme_scores) (map fst theme_scores))
      as [label|e] eqn:Hlabel; [|discriminate Hlabel].
    exists label. split; [reflexivity|]. split.
    + intros _.
      apply max_key_first in Hlabel as (npre & npost & Hsplit & Hlt & Hle).
      rewrite Hnames in Hsplit.
      apply map_split in Hsplit as (pre & [name words] & post & Hkw & Hpre & Hname & Hpost).
      simpl in Hname. subst name.
      assert (Hin_kw : forall category, In category theme_keywords <->
                In category pre \/ category = (label, words) \/ In category post).
      { intros category. rewrite Hkw, in_app_iff. simpl. intuition congruence. }
      assert (Hlabel_score : sd_count theme_scores label = theme_score keywords words).
      { apply (Hcount (label, words)), Hin_kw. auto. }
      exists pre, words, post. split; [exact Hkw|].
      assert (Hbefore : forall category, In category pre ->
                score_of keywords category < theme_score keywords words).
      { intros category Hin. rewrite <- Hlabel_score.
        rewrite <- (Hcount category) by (apply Hin_kw; auto).
        apply Hlt. rewrite <- Hpre. now apply in_map. }
      assert (Hafter : forall category, In category post ->
                score_of keywords category <= theme_score keywords words).
      { intros category Hin. rewrite <- Hlabel_score.
        rewrite <- (Hcount category) by (apply Hin_kw; auto).
        apply Hle. rewrite <- Hpost. now apply in_map. }
      split; [|split; [exact Hbefore | exact Hafter]].
      destruct Hsome as (best & Hbest_in & Hbest).
      apply Hin_kw in Hbest_in as [Hb | [-> | Hb]].
      * specialize (Hbefore _ Hb). lia.
      * unfold score_of in Hbest. simpl in Hbest. lia.
      * specialize (Hafter _ Hb). lia.
    + intros Hzero. exfalso.
      destruct Hsome as (best & Hbest_in & Hbest).
      rewrite (Hzero _ Hbest_in) in Hbest. lia.
  - apply Z.ltb_ge in Hpos. eexists. split; [reflexivity|]. split.
    + intros (category & Hin & Hscore). specialize (Hhigh _ Hin). lia.
    + reflexivity.
Qed.

Lemma generate_theme_label_spec_witness :
  _generate_theme_label ["friends"; "project"; "stress"] []
    = Ok "Work Performance" /\
  _generate_theme_label ["stress"; "today"; "again"] [] = Ok "Stress Today".
Proof.
  destruct (generate_theme_label_spec ["friends"; "project"; "stress"] [])
    as (label & Hrun & _ & _).
  destruct (generate_theme_label_spec ["stress"; "today"; "again"] [])
    as (label2 & Hrun2 & _ & Htitle).
  split.
  - rewrite Hrun. vm_compute in Hrun. now injection Hrun as <-.
  - rewrite Hrun2, Htitle; [reflexivity|].
    intros category Hin. unfold theme_keywords in Hin. simpl in Hin.
    repeat destruct Hin as [<- | Hin]; try reflexivity. destruct Hin.
Defined.

End KeywordFacts.

(** ** InsightGenerator *)

Module InsightFacts.
Import Py PyText ResultFacts TextFacts WordFacts MaxFacts InsightGenerator.

(** The record has a text, and one of [words] occurs in its lower case. *)
Definition says (words : list string) (entry : gmap string pyval) : Prop :=
  exists raw,
    get entry "combined_text" (VStr "") = VStr raw /\
    mentions words (lower raw).

Definition flags (words : list string) (entry : gmap string pyval) : bool :=
  match get entry "combined_text" (VStr "") with
  | VStr raw => any_in words (lower raw)
  | _ => false
  end.

Lemma flags_says words entry : flags words entry = true <-> says words entry.
Proof.
  unfold flags, says.
  destruct (get entry "combined_text" (VStr "")) eqn:Hget;
    try (split; [discriminate | intros (raw & [=] & _)]).
  rewrite any_in_spec. split.
  - intros Hm. eauto.
  - now intros (raw & [= <-] & Hm).
Qed.

Lemma flags_not_says words entry :
  flags words entry = false <-> ~ says words entry.
Proof.
  rewrite <- flags_says. destruct (flags words entry); split; congruence.
Qed.

(** The records that count as occasions of ambiguous language. *)
Definition occasions (data : list (gmap string pyval)) : nat :=
  length (List.filter (flags ambiguous_words) data).

Definition occasions_note (n : nat) : string :=
  "Ambiguous self-doubt language detected on " +:+ str_of_nat n
    +:+ " occasions. Interpretations should consider broader context.".

(** A record the two loops of [_generate_safety_notes] can read. *)
Definition readable (entry : gmap string pyval) : Prop :=
  (exists raw, get entry "combined_text" (VStr "") = VStr raw) /\
  is_Some (entry !! "date").

Lemma step_text entry raw {B : Type} (k : string -> result B) :
  get entry "combined_text" (VStr "") = VStr raw ->
  (as_str (get entry "combined_text" (VStr "")) ≫= k) = k raw.
Proof. now intros ->. Qed.

Lemma risk_loop_spec data b :
  risk_loop data = Ok b -> b = existsb (flags risk_words) data.
Proof.
  induction data as [|entry rest IH]; intros Hrun.
  - now injection Hrun as <-.
  - change (risk_loop (entry :: rest)) with
      (as_str (get entry "combined_text" (VStr "")) ≫= fun raw =>
       if any_in risk_words (lower raw) then Ok true else risk_loop rest) in Hrun.
    apply bind_Ok in Hrun as (raw & Hraw & Hrun).
    simpl. unfold flags at 1.
    destruct (get entry "combined_text" (VStr "")); try discriminate Hraw.
    injection Hraw as ->.
    destruct (any_in risk_words (lower raw)); [now injection Hrun as <- | auto].
Qed.

Lemma ambiguous_loop_spec data :
  forall count dates count' dates',
    ambiguous_loop data count dates = Ok (count', dates') ->
    count' = (count + occasions data)%nat.
Proof.
  unfold occasions.
  induction data as [|entry rest IH]; intros count dates count' dates' Hrun.
  - injection Hrun as <- <-. simpl. lia.
  - change (ambiguous_loop (entry :: rest) count dates) with
      (as_str (get entry "combined_text" (VStr "")) ≫= fun raw =>
       if any_in ambiguous_words (lower raw) then
         getitem entry "date" ≫= fun d =>
         ambiguous_loop rest (S count) (dates ++ [d])
       else ambiguous_loop rest count dates) in Hrun.
    apply bind_Ok in Hrun as (raw & Hraw & Hrun).
    simpl. unfold flags at 1.
    destruct (get entry "combined_text" (VStr "")); try discriminate Hraw.
    injection Hraw as ->.
    destruct (any_in ambiguous_words (lower raw)).
    + apply bind_Ok in Hrun as (d & _ & Hrun). apply IH in Hrun. simpl. lia.
    + now apply IH in Hrun.
Qed.

Lemma risk_loop_total data :
  Forall readable data -> exists b, risk_loop data = Ok b.
Proof.
  induction 1 as [|entry rest [[raw Hraw] _] _ IH]; [now exists false|].
  change (risk_loop (entry :: rest)) with
    (as_str (get entry "combined_text" (VStr "")) ≫= fun raw =>
     if any_in risk_words (lower raw) then Ok true else risk_loop rest).
  rewrite (step_text _ _ _ Hraw).
  destruct (any_in risk_words (lower raw)); eauto.
Qed.

Lemma ambiguous_loop_total data :
  Forall readable data ->
  forall count dates, exists found, ambiguous_loop data count dates = Ok found.
Proof.
  induction 1 as [|entry rest [[raw Hraw] [d Hd]] _ IH]; intros count dates;
    [now eexists|].
  change (ambiguous_loop (entry :: rest) count dates) with
    (as_str (get entry "combined_text" (VStr "")) ≫= fun raw =>
     if any_in ambiguous_words (lower raw) then
       getitem entry "date" ≫= fun d =>
       ambiguous_loop rest (S count) (dates ++ [d])
     else ambiguous_loop rest count dates).
  rewrite (step_text _ _ _ Hraw).
  destruct (any_in ambiguous_words (lower raw)); [|apply IH].
  unfold getitem. rewrite Hd. apply IH.
Qed.

Lemma safety_notes_inv anomalies data notes :
  _generate_safety_notes anomalies data = Ok notes ->
  notes =
    [if existsb (flags risk_words) data then high_risk_note else no_risk_note]
    ++ (if (0 <? occasions data)%nat then [occasions_note (occasions data)]
        else [])
    ++ [disclaimer].
Proof.
  unfold _generate_safety_notes. intros Hrun.
  apply bind_Ok in Hrun as (risk & Hrisk & Hrun).
  apply bind_Ok in Hrun as ([count dates] & Hfound & Hrun).
  apply risk_loop_spec in Hrisk as ->.
  apply ambiguous_loop_spec in Hfound. simpl in Hfound. subst count.
  injection Hrun as <-. reflexivity.
Qed.

Lemma occasions_pos data :
  (0 < occasions data)%nat <->
  exists entry, In entry data /\ says ambiguous_words entry.
Proof.
  unfold occasions. split.
  - intros Hpos.
    destruct (List.filter (flags ambiguous_words) data) as [|entry l] eqn:Hf;
      [simpl in Hpos; lia|].
    assert (Hin : In entry (List.filter (flags ambiguous_words) data))
      by (rewrite Hf; now left).
    apply filter_In in Hin as [Hin Hflag]. exists entry.
    split; [exact Hin | now apply flags_says].
  - intros (entry & Hin & Hsays).
    assert (Hf : In entry (List.filter (flags ambiguous_words) data))
      by (apply filter_In; split; [exact Hin | now apply flags_says]).
    destruct (List.filter (flags ambiguous_words) data); [destruct Hf|].
    simpl. lia.
Qed.

(** X21. The safety notes that [_generate_safety_notes] returns begin
    with the high-risk note when some record mentions a risk word in the
    lower case of its text, and with the no-risk note when none does;
    they end with the disclaimer. Between the two stands one note with
    the number of records that mention an ambiguous word, when there is
    such a record, and nothing otherwise. *)
Theorem safety_notes_spec
    (anomalies : list AnomalyDetector.Anomaly)
    (data : list (gmap string pyval)) (notes : list string) :
  _generate_safety_notes anomalies data = Ok notes ->
  exists first middle,
    notes = first :: middle ++ [disclaimer] /\
    ((exists entry, In entry data /\ says risk_words entry) ->
     first = high_risk_note) /\
    ((forall entry, In entry data -> ~ says risk_words entry) ->
     first = no_risk_note) /\
    ((exists entry, In entry data /\ says ambiguous_words entry) ->
     (0 < occasions data)%nat /\
     middle = [occasions_note (occasions data)]) /\
    ((forall entry, In entry data -> ~ says ambiguous_words entry) ->
     middle = []).
Proof.
  intros Hrun. apply safety_notes_inv in Hrun.
  exists (if existsb (flags risk_words) data then high_risk_note
          else no_risk_note),
         (if (0 <? occasions data)%nat then [occasions_note (occasions data)]
          else []).
  split; [exact Hrun|]. split; [|split; [|split]].
  - intros (entry & Hin & Hsays).
    assert (Hex : existsb (flags risk_words) data = true).
    { apply existsb_exists. exists entry. split; [exact Hin|].
      now apply flags_says. }
    now rewrite Hex.
  - intros Hnone.
    destruct (existsb (flags risk_words) data) eqn:Hex; [|reflexivity].
    apply existsb_exists in Hex as (entry & Hin & Hflag).
    apply flags_says in Hflag. now destruct (Hnone entry Hin).
  - intros Hsome. apply occasions_pos in Hsome. split; [exact Hsome|].
    apply Nat.ltb_lt in Hsome. now rewrite Hsome.
  - intros Hnone.
    destruct (0 <? occasions data)%nat eqn:Hpos; [|reflexivity].
    apply Nat.ltb_lt, occasions_pos in Hpos as (entry & Hin & Hsays).
    now destruct (Hnone entry Hin).
Qed.

Definition note_entry (date text : string) : gmap string pyval :=
  <["date" := VStr date]> (<["combined_text" := VStr text]> ∅).

Definition worried_month : list (gmap string pyval) :=
  [note_entry "2024-01-01" "Diary: Worried about the review";
   note_entry "2024-01-02" "Diary: I feel HOPELESS and full of doubt";
   note_entry "2024-01-03" "Diary: a calm day"].

Lemma safety_notes_spec_witness :
  exists first middle,
    _generate_safety_notes [] worried_month
      = Ok (first :: middle ++ [disclaimer]) /\
    first = high_risk_note /\
    middle = [occasions_note 2].
Proof.
  destruct (_generate_safety_notes [] worried_month) as [notes|e] eqn:Hrun;
    [|vm_compute in Hrun; discriminate Hrun].
  destruct (safety_notes_spec [] worried_month notes Hrun)
    as (first & middle & -> & Hrisk & _ & Hamb & _).
  exists first, middle. split; [reflexivity|]. split.
  - apply Hrisk.
    exists (note_entry "2024-01-02" "Diary: I feel HOPELESS and full of doubt").
    split; [simpl; auto|]. apply flags_says. vm_compute. reflexivity.
  - apply Hamb.
    exists (note_entry "2024-01-01" "Diary: Worried about the review").
    split; [simpl; auto|]. apply flags_says. vm_compute. reflexivity.
Defined.

(** The sentences of the macro insight. *)
Definition opening (theme : ThemeClusterer.Theme) : string :=
  "Over the 30-day period, life patterns were primarily characterized by "
    +:+ lower (ThemeClusterer.theme_label theme) +:+ ".".

Definition trend_sentence (trend : string) : string :=
  if String.eqb trend "improving" then
    "Overall emotional trajectory shows positive growth."
  else if String.eqb trend "declining" then
    "Some challenging periods were observed, suggesting need for additional support strategies."
  else
    "Emotional patterns remained relatively balanced throughout the period.".

Definition events_sentence (n : nat) : string :=
  str_of_nat n +:+ " significant emotional events were identified.".

Definition size (theme : ThemeClusterer.Theme) : Z :=
  Z.of_nat (ThemeClusterer.entry_count theme).

(** The trend that most weeks have; with no week at all, "stable". *)
Definition prevailing (trend : string) (trends : list string) : Prop :=
  match trends with
  | [] => trend = "stable"
  | _ :: _ => In trend trends /\ forall t, times t trends <= times trend trends
  end.

Lemma dominant_trend_prevails trends :
  let trend_counts := counter trends [] in
  exists trend,
    match trend_counts with
    | [] => Ok "stable"
    | _ :: _ => max_key (sd_count trend_counts) (map fst trend_counts)
    end = Ok trend /\
    prevailing trend trends.
Proof.
  cbv zeta.
  pose proof (counts_of_counter trends [] [] counts_of_nil) as Hc.
  simpl in Hc. destruct trends as [|t0 trends'].
  - exists "stable". now split.
  - set (trends := t0 :: trends') in *.
    assert (Hkeys : forall t, In t (map fst (counter trends [])) <-> In t trends).
    { intros t. rewrite sd_get_keys, (counts_lookup _ _ Hc), <- times_pos_In.
      pose proof (times_nonneg t trends).
      destruct (times t trends =? 0) eqn:H0.
      - apply Z.eqb_eq in H0. split; [congruence | lia].
      - apply Z.eqb_neq in H0. split; [lia | discriminate]. }
    assert (Hsome : counter trends [] <> []).
    { intros Hnil. assert (Hin0 : In t0 trends) by now left.
      apply Hkeys in Hin0. rewrite Hnil in Hin0. destruct Hin0. }
    assert (Hmatch :
              match counter trends [] with
              | [] => Ok "stable"
              | _ :: _ => max_key (sd_count (counter trends []))
                            (map fst (counter trends []))
              end
              = max_key (sd_count (counter trends []))
                  (map fst (counter trends [])))
      by (destruct (counter trends []); [congruence | reflexivity]).
    rewrite Hmatch. clear Hmatch.
    destruct (max_key (sd_count (counter trends [])) (map fst (counter trends [])))
      as [trend|e] eqn:Hmax.
    2:{ destruct (counter trends []); [congruence | discriminate Hmax]. }
    exists trend. split; [reflexivity|].
    apply max_key_first in Hmax as (pre & post & Hsplit & Hlt & Hle).
    assert (Hin : In trend trends).
    { apply Hkeys. rewrite Hsplit. apply in_elt. }
    unfold prevailing, trends at 1. fold trends. split; [exact Hin|].
    intros t. rewrite <- !(counts_of_value _ _ _ Hc).
    destruct (in_dec string_dec t trends) as [Ht | Ht].
    + apply Hkeys in Ht. rewrite Hsplit in Ht.
      apply in_app_or in Ht as [Ht | [<- | Ht]];
        [specialize (Hlt _ Ht) | | specialize (Hle _ Ht)]; lia.
    + rewrite (counts_of_value _ _ t Hc), (counts_of_value _ _ trend Hc).
      pose proof (times_nonneg trend trends).
      assert (times t trends = 0); [|lia].
      pose proof (times_nonneg t trends).
      destruct (Z.eq_dec (times t trends) 0) as [|Hne]; [assumption|].
      exfalso. apply Ht, times_pos_In. lia.
Qed.

Lemma macro_insight_parts
    (themes : list ThemeClusterer.Theme)
    (weekly_summaries : list TemporalAnalyzer.WeeklySummary) (total_weeks : nat)
    (anomalies : list AnomalyDetector.Anomaly)
    (patterns : PatternDetector.PatternReport) :
  themes <> [] ->
  exists pre best post trend,
    themes = pre ++ best :: post /\
    (forall t, In t pre -> size t < size best) /\
    (forall t, In t post -> size t <= size best) /\
    prevailing trend (map TemporalAnalyzer.mood_trend weekly_summaries) /\
    _generate_macro_insight themes (weekly_summaries, total_weeks)
        anomalies patterns
      = Ok (String.concat " "
              ([opening best; trend_sentence trend]
               ++ (if PatternDetector.weekly_cycle_detected patterns
                   then [PatternDetector.report_description patterns]
                   else [])
               ++ (match anomalies with
                   | [] => []
                   | _ :: _ => [events_sentence (length anomalies)]
                   end))).
Proof.
  intros Hne. unfold _generate_macro_insight.
  destruct (max_key (fun t => Z.of_nat (ThemeClusterer.entry_count t)) themes)
    as [best|e] eqn:Hbest; [|destruct themes; [congruence | discriminate]].
  rewrite (bind_Ok_eq _ _ _ eq_refl).
  apply max_key_first in Hbest as (pre & post & Hsplit & Hlt & Hle).
  cbn [fst].
  destruct (dominant_trend_prevails
              (map TemporalAnalyzer.mood_trend weekly_summaries))
    as (trend & Htrend & Hprev).
  rewrite (bind_Ok_eq _ _ _ Htrend).
  exists pre, best, post, trend.
  split; [exact Hsplit|]. split; [exact Hlt|]. split; [exact Hle|].
  split; [exact Hprev|].
  f_equal. f_equal. unfold opening, trend_sentence, events_sentence.
  now destruct anomalies.
Qed.

(** X22. Without a theme [_generate_macro_insight] raises [ValueError].
    With at least one it returns: the first sentence names, in lower
    case, the first theme of the greatest entry count, the second one is
    chosen by a mood trend that no other trend exceeds in number of
    weeks (balanced when there is no week), then comes the description
    of the weekly cycle if one was detected, then the number of
    anomalies if there is one. *)
Theorem macro_insight_spec
    (themes : list ThemeClusterer.Theme)
    (weekly_summaries : list TemporalAnalyzer.WeeklySummary) (total_weeks : nat)
    (anomalies : list AnomalyDetector.Anomaly)
    (patterns : PatternDetector.PatternReport) :
  (themes = [] ->
   _generate_macro_insight themes (weekly_summaries, total_weeks)
       anomalies patterns
     = Raise (ValueError "max() arg is an empty sequence")) /\
  (themes <> [] ->
   exists pre best post trend,
     themes = pre ++ best :: post /\
     (forall t, In t pre -> size t < size best) /\
     (forall t, In t post -> size t <= size best) /\
     prevailing trend (map TemporalAnalyzer.mood_trend weekly_summaries) /\
     _generate_macro_insight themes (weekly_summaries, total_weeks)
         anomalies patterns
       = Ok (String.concat " "
               ([opening best; trend_sentence trend]
                ++ (if PatternDetector.weekly_cycle_detected patterns
                    then [PatternDetector.report_description patterns]
                    else [])
                ++ (match anomalies with
                    | [] => []
                    | _ :: _ => [events_sentence (length anomalies)]
                    end)))).
Proof.
  split.
  - now intros ->.
  - apply macro_insight_parts.
Qed.

Definition theme_of (label : string) (n : nat) : ThemeClusterer.Theme :=
  {| ThemeClusterer.theme_label := label;
     ThemeClusterer.cluster_id := 0;
     ThemeClusterer.representative_entries := [];
     ThemeClusterer.keywords := [];
     ThemeClusterer.cluster_confidence := 0%Q;
     ThemeClusterer.entry_count := n |}.

Definition week_of_trend (trend theme : string) : TemporalAnalyzer.WeeklySummary :=
  {| TemporalAnalyzer.week := 1;
     TemporalAnalyzer.start_date := None;
     TemporalAnalyzer.end_date := None;
     TemporalAnalyzer.dominant_theme := theme;
     TemporalAnalyzer.mood_trend := trend;
     TemporalAnalyzer.entry_count := 1;
     TemporalAnalyzer.micro_insight := "" |}.

Definition no_cycle : PatternDetector.PatternReport :=
  {| PatternDetector.weekly_cycle_detected := false;
     PatternDetector.report_description := "";
     PatternDetector.day_of_week_patterns := [] |}.

Definition three_themes : list ThemeClusterer.Theme :=
  [theme_of "Rest & Recovery" 3; theme_of "Work Performance" 5;
   theme_of "Personal Growth" 5].

Definition trend_weeks : list TemporalAnalyzer.WeeklySummary :=
  [week_of_trend "stable" "a"; week_of_trend "improving" "a";
   week_of_trend "improving" "b"].

Lemma macro_insight_spec_witness :
  exists best trend,
    In best three_themes /\
    prevailing trend (map TemporalAnalyzer.mood_trend trend_weeks) /\
    _generate_macro_insight three_themes (trend_weeks, 3%nat) [] no_cycle
      = Ok (String.concat " " [opening best; trend_sentence trend]).
Proof.
  destruct (macro_insight_spec three_themes trend_weeks 3 [] no_cycle)
    as [_ Hsome].
  destruct (Hsome ltac:(discriminate))
    as (pre & best & post & trend & Hsplit & _ & _ & Hprev & Hrun).
  exists best, trend. split; [rewrite Hsplit; apply in_elt|].
  split; [exact Hprev | exact Hrun].
Defined.

(** X23. The predictive insight is determined by the mood trends and the
    dominant themes of the last two weekly summaries: earlier weeks, the
    other fields, the week count, the patterns and the records have no
    part in it. *)
Theorem predictive_insight_recent
    (earlier earlier' : list TemporalAnalyzer.WeeklySummary)
    (a b a' b' : TemporalAnalyzer.WeeklySummary) (n n' : nat)
    (patterns patterns' : PatternDetector.PatternReport)
    (data data' : list (gmap string pyval)) :
  TemporalAnalyzer.mood_trend a = TemporalAnalyzer.mood_trend a' ->
  TemporalAnalyzer.mood_trend b = TemporalAnalyzer.mood_trend b' ->
  TemporalAnalyzer.dominant_theme a = TemporalAnalyzer.dominant_theme a' ->
  TemporalAnalyzer.dominant_theme b = TemporalAnalyzer.dominant_theme b' ->
  _generate_predictive_insight (earlier ++ [a; b], n) patterns data =
  _generate_predictive_insight (earlier' ++ [a'; b'], n') patterns' data'.
Proof.
  intros Ha Hb Hta Htb. unfold _generate_predictive_insight. cbn [fst].
  assert (Hrecent : forall l (x y : TemporalAnalyzer.WeeklySummary),
            (length (l ++ [x; y]) <? 2)%nat = false /\
            drop (length (l ++ [x; y]) - 2) (l ++ [x; y]) = [x; y]).
  { intros l x y. rewrite length_app. simpl. split.
    - apply Nat.ltb_ge. lia.
    - replace (length l + 2 - 2)%nat with (length l) by lia.
      now rewrite drop_app_length. }
  destruct (Hrecent earlier a b) as [-> ->].
  destruct (Hrecent earlier' a' b') as [-> ->].
  cbn [map]. now rewrite Ha, Hb, Hta, Htb.
Qed.

Lemma predictive_insight_recent_witness :
  _generate_predictive_insight
      ([week_of_trend "stable" "Rest"; week_of_trend "declining" "Work";
        week_of_trend "declining" "Work"], 3%nat) no_cycle [] =
  _generate_predictive_insight
      ([week_of_trend "declining" "Work"; week_of_trend "declining" "Work"],
       2%nat) no_cycle worried_month.
Proof.
  apply (predictive_insight_recent [week_of_trend "stable" "Rest"] []);
    reflexivity.
Defined.

(** X24. [generate] returns the three insights whenever there is a
    theme, the combined text of every record is a [str] or absent, and
    every record has a date: the predictive insight is the one of
    [_generate_predictive_insight] and the last safety note is the
    disclaimer. Without a theme it raises [ValueError], whatever the
    records are. *)
Theorem generate_total
    (themes : list ThemeClusterer.Theme)
    (temporal_data : list TemporalAnalyzer.WeeklySummary * nat)
    (anomalies : list AnomalyDetector.Anomaly)
    (patterns : PatternDetector.PatternReport)
    (data : list (gmap string pyval)) :
  (themes = [] ->
   generate themes temporal_data anomalies patterns data
     = Raise (ValueError "max() arg is an empty sequence")) /\
  (themes <> [] -> Forall readable data ->
   exists insights,
     generate themes temporal_data anomalies patterns data = Ok insights /\
     predictive_insight insights
       = _generate_predictive_insight temporal_data patterns data /\
     last (safety_notes insights) = Some disclaimer).
Proof.
  split.
  - now intros ->.
  - intros Hne Hdata. unfold generate. destruct temporal_data as [weekly total].
    destruct (macro_insight_parts themes weekly total anomalies patterns Hne)
      as (pre & best & post & trend & _ & _ & _ & _ & Hrun).
    rewrite (bind_Ok_eq _ _ _ Hrun).
    assert (Hnotes : exists notes, _generate_safety_notes anomalies data = Ok notes).
    { unfold _generate_safety_notes.
      destruct (risk_loop_total data Hdata) as [risk Hrisk].
      rewrite (bind_Ok_eq _ _ _ Hrisk).
      destruct (ambiguous_loop_total data Hdata 0%nat []) as [found Hfound].
      rewrite (bind_Ok_eq _ _ _ Hfound). eauto. }
    destruct Hnotes as [notes Hnotes]. rewrite (bind_Ok_eq _ _ _ Hnotes).
    eexists. split; [reflexivity|]. split; [reflexivity|].
    cbn [safety_notes]. apply safety_notes_inv in Hnotes. rewrite Hnotes.
    now rewrite app_assoc, last_snoc.
Qed.

Lemma generate_total_witness :
  exists insights,
    generate [theme_of "Work Performance" 3]
        ([week_of_trend "stable" "Work Performance"], 1%nat) [] no_cycle
        worried_month
      = Ok insights /\
    last (safety_notes insights) = Some disclaimer.
Proof.
  destruct (generate_total [theme_of "Work Performance" 3]
              ([week_of_trend "stable" "Work Performance"], 1%nat) [] no_cycle
              worried_month) as [_ Hsome].
  destruct Hsome as (insights & Hrun & _ & Hlast).
  - discriminate.
  - unfold worried_month, readable, note_entry.
    repeat constructor; eauto.
  - eauto.
Defined.

End InsightFacts.

(** ** ThemeClusterer: the labels of the records *)

Module ClusterLabelFacts.
Import Py ResultFacts WeekWindowFacts FrameFacts ThemeClusterer.

(** X25. When [fit_predict] returns, k-means gave a label for every
    record, the record at position [i] of the data carries the label of
    row [i] as its [cluster] (for a record listed twice, of the last of
    its positions), and the themes are those of the cluster ids 0, 1,
    ... up to the cluster count, in this order, each extracted from the
    labelled records. *)
Theorem fit_predict_labels_records
    (km : KMeansImpl)
    (_extract_theme :
       KMeans -> Z -> list (gmap string pyval) -> list (list Q) -> list Z ->
       result Theme)
    (self : ThemeClusterer) (embeddings : list (list Q)) (data : list nat)
    (h h' : gmap nat (gmap string pyval)) (themes : list Theme) :
  Forall (fun ref => is_Some (h !! ref)) data ->
  fit_predict _extract_theme self embeddings data h = (Ok themes, h') ->
  exists labels,
    fit_predict_labels (model self) embeddings = Ok labels /\
    (length data <= length labels)%nat /\
    (forall i ref,
       data !! i = Some ref ->
       (forall j, (i < j)%nat -> data !! j <> Some ref) ->
       exists label,
         labels !! i = Some label /\
         deref h' ref !! "cluster" = Some (VInt label)) /\
    Forall2
      (fun cluster_id theme =>
         _extract_theme (model self) (Z.of_nat cluster_id)
           (map (deref h') data) embeddings labels = Ok theme)
      (seq 0 (n_clusters self)) themes.
Proof.
  intros Hlive. unfold fit_predict.
  destruct (fit_predict_labels (model self) embeddings) as [labels|e];
    [|discriminate].
  destruct (assign_clusters labels 0 data h) as [[[]|e] h1] eqn:Hloop;
    [|discriminate].
  intros [= Hthemes <-]. exists labels. split; [reflexivity|].
  destruct (assign_clusters_values _ _ _ _ _ Hlive Hloop) as [Hlen Hvalues].
  split; [destruct Hlen as [-> | Hlen]; simpl in *; lia|].
  split; [exact Hvalues|].
  now apply mapM_Ok_Forall2 in Hthemes.
Qed.

Definition two_live_records : gmap nat (gmap string pyval) :=
  <[0%nat := <["entry_id" := VStr "e1"]> ∅]>
    (<[1%nat := <["entry_id" := VStr "e2"]> ∅]> ∅).

(** The rows are labelled 1, 0, 1, 0, ... and a theme holds the number
    of records with its cluster id. *)
Definition alternating_kmeans : KMeansImpl :=
  {| fit_predict_labels := fun _ X =>
       Ok (imap (fun i _ => if Nat.even i then 1 else 0) X);
     cluster_centers_ := fun _ X => [] |}.

Lemma fit_predict_labels_records_witness :
  exists themes h',
    fit_predict (H := alternating_kmeans) counting_theme (__init__ 2)
      [[0%Q]; [1%Q]] [0%nat; 1%nat] two_live_records = (Ok themes, h') /\
    length themes = 2%nat.
Proof.
  evaluate (fit_predict (H := alternating_kmeans) counting_theme (__init__ 2)
              [[0%Q]; [1%Q]] [0%nat; 1%nat] two_live_records) Hrun.
  match type of Hrun with _ = (Ok ?themes, ?h') => exists themes, h' end.
  split; [exact Hrun|].
  assert (Hlive : Forall (fun ref => is_Some (two_live_records !! ref))
                    [0%nat; 1%nat]).
  { apply Forall_cons. split; [vm_compute; eauto|].
    apply Forall_cons. split; [vm_compute; eauto | apply Forall_nil_2]. }
  destruct (fit_predict_labels_records alternating_kmeans counting_theme
              _ _ _ _ _ _ Hlive Hrun)
    as (labels & _ & _ & _ & Hthemes).
  apply Forall2_length in Hthemes. now rewrite <- Hthemes.
Defined.

End ClusterLabelFacts.
